(** * The Garmin Connect adapter of tapiriik, embedded in Rocq

    A shallow embedding of [tapiriik/services/GarminConnect/garminconnect.py]:
    the activity-type taxonomy, the session manager, the listing normalizer,
    the detail fetcher and the upload pipeline, followed by sample inputs
    and by the properties the specification states about the adapter.

    Python values are modelled as the code uses them: a [float] is an IEEE
    binary64 number (Rocq's primitive floats), a [str] is the sequence of
    bytes of its UTF-8 encoding, a parsed JSON document is a
    tree of objects that carry their identity, an exception is a value of
    [exn] and a function that may raise returns a [result].  What the
    adapter calls but does not define (Python's library, pytz, the host's
    interchange types and codecs, the remote service) is an operation of the
    [Host] and [Collaborators] classes. *)

From Stdlib Require Import Floats.
From Stdlib Require Import Ascii String.
From stdpp Require Import base option list strings gmap pretty.
From Stdlib Require Import ZArith Lia.

Local Open Scope string_scope.
Local Open Scope Z_scope.

#[local] Set Warnings "-inexact-float".

(** ** Python values *)

Module Py.

(** A parsed JSON document as Python holds it.  [None], [True] and [False]
    are singletons; every other value is an object of its own, and [oid]
    is its identity (what [id(x)] returns), the thing [is] compares. *)
#[local] Unset Elimination Schemes.
Inductive json : Type :=
| JNull
| JBool (b : bool)
| JInt (oid : nat) (z : Z)
| JFloat (oid : nat) (f : float)
| JStr (oid : nat) (s : string)
| JList (oid : nat) (l : list json)
| JDict (oid : nat) (kv : list (string * json)).
#[local] Set Elimination Schemes.

(** The exceptions the adapter raises or lets through.  [APIException],
    [APIWarning] and [APIExcludeActivity] are tapiriik's own classes
    (tapiriik.services.api); the others are Python's and pytz's. *)
Inductive exn : Type :=
| KeyError (key : json)
| IndexError
| TypeError
| AttributeError
| ValueError (msg : string)
| OverflowError
| ZeroDivisionError
| UnknownTimeZoneError
| APIException (msg : string) (block : bool) (intervention_required : bool)
| APIWarning (msg : string)
| APIExcludeActivity (msg : string) (activityId : option json)
| OtherError (msg : string).

Inductive result (A : Type) : Type :=
| Ok (a : A)
| Raise (e : exn).
Arguments Ok {A} a.
Arguments Raise {A} e.

(** Sequencing: the first exception raised ends the computation. *)
#[export] Instance result_ret : MRet result := fun A a => Ok a.
#[export] Instance result_bind : MBind result := fun A B k m =>
  match m with
  | Ok a => k a
  | Raise e => Raise e
  end.

(** [a is b] *)
Definition py_is (a b : json) : bool :=
  match a, b with
  | JNull, JNull => true
  | JBool x, JBool y => Bool.eqb x y
  | JInt o _, JInt o' _
  | JFloat o _, JFloat o' _
  | JStr o _, JStr o' _
  | JList o _, JList o' _
  | JDict o _, JDict o' _ => Nat.eqb o o'
  | _, _ => false
  end.

(** A [dict] with string keys, as an association list read at the first
    binding of a key. *)
Fixpoint assoc {V} (k : string) (d : list (string * V)) : option V :=
  match d with
  | [] => None
  | (k', v) :: d' => if String.eqb k' k then Some v else assoc k d'
  end.

(** [x == s] for a Python string [s]: only a string equals a string. *)
Definition eq_str (x : json) (s : string) : bool :=
  match x with
  | JStr _ s' => String.eqb s' s
  | _ => false
  end.

(** [needle in hay] on strings: [needle] occurs in [hay]. *)
Fixpoint is_substring (needle hay : string) : bool :=
  String.prefix needle hay ||
  match hay with
  | EmptyString => false
  | String _ hay' => is_substring needle hay'
  end.

(** [k in x] for a string [k]: a key of a dict, an element of a list, a
    substring of a string; other values do not support [in]. *)
Definition py_in (k : string) (x : json) : result bool :=
  match x with
  | JDict _ kv => Ok (match assoc k kv with Some _ => true | None => false end)
  | JList _ l => Ok (existsb (fun y => eq_str y k) l)
  | JStr _ s => Ok (is_substring k s)
  | _ => Raise TypeError
  end.

(** [d[k]] for a string [k] *)
Definition getitem (d : json) (k : string) : result json :=
  match d with
  | JDict _ kv =>
      match assoc k kv with
      | Some v => Ok v
      | None => Raise (KeyError (JStr 0 k))
      end
  | _ => Raise TypeError
  end.

(** [l[i]] for an index [i] that is not negative *)
Definition getindex (l : json) (i : nat) : result json :=
  match l with
  | JList _ xs =>
      match xs !! i with
      | Some v => Ok v
      | None => Raise IndexError
      end
  | JDict _ _ => Raise (KeyError (JInt 0 (Z.of_nat i)))
  | _ => Raise TypeError
  end.

(** In the encoding of a string, a byte from 128 to 191 continues the
    character that the bytes before it began. *)
Definition is_continuation (c : Ascii.ascii) : bool :=
  let n := Ascii.nat_of_ascii c in
  Nat.leb 128 n && Nat.leb n 191.

(** [len(s)] for a string: the number of its characters. *)
Fixpoint str_len (s : string) : nat :=
  match s with
  | EmptyString => O
  | String c s' => if is_continuation c then str_len s' else S (str_len s')
  end.

(** [len(x)] *)
Definition py_len (x : json) : result nat :=
  match x with
  | JList _ xs => Ok (length xs)
  | JDict _ kv => Ok (length kv)
  | JStr _ s => Ok (str_len s)
  | _ => Raise TypeError
  end.

(** The bytes that continue the character before them, and the characters
    that follow. *)
Fixpoint characters_from (s : string) : string * list string :=
  match s with
  | EmptyString => (EmptyString, [])
  | String c s' =>
      let '(continuation, rest) := characters_from s' in
      if is_continuation c then (String c continuation, rest)
      else (EmptyString, String c continuation :: rest)
  end.

(** The characters of a string, each a string of its own. *)
Definition characters (s : string) : list string :=
  match characters_from s with
  | (EmptyString, rest) => rest
  | (continuation, rest) => continuation :: rest
  end.

(** Iterating over a value ([for x in v]): the elements of a list, the
    keys of a dict, the characters of a string. *)
Definition py_iter (x : json) : result (list json) :=
  match x with
  | JList _ xs => Ok xs
  | JDict _ kv => Ok (map (fun entry => JStr 0 entry.1) kv)
  | JStr _ s => Ok (map (JStr 0) (characters s))
  | _ => Raise TypeError
  end.

(** Truthiness of a float ([if x:]): every float but zero, NaN included. *)
Definition float_truthy (x : float) : bool := negb (PrimFloat.eqb x 0).

(** [a / b] on floats: Python raises where IEEE would answer a zero
    divisor with an infinity or a NaN. *)
Definition float_div (a b : float) : result float :=
  if PrimFloat.eqb b 0 then Raise ZeroDivisionError else Ok (PrimFloat.div a b).

(** [math.isinf] *)
Definition isinf (x : float) : bool :=
  PrimFloat.eqb (PrimFloat.abs x) PrimFloat.infinity.

(** [float(n)] for an integer: the nearest float, or [OverflowError]. *)
Definition float_of_int (z : Z) : result float :=
  let f := SF2Prim (SpecFloat.binary_normalize prec emax z 0 false) in
  if isinf f then Raise OverflowError else Ok f.

(** The characters [str.strip] removes are those [str.isspace] holds of:
    U+0009 to U+000D, U+001C to U+0020, U+0085, U+00A0, U+1680, U+2000 to
    U+200A, U+2028, U+2029, U+202F, U+205F and U+3000.  Those of one
    byte: *)
Definition is_whitespace (c : Ascii.ascii) : bool :=
  let n := Ascii.nat_of_ascii c in
  (Nat.leb 9 n && Nat.leb n 13) || (Nat.leb 28 n && Nat.leb n 32).

(** of two bytes, U+0085 (194 133) and U+00A0 (194 160): *)
Definition is_whitespace2 (a b : Ascii.ascii) : bool :=
  let a := Ascii.nat_of_ascii a in
  let b := Ascii.nat_of_ascii b in
  Nat.eqb a 194 && (Nat.eqb b 133 || Nat.eqb b 160).

(** and of three bytes: U+1680 (225 154 128), U+2000 to U+200A (226 128
    128 to 226 128 138), U+2028, U+2029 and U+202F (226 128 168, 169 and
    175), U+205F (226 129 159) and U+3000 (227 128 128). *)
Definition is_whitespace3 (a b c : Ascii.ascii) : bool :=
  let a := Ascii.nat_of_ascii a in
  let b := Ascii.nat_of_ascii b in
  let c := Ascii.nat_of_ascii c in
  (Nat.eqb a 225 && Nat.eqb b 154 && Nat.eqb c 128)
  || (Nat.eqb a 226 && Nat.eqb b 128
      && ((Nat.leb 128 c && Nat.leb c 138)
          || Nat.eqb c 168 || Nat.eqb c 169 || Nat.eqb c 175))
  || (Nat.eqb a 226 && Nat.eqb b 129 && Nat.eqb c 159)
  || (Nat.eqb a 227 && Nat.eqb b 128 && Nat.eqb c 128).

(** [s.lstrip()] *)
Fixpoint lstrip (s : string) : string :=
  match s with
  | String a s1 =>
      if is_whitespace a then lstrip s1
      else
        match s1 with
        | String b s2 =>
            if is_whitespace2 a b then lstrip s2
            else
              match s2 with
              | String c s3 => if is_whitespace3 a b c then lstrip s3 else s
              | EmptyString => s
              end
        | EmptyString => s
        end
  | EmptyString => EmptyString
  end.

(** The same on a string read from its end: the bytes of a character come
    last byte first. *)
Fixpoint lstrip_reversed (s : string) : string :=
  match s with
  | String a s1 =>
      if is_whitespace a then lstrip_reversed s1
      else
        match s1 with
        | String b s2 =>
            if is_whitespace2 b a then lstrip_reversed s2
            else
              match s2 with
              | String c s3 =>
                  if is_whitespace3 c b a then lstrip_reversed s3 else s
              | EmptyString => s
              end
        | EmptyString => s
        end
  | EmptyString => EmptyString
  end.

(** [s.rstrip()] *)
Definition rstrip (s : string) : string :=
  String.rev (lstrip_reversed (String.rev s)).

(** [s.strip()] *)
Definition strip (s : string) : string := rstrip (lstrip s).

(** [s.split(sep)] for a separator of one character *)
Fixpoint split (sep : Ascii.ascii) (s : string) : list string :=
  match s with
  | EmptyString => [EmptyString]
  | String c s' =>
      if Ascii.eqb c sep then EmptyString :: split sep s'
      else match split sep s' with
           | w :: ws => String c w :: ws
           | [] => [String c EmptyString]
           end
  end.

End Py.
Export Py.

(** ** The host's types *)

(** The host's activity types (tapiriik.services.interchange.ActivityType)
    that the adapter names; [UnlistedType] stands for the members of the
    enumeration this file never mentions. *)
Inductive ActivityType : Type :=
| Running | Cycling | MountainBiking | Walking | Hiking | DownhillSkiing
| CrossCountrySkiing | Skating | Swimming | Rowing | Elliptical | Other
| UnlistedType (name : string).

#[export] Instance ActivityType_eq_dec : EqDecision ActivityType.
Proof. solve_decision. Defined.

(** The units of measure (interchange.ActivityStatisticUnit) the adapter
    names, and [UnlistedUnit] for the others. *)
Inductive ActivityStatisticUnit : Type :=
| MilesPerHour | KilometersPerHour | HectometersPerHour | HundredYardsPerHour
| DegreesCelcius | DegreesFahrenheit
| Miles | Kilometers | Feet | Meters | Yards
| Kilocalories | BeatsPerMinute | StepsPerMinute | RevolutionsPerMinute | Watts
| Time
| UnlistedUnit (name : string).

#[export] Instance ActivityStatisticUnit_eq_dec : EqDecision ActivityStatisticUnit.
Proof. solve_decision. Defined.

(** A statistic (interchange.ActivityStatistic): a unit tag and six
    optional facets. *)
Record ActivityStatistic : Type := {
  Units : ActivityStatisticUnit;
  Value : option float;
  Average : option float;
  Min : option float;
  Max : option float;
  Gain : option float;
  Loss : option float
}.

(** The keyword arguments of [ActivityStatistic(units, ...)]. *)
Inductive Facet : Type := kw_value | kw_avg | kw_min | kw_max | kw_gain | kw_loss.

(** [ActivityStatistic(units, **{type: value})] *)
Definition new_ActivityStatistic (units : ActivityStatisticUnit) (type : Facet)
    (v : float) : ActivityStatistic :=
  {| Units := units;
     Value := match type with kw_value => Some v | _ => None end;
     Average := match type with kw_avg => Some v | _ => None end;
     Min := match type with kw_min => Some v | _ => None end;
     Max := match type with kw_max => Some v | _ => None end;
     Gain := match type with kw_gain => Some v | _ => None end;
     Loss := match type with kw_loss => Some v | _ => None end |}.

(** Python's library, pytz and the unit conversion of the host: what they
    compute is outside this repository, so each is an operation of the
    class, named after the call it stands for. *)
Class Host : Type := {
  (** [float(s)] for a string; [None] where Python raises [ValueError] *)
  float_of_str : string -> option float;
  (** [round(x)] *)
  py_round : float -> result Z;
  (** [str(x)] *)
  py_str : json -> string;
  (** [int(x)] *)
  py_int : json -> result Z;
  tzinfo : Type;
  datetime : Type;
  timedelta : Type;
  (** [pytz.timezone(name)], which raises [UnknownTimeZoneError] for a name
      it does not know *)
  pytz_timezone : json -> result tzinfo;
  (** [pytz.FixedOffset(minutes)] *)
  pytz_FixedOffset : float -> result tzinfo;
  (** [pytz.utc.localize(datetime.utcfromtimestamp(seconds))] *)
  utcfromtimestamp : float -> result datetime;
  (** [timedelta(0, seconds)] for an integer *)
  timedelta_of_int_seconds : Z -> result timedelta;
  (** [timedelta(minutes=m, seconds=s)] *)
  timedelta_of_minutes_seconds : float -> float -> result timedelta;
  (** [timedelta(seconds=s)] *)
  timedelta_of_seconds : float -> result timedelta;
  (** [t + d] *)
  datetime_add : datetime -> timedelta -> result datetime;
  (** interchange's conversion of a value from one unit to another, which
      raises for units that do not measure the same quantity *)
  convertValue : float -> ActivityStatisticUnit -> ActivityStatisticUnit -> result float;
  (** what a lap holds besides its statistics *)
  LapData : Type
}.

Section HostTypes.
Context `{Host}.

(** [float(x)] *)
Definition py_float (x : json) : result float :=
  match x with
  | JFloat _ f => Ok f
  | JInt _ z => float_of_int z
  | JBool b => Ok (if b then 1%float else 0%float)
  | JStr _ s =>
      match float_of_str s with
      | Some f => Ok f
      | None => Raise (ValueError "could not convert string to float")
      end
  | _ => Raise TypeError
  end.

Definition convert_facet (from to : ActivityStatisticUnit) (v : option float)
    : result (option float) :=
  match v with
  | Some x => y ← convertValue x from to; Ok (Some y)
  | None => Ok None
  end.

(** Modelled from the spec: [ActivityStatistic.asUnits] (interchange.py is
    not among the sources): the statistic re-expressed in [units], every
    facet that is set converted explicitly; a statistic already in [units]
    is returned as it is. *)
Definition asUnits (s : ActivityStatistic) (units : ActivityStatisticUnit)
    : result ActivityStatistic :=
  if bool_decide (units = Units s) then Ok s
  else
    v ← convert_facet (Units s) units (Value s);
    a ← convert_facet (Units s) units (Average s);
    mn ← convert_facet (Units s) units (Min s);
    mx ← convert_facet (Units s) units (Max s);
    g ← convert_facet (Units s) units (Gain s);
    l ← convert_facet (Units s) units (Loss s);
    Ok {| Units := units; Value := v; Average := a; Min := mn; Max := mx;
          Gain := g; Loss := l |}.

Definition overwrite (old new : option float) : option float :=
  match new with
  | Some v => Some v
  | None => old
  end.

(** Modelled from the spec: [ActivityStatistic.update] (interchange.py is
    not among the sources): the facets that are set in [stat], converted to
    the receiver's units, overwrite the receiver's; the other facets and
    the unit tag stay. *)
Definition update (self stat : ActivityStatistic) : result ActivityStatistic :=
  stat' ← asUnits stat (Units self);
  Ok {| Units := Units self;
        Value := overwrite (Value self) (Value stat');
        Average := overwrite (Average self) (Average stat');
        Min := overwrite (Min self) (Min stat');
        Max := overwrite (Max self) (Max stat');
        Gain := overwrite (Gain self) (Gain stat');
        Loss := overwrite (Loss self) (Loss stat') |}.

(** The statistics of an activity or of a lap
    (interchange.ActivityStatistics), with the members the adapter reads or
    writes.  [MovingTime] is a statistic in unit [Time] whose value is a
    [timedelta]. *)
Record ActivityStatistics : Type := {
  Distance : ActivityStatistic;
  MovingTime : option timedelta;
  Speed : ActivityStatistic;
  Temperature : ActivityStatistic;
  Energy : ActivityStatistic;
  HR : ActivityStatistic;
  RunCadence : ActivityStatistic;
  Cadence : ActivityStatistic;
  Power : ActivityStatistic;
  Elevation : ActivityStatistic
}.

(** The names [mapStat] looks a statistic up by
    ([activity.Stats.__dict__[statKey]]). *)
Inductive StatKey : Type :=
| SK_Speed | SK_Temperature | SK_Energy | SK_HR | SK_RunCadence | SK_Cadence
| SK_Power | SK_Elevation.

Definition get_stat (k : StatKey) (s : ActivityStatistics) : ActivityStatistic :=
  match k with
  | SK_Speed => Speed s
  | SK_Temperature => Temperature s
  | SK_Energy => Energy s
  | SK_HR => HR s
  | SK_RunCadence => RunCadence s
  | SK_Cadence => Cadence s
  | SK_Power => Power s
  | SK_Elevation => Elevation s
  end.

Definition set_stat (k : StatKey) (v : ActivityStatistic) (s : ActivityStatistics)
    : ActivityStatistics :=
  {| Distance := Distance s;
     MovingTime := MovingTime s;
     Speed := match k with SK_Speed => v | _ => Speed s end;
     Temperature := match k with SK_Temperature => v | _ => Temperature s end;
     Energy := match k with SK_Energy => v | _ => Energy s end;
     HR := match k with SK_HR => v | _ => HR s end;
     RunCadence := match k with SK_RunCadence => v | _ => RunCadence s end;
     Cadence := match k with SK_Cadence => v | _ => Cadence s end;
     Power := match k with SK_Power => v | _ => Power s end;
     Elevation := match k with SK_Elevation => v | _ => Elevation s end |}.

(** Modelled from the spec: [ActivityStatistics.update] (interchange.py is
    not among the sources): the summary statistics [stats] overwrite the
    receiver's, statistic by statistic. *)
Definition update_stats (self stats : ActivityStatistics) : result ActivityStatistics :=
  d ← update (Distance self) (Distance stats);
  sp ← update (Speed self) (Speed stats);
  te ← update (Temperature self) (Temperature stats);
  en ← update (Energy self) (Energy stats);
  hr ← update (HR self) (HR stats);
  rc ← update (RunCadence self) (RunCadence stats);
  ca ← update (Cadence self) (Cadence stats);
  po ← update (Power self) (Power stats);
  el ← update (Elevation self) (Elevation stats);
  Ok {| Distance := d;
        MovingTime := match MovingTime stats with
                      | Some t => Some t
                      | None => MovingTime self
                      end;
        Speed := sp; Temperature := te; Energy := en; HR := hr;
        RunCadence := rc; Cadence := ca; Power := po; Elevation := el |}.

(** A lap (interchange.Lap). *)
Record Lap : Type := {
  LapStats : ActivityStatistics;
  LapRest : LapData
}.

(** The canonical activity (interchange.UploadedActivity), with the
    attributes the adapter reads or writes; an attribute that has not been
    assigned is [None]. *)
Record UploadedActivity : Type := {
  Stationary : option bool;
  TZ : option tzinfo;
  Name : option string;
  Notes : option string;
  StartTime : option datetime;
  EndTime : option datetime;
  Stats : ActivityStatistics;
  Type_ : option ActivityType;
  UID : option string;
  ServiceData : list (string * json);
  Laps : list Lap
}.

(** Assignments to the attributes of a statistic and of an activity. *)
Definition set_Min (v : option float) (s : ActivityStatistic) : ActivityStatistic :=
  {| Units := Units s; Value := Value s; Average := Average s; Min := v;
     Max := Max s; Gain := Gain s; Loss := Loss s |}.

Definition set_Max (v : option float) (s : ActivityStatistic) : ActivityStatistic :=
  {| Units := Units s; Value := Value s; Average := Average s; Min := Min s;
     Max := v; Gain := Gain s; Loss := Loss s |}.

Definition set_Average (v : option float) (s : ActivityStatistic) : ActivityStatistic :=
  {| Units := Units s; Value := Value s; Average := v; Min := Min s;
     Max := Max s; Gain := Gain s; Loss := Loss s |}.

Definition set_Distance (v : ActivityStatistic) (s : ActivityStatistics)
    : ActivityStatistics :=
  {| Distance := v; MovingTime := MovingTime s; Speed := Speed s;
     Temperature := Temperature s; Energy := Energy s; HR := HR s;
     RunCadence := RunCadence s; Cadence := Cadence s; Power := Power s;
     Elevation := Elevation s |}.

Definition set_MovingTime (v : option timedelta) (s : ActivityStatistics)
    : ActivityStatistics :=
  {| Distance := Distance s; MovingTime := v; Speed := Speed s;
     Temperature := Temperature s; Energy := Energy s; HR := HR s;
     RunCadence := RunCadence s; Cadence := Cadence s; Power := Power s;
     Elevation := Elevation s |}.

Definition set_Stationary (v : option bool) (a : UploadedActivity) : UploadedActivity :=
  {| Stationary := v; TZ := TZ a; Name := Name a; Notes := Notes a;
     StartTime := StartTime a; EndTime := EndTime a; Stats := Stats a;
     Type_ := Type_ a; UID := UID a; ServiceData := ServiceData a; Laps := Laps a |}.

Definition set_TZ (v : option tzinfo) (a : UploadedActivity) : UploadedActivity :=
  {| Stationary := Stationary a; TZ := v; Name := Name a; Notes := Notes a;
     StartTime := StartTime a; EndTime := EndTime a; Stats := Stats a;
     Type_ := Type_ a; UID := UID a; ServiceData := ServiceData a; Laps := Laps a |}.

Definition set_Name (v : option string) (a : UploadedActivity) : UploadedActivity :=
  {| Stationary := Stationary a; TZ := TZ a; Name := v; Notes := Notes a;
     StartTime := StartTime a; EndTime := EndTime a; Stats := Stats a;
     Type_ := Type_ a; UID := UID a; ServiceData := ServiceData a; Laps := Laps a |}.

Definition set_StartTime (v : option datetime) (a : UploadedActivity) : UploadedActivity :=
  {| Stationary := Stationary a; TZ := TZ a; Name := Name a; Notes := Notes a;
     StartTime := v; EndTime := EndTime a; Stats := Stats a;
     Type_ := Type_ a; UID := UID a; ServiceData := ServiceData a; Laps := Laps a |}.

Definition set_EndTime (v : option datetime) (a : UploadedActivity) : UploadedActivity :=
  {| Stationary := Stationary a; TZ := TZ a; Name := Name a; Notes := Notes a;
     StartTime := StartTime a; EndTime := v; Stats := Stats a;
     Type_ := Type_ a; UID := UID a; ServiceData := ServiceData a; Laps := Laps a |}.

Definition set_Stats (v : ActivityStatistics) (a : UploadedActivity) : UploadedActivity :=
  {| Stationary := Stationary a; TZ := TZ a; Name := Name a; Notes := Notes a;
     StartTime := StartTime a; EndTime := EndTime a; Stats := v;
     Type_ := Type_ a; UID := UID a; ServiceData := ServiceData a; Laps := Laps a |}.

Definition set_Type (v : option ActivityType) (a : UploadedActivity) : UploadedActivity :=
  {| Stationary := Stationary a; TZ := TZ a; Name := Name a; Notes := Notes a;
     StartTime := StartTime a; EndTime := EndTime a; Stats := Stats a;
     Type_ := v; UID := UID a; ServiceData := ServiceData a; Laps := Laps a |}.

Definition set_UID (v : option string) (a : UploadedActivity) : UploadedActivity :=
  {| Stationary := Stationary a; TZ := TZ a; Name := Name a; Notes := Notes a;
     StartTime := StartTime a; EndTime := EndTime a; Stats := Stats a;
     Type_ := Type_ a; UID := v; ServiceData := ServiceData a; Laps := Laps a |}.

Definition set_ServiceData (v : list (string * json)) (a : UploadedActivity)
    : UploadedActivity :=
  {| Stationary := Stationary a; TZ := TZ a; Name := Name a; Notes := Notes a;
     StartTime := StartTime a; EndTime := EndTime a; Stats := Stats a;
     Type_ := Type_ a; UID := UID a; ServiceData := v; Laps := Laps a |}.

Definition set_Laps (v : list Lap) (a : UploadedActivity) : UploadedActivity :=
  {| Stationary := Stationary a; TZ := TZ a; Name := Name a; Notes := Notes a;
     StartTime := StartTime a; EndTime := EndTime a; Stats := Stats a;
     Type_ := Type_ a; UID := UID a; ServiceData := ServiceData a; Laps := v |}.

End HostTypes.

(** The rest of the host (interchange's methods, the codecs of the
    endurance-file formats, the credential store): opaque collaborators of
    the adapter. *)
Class Collaborators `{Host} : Type := {
  (** [CredentialStore.Decrypt] *)
  Decrypt : string -> result string;
  (** the statistics of a new activity, [ActivityStatistics()] *)
  new_ActivityStatistics : ActivityStatistics;
  (** [activity.AdjustTZ()] *)
  AdjustTZ : UploadedActivity -> result UploadedActivity;
  (** [activity.EnsureTZ()] *)
  EnsureTZ : UploadedActivity -> result UploadedActivity;
  (** the digest [activity.CalculateUID()] computes *)
  uid_digest : UploadedActivity -> string;
  (** [TCXIO.Parse(bytes, activity)], which raises [ValueError] on a
      malformed document *)
  TCXIO_Parse : string -> UploadedActivity -> result UploadedActivity;
  (** [FITIO.Dump(activity)] *)
  FITIO_Dump : UploadedActivity -> result string
}.

(** ** The remote service and the adapter's state *)

(** A cookie jar ([requests]' [RequestsCookieJar]): the cookies by name.
    Like every Python container, an empty jar is false where a condition
    tests it. *)
Definition CookieJar : Type := list (string * string).

Inductive arg : Type :=
| ANone
| AInt (z : Z)
| AStr (s : string)
| AFile (name : string) (content : string).

Inductive Method : Type := GET | POST.

(** One call of [requests.get] or [requests.post]. *)
Record Request : Type := {
  method : Method;
  url : string;
  params : list (string * arg);
  data : list (string * arg);
  files : list (string * arg);
  cookies : option CookieJar;
  allow_redirects : bool
}.

(** What the call returns: the status code, the cookies the server set,
    the body as [res.json()] parses it and as [res.content] holds it. *)
Record Response : Type := {
  status_code : Z;
  resp_cookies : CookieJar;
  resp_json : result json;
  content : string
}.

#[export] Instance arg_eq_dec : EqDecision arg.
Proof. solve_decision. Defined.
#[export] Instance Method_eq_dec : EqDecision Method.
Proof. solve_decision. Defined.
#[export] Instance Request_eq_dec : EqDecision Request.
Proof. solve_decision. Defined.

(** The account a synchronisation runs for (the host's service record). *)
Record ServiceRecord : Type := {
  ExternalID : string;
  ExtendedAuthorization : list (string * string)
}.

(** What surrounds one call of the adapter: the remote service (the answer
    to each request, or the exception [requests] raises), the clock in
    seconds, and the process id. *)
Record World : Type := {
  requests : Request -> result Response;
  utcnow : Z;
  getpid : Z
}.

(** One entry of the session cache: the cookies and the time they expire. *)
Record CacheRecord : Type := {
  cached_value : CookieJar;
  expires : Z
}.

(** What the adapter changes as it runs: the session cache shared by all
    calls, and the requests sent so far, oldest first. *)
Record State : Type := {
  _sessionCache : gmap string CacheRecord;
  sent : list Request
}.

Module SessionCache.

(** [SessionCache(lifetime=timedelta(minutes=30), freshen_on_get=True)] *)
Definition lifetime : Z := 30 * 60.

(** Modelled from the spec: [SessionCache.Get] (sessioncache.py is not
    among the sources): the cached set if present and unexpired; the
    lifetime is sliding, extended on every successful read; an entry is a
    miss strictly after its expiry. *)
Definition Get (now : Z) (pk : string) (cache : gmap string CacheRecord)
    : option CookieJar * gmap string CacheRecord :=
  match cache !! pk with
  | Some r =>
      if now <=? expires r then
        (Some (cached_value r),
         <[pk := {| cached_value := cached_value r; expires := now + lifetime |}]> cache)
      else (None, cache)
  | None => (None, cache)
  end.

(** Modelled from the spec: [SessionCache.Set] (sessioncache.py is not
    among the sources): the entry of [pk] becomes [value], expiring one
    lifetime from now. *)
Definition Set_ (now : Z) (pk : string) (value : CookieJar)
    (cache : gmap string CacheRecord) : gmap string CacheRecord :=
  <[pk := {| cached_value := value; expires := now + lifetime |}]> cache.

End SessionCache.

(** The state after one more request. *)
Definition after (st : State) (req : Request) : State :=
  {| _sessionCache := _sessionCache st; sent := (sent st ++ [req])%list |}.

(** Computations of the adapter: they read the world, change the state and
    return or raise. *)
Definition Adapter (A : Type) : Type := State -> result A * State.

#[export] Instance Adapter_ret : MRet Adapter := fun A a st => (Ok a, st).
#[export] Instance Adapter_bind : MBind Adapter := fun A B k m st =>
  match m st with
  | (Ok a, st') => k a st'
  | (Raise e, st') => (Raise e, st')
  end.

(** A computation that does not touch the state. *)
Definition lift {A} (r : result A) : Adapter A := fun st => (r, st).

(** [raise e] *)
Definition throw {A} (e : exn) : Adapter A := fun st => (Raise e, st).

Section Session.
Context `{Collaborators}.
Variable w : World.

(** [requests.get(...)] and [requests.post(...)]: the request goes out, and
    the world answers. *)
Definition send (req : Request) : Adapter Response := fun st =>
  (requests w req, after st req).

(** [self._sessionCache.Get(pk)] *)
Definition cache_Get (pk : string) : Adapter (option CookieJar) := fun st =>
  let '(v, cache) := SessionCache.Get (utcnow w) pk (_sessionCache st) in
  (Ok v, {| _sessionCache := cache; sent := sent st |}).

(** [self._sessionCache.Set(pk, value)] *)
Definition cache_Set (pk : string) (value : CookieJar) : Adapter unit := fun st =>
  (Ok tt,
   {| _sessionCache := SessionCache.Set_ (utcnow w) pk value (_sessionCache st);
      sent := sent st |}).

(** [d[k]] on the credentials of a service record *)
Definition credential (d : list (string * string)) (k : string) : result string :=
  match assoc k d with
  | Some v => Ok v
  | None => Raise (KeyError (JStr 0 k))
  end.

Definition optional_str (s : option string) : arg :=
  match s with
  | Some v => AStr v
  | None => ANone
  end.

(** [if cached:] *)
Definition cookies_truthy (cached : option CookieJar) : bool :=
  match cached with
  | Some (_ :: _) => true
  | _ => false
  end.

Definition signin_url : string := "https://connect.garmin.com/signin".

(** [_get_cookies], from the login request on (lines 92 to 101). *)
Definition signin (record : option ServiceRecord) (email password : option string)
    : Adapter CookieJar :=
  let params :=
    [ ("login", AStr "login");
      ("login:loginUsernameField", optional_str email);
      ("login:password", optional_str password);
      ("login:signInButton", AStr "Sign In");
      ("javax.faces.ViewState", AStr "j_id1") ] in
  preResp ← send {| method := GET; url := signin_url; params := []; data := [];
                    files := []; cookies := None; allow_redirects := true |};
  resp ← send {| method := POST; url := signin_url; params := []; data := params;
                 files := []; cookies := Some (resp_cookies preResp);
                 allow_redirects := false |};
  if (500 <=? status_code resp) && (status_code resp <? 600) then
    throw (APIException "Remote API failure" false false)
  else if negb (status_code resp =? 302) then
    throw (APIException "Invalid login" true true)
  else
    _ ← match record with
        | Some r => cache_Set (ExternalID r) (resp_cookies preResp)
        | None => mret tt
        end;
    mret (resp_cookies preResp).

(** [_get_cookies(self, record=None, email=None, password=None)] *)
Definition _get_cookies (record : option ServiceRecord)
    (email password : option string) : Adapter CookieJar :=
  match record with
  | Some r =>
      cached ← cache_Get (ExternalID r);
      if cookies_truthy cached then mret (default [] cached)
      else
        password ← lift (credential (ExtendedAuthorization r) "Password" ≫= Decrypt);
        email ← lift (credential (ExtendedAuthorization r) "Email" ≫= Decrypt);
        signin record (Some email) (Some password)
  | None => signin record email password
  end.

End Session.

(** ** The activity-type taxonomy *)

Module Taxonomy.

Definition _activityMappings : list (string * ActivityType) :=
  [ ("running", Running);
    ("cycling", Cycling);
    ("mountain_biking", MountainBiking);
    ("walking", Walking);
    ("hiking", Hiking);
    ("resort_skiing_snowboarding", DownhillSkiing);
    ("cross_country_skiing", CrossCountrySkiing);
    ("backcountry_skiing_snowboarding", CrossCountrySkiing);
    ("skating", Skating);
    ("swimming", Swimming);
    ("rowing", Rowing);
    ("elliptical", Elliptical);
    ("all", Other) ].

Definition _reverseActivityMappings : list (string * ActivityType) :=
  [ ("running", Running);
    ("cycling", Cycling);
    ("mountain_biking", MountainBiking);
    ("walking", Walking);
    ("hiking", Hiking);
    ("resort_skiing_snowboarding", DownhillSkiing);
    ("cross_country_skiing", CrossCountrySkiing);
    ("skating", Skating);
    ("swimming", Swimming);
    ("rowing", Rowing);
    ("elliptical", Elliptical);
    ("other", Other) ].

Definition _unitMap : list (string * ActivityStatisticUnit) :=
  [ ("mph", MilesPerHour);
    ("kph", KilometersPerHour);
    ("hmph", HectometersPerHour);
    ("hydph", HundredYardsPerHour);
    ("celcius", DegreesCelcius);
    ("fahrenheit", DegreesFahrenheit);
    ("mile", Miles);
    ("kilometer", Kilometers);
    ("foot", Feet);
    ("meter", Meters);
    ("yard", Yards);
    ("kilocalorie", Kilocalories);
    ("bpm", BeatsPerMinute);
    ("stepsPerMinute", StepsPerMinute);
    ("rpm", RevolutionsPerMinute);
    ("watt", Watts) ].

(** [table[k]] for one of the tables above and a key read from JSON: a
    string is looked up, a list or an object cannot be hashed, and nothing
    else equals a key of the table. *)
Definition table_getitem {V} (table : list (string * V)) (k : json) : result V :=
  match k with
  | JStr _ s =>
      match assoc s table with
      | Some v => Ok v
      | None => Raise (KeyError k)
      end
  | JList _ _ | JDict _ _ => Raise TypeError
  | _ => Raise (KeyError k)
  end.

(** One entry of [self._activityHierarchy], the remote service's list of
    activity types: [x["key"]] and, when the entry names a parent,
    [x["parent"]["key"]]. *)
Record HierarchyEntry : Type := {
  key : string;
  parent : option string
}.

(** [[x["parent"]["key"] for x in self._activityHierarchy if x["key"] == act_type]]:
    the comprehension reads the parent of every entry with the key, and
    the first entry among them that has none raises [KeyError]. *)
Fixpoint parents (hierarchy : list HierarchyEntry) (act_type : string)
    : result (list string) :=
  match hierarchy with
  | [] => Ok []
  | x :: rest =>
      if String.eqb (key x) act_type then
        match parent x with
        | None => Raise (KeyError (JStr 0 "parent"))
        | Some p => ps ← parents rest act_type; Ok (p :: ps)
        end
      else parents rest act_type
  end.

Definition not_found : exn :=
  ValueError "Activity type not found in activity hierarchy".

(** One turn of the [while] loop of [_resolveActivityType]: either the
    function is done ([inr], a return or a raise) or the loop goes on with
    the parent's key ([inl]). *)
Definition step (hierarchy : list HierarchyEntry) (act_type : string)
    : string + result ActivityType :=
  match assoc act_type _activityMappings with
  | Some t => inr (Ok t)
  | None =>
      match parents hierarchy act_type with
      | Raise e => inr (Raise e)
      | Ok [] => inr (Raise not_found)
      | Ok (p :: _) => inl p
      end
  end.

(** The loop of [_resolveActivityType].  It has no bound of its own, so the
    model runs it for at most [fuel] turns; [None] says the loop is still
    running after them. *)
Fixpoint resolve_loop (hierarchy : list HierarchyEntry) (fuel : nat)
    (act_type : string) : option (result ActivityType) :=
  match fuel with
  | O => None
  | S fuel' =>
      match step hierarchy act_type with
      | inr r => Some r
      | inl p => resolve_loop hierarchy fuel' p
      end
  end.

(** [_resolveActivityType(self, act_type)] for a key read from JSON.  A key
    that is not a string is in no table and equals no key of the
    hierarchy; a list or an object cannot be looked up at all. *)
Definition _resolveActivityType (hierarchy : list HierarchyEntry) (fuel : nat)
    (act_type : json) : option (result ActivityType) :=
  match act_type with
  | JStr _ s => resolve_loop hierarchy fuel s
  | JList _ _ | JDict _ _ => Some (Raise TypeError)
  | _ => Some (Raise not_found)
  end.

(** The call returns or raises: some number of turns ends the loop. *)
Definition terminates (hierarchy : list HierarchyEntry) (act_type : json) : Prop :=
  exists fuel r, _resolveActivityType hierarchy fuel act_type = Some r.

(** A forest is acyclic when its keys can be ranked so that every entry's
    parent ranks below the entry. *)
Definition acyclic (hierarchy : list HierarchyEntry) (rank : string -> nat) : Prop :=
  Forall (fun x => forall p, parent x = Some p -> (rank p < rank (key x))%nat) hierarchy.

End Taxonomy.
Export Taxonomy.

(** ** The listing normalizer *)

Section Listing.
Context `{Collaborators}.

(** [self._activityHierarchy], fetched once when the adapter is made. *)
Variable _activityHierarchy : list HierarchyEntry.

(** [UploadedActivity()] *)
Definition new_UploadedActivity : UploadedActivity :=
  {| Stationary := None; TZ := None; Name := None; Notes := None;
     StartTime := None; EndTime := None; Stats := new_ActivityStatistics;
     Type_ := None; UID := None; ServiceData := []; Laps := [] |}.

(** Modelled from the spec: [activity.CalculateUID()] (interchange.py is
    not among the sources): the UID is computed deterministically from the
    finalized record. *)
Definition CalculateUID (activity : UploadedActivity) : UploadedActivity :=
  set_UID (Some (uid_digest activity)) activity.

(** [x.strip()], [x.split(":")] and the like: a method of strings. *)
Definition str_method (x : json) : result string :=
  match x with
  | JStr _ s => Ok s
  | _ => Raise AttributeError
  end.

(** ["Name " + x]: only a string can be appended to a string. *)
Definition str_concat (x : json) : result string :=
  match x with
  | JStr _ s => Ok s
  | _ => Raise TypeError
  end.

(** The condition of line 145. *)
Definition is_stationary (act : json) : result bool :=
  has_begin ← py_in "beginLatitude" act;
  if negb has_begin then Ok true
  else
    has_end ← py_in "endLatitude" act;
    if negb has_end then Ok true
    else
      beginLatitude ← getitem act "beginLatitude";
      endLatitude ← getitem act "endLatitude";
      if py_is beginLatitude endLatitude then
        beginLongitude ← getitem act "beginLongitude";
        endLongitude ← getitem act "endLongitude";
        Ok (py_is beginLongitude endLongitude)
      else Ok false.

(** Lines 150 to 153: the time zone by name, or by offset when pytz does
    not know the name. *)
Definition record_TZ (act : json) : result tzinfo :=
  zone ← getitem act "activityTimeZone";
  name ← getitem zone "key";
  match pytz_timezone name with
  | Raise UnknownTimeZoneError =>
      zone ← getitem act "activityTimeZone";
      offset ← getitem zone "offset";
      offset ← py_float offset;
      pytz_FixedOffset (offset * 60)%float
  | r => r
  end.

(** Lines 155 to 157: the name, unless it is blank or "Untitled". *)
Definition record_Name (act : json) (activity : UploadedActivity)
    : result UploadedActivity :=
  name ← getitem act "activityName";
  value ← getitem name "value";
  _ ← str_concat value;
  stripped ← str_method value;
  if negb (Nat.eqb (String.length (strip stripped)) 0)
     && negb (eq_str value "Untitled")
  then Ok (set_Name (Some stripped) activity)
  else Ok activity.

(** Line 159 (and 165): a time from milliseconds since the epoch. *)
Definition record_timestamp (act : json) (field : string) : result datetime :=
  stamp ← getitem act field;
  millis ← getitem stamp "millis";
  millis ← py_float millis;
  utcfromtimestamp (millis / 1000)%float.

(** Lines 160 to 165: the end time, from the elapsed duration, else from
    the duration in minutes and seconds, else from the end timestamp. *)
Definition record_EndTime (act : json) (start : datetime) : result datetime :=
  has_elapsed ← py_in "sumElapsedDuration" act;
  if (has_elapsed : bool) then
    elapsed ← getitem act "sumElapsedDuration";
    value ← getitem elapsed "value";
    value ← py_float value;
    seconds ← py_round value;
    delta ← timedelta_of_int_seconds seconds;
    datetime_add start delta
  else
    has_duration ← py_in "sumDuration" act;
    if (has_duration : bool) then
      duration ← getitem act "sumDuration";
      text ← getitem duration "minutesSeconds";
      text ← str_method text;
      minutes ← py_float (JStr 0 (default "" (split ":"%char text !! 0%nat)));
      seconds ← match split ":"%char text !! 1%nat with
                | Some part => py_float (JStr 0 part)
                | None => Raise IndexError
                end;
      delta ← timedelta_of_minutes_seconds minutes seconds;
      datetime_add start delta
    else record_timestamp act "endTimestamp".

(** Line 169: the distance, always mapped. *)
Definition record_Distance (act : json) : result ActivityStatistic :=
  distance ← getitem act "sumDistance";
  uom ← getitem distance "uom";
  units ← table_getitem _unitMap uom;
  value ← getitem distance "value";
  value ← py_float value;
  Ok (new_ActivityStatistic units kw_value value).

(** The field [gcKey] of the record is mapped: it is there, and its value
    is a float that is not infinite. *)
Definition is_mapped (act : json) (gcKey : string) : bool :=
  match py_in gcKey act with
  | Ok true =>
      match (field ← getitem act gcKey; value ← getitem field "value"; py_float value) with
      | Ok value => negb (isinf value)
      | Raise _ => false
      end
  | _ => false
  end.

(** [self._unitMap[act[gcKey]["uom"]]], the unit the service gives the
    field in. *)
Definition source_units (act : json) (gcKey : string) : result ActivityStatisticUnit :=
  field ← getitem act gcKey;
  uom ← getitem field "uom";
  table_getitem _unitMap uom.

(** [mapStat(gcKey, statKey, type, useSourceUnits=False)] (lines 171 to
    179), on the statistics of the activity being built. *)
Definition mapStat (act : json) (gcKey : string) (statKey : StatKey) (type : Facet)
    (useSourceUnits : bool) (stats : ActivityStatistics) : result ActivityStatistics :=
  present ← py_in gcKey act;
  if (present : bool) then
    field ← getitem act gcKey;
    value ← getitem field "value";
    value ← py_float value;
    if isinf value then Ok stats
    else
      uom ← getitem field "uom";
      units ← table_getitem _unitMap uom;
      stat ← update (get_stat statKey stats) (new_ActivityStatistic units type value);
      if useSourceUnits then
        stat ← asUnits stat units;
        Ok (set_stat statKey stat stats)
      else Ok (set_stat statKey stat stats)
  else Ok stats.

(** The calls of [mapStat], lines 186 to 205, in their order. *)
Definition stat_rules : list (string * StatKey * Facet * bool) :=
  [ ("minSpeed", SK_Speed, kw_min, true);
    ("maxSpeed", SK_Speed, kw_max, true);
    ("weightedMeanSpeed", SK_Speed, kw_avg, true);
    ("minAirTemperature", SK_Temperature, kw_min, false);
    ("maxAirTemperature", SK_Temperature, kw_max, false);
    ("weightedMeanAirTemperature", SK_Temperature, kw_avg, false);
    ("sumEnergy", SK_Energy, kw_value, false);
    ("maxHeartRate", SK_HR, kw_max, false);
    ("weightedMeanHeartRate", SK_HR, kw_avg, false);
    ("maxRunCadence", SK_RunCadence, kw_max, false);
    ("weightedMeanRunCadence", SK_RunCadence, kw_avg, false);
    ("maxBikeCadence", SK_Cadence, kw_max, false);
    ("weightedMeanBikeCadence", SK_Cadence, kw_avg, false);
    ("minPower", SK_Power, kw_min, false);
    ("maxPower", SK_Power, kw_max, false);
    ("weightedMeanPower", SK_Power, kw_avg, false);
    ("minElevation", SK_Elevation, kw_min, false);
    ("maxElevation", SK_Elevation, kw_max, false);
    ("gainElevation", SK_Elevation, kw_gain, false);
    ("lossElevation", SK_Elevation, kw_loss, false) ].

Fixpoint mapStats (act : json) (rules : list (string * StatKey * Facet * bool))
    (stats : ActivityStatistics) : result ActivityStatistics :=
  match rules with
  | [] => Ok stats
  | (gcKey, statKey, type, useSourceUnits) :: rest =>
      stats ← mapStat act gcKey statKey type useSourceUnits stats;
      mapStats act rest stats
  end.

(** Lines 182 and 183. *)
Definition record_MovingTime (act : json) (stats : ActivityStatistics)
    : result ActivityStatistics :=
  present ← py_in "sumMovingDuration" act;
  if (present : bool) then
    moving ← getitem act "sumMovingDuration";
    value ← getitem moving "value";
    value ← py_float value;
    delta ← timedelta_of_seconds value;
    Ok (set_MovingTime (Some delta) stats)
  else Ok stats.

(** Lines 208 and 209: a minimum power above the maximum is dropped. *)
Definition fix_Power (power : ActivityStatistic) : ActivityStatistic :=
  match Max power, Min power with
  | Some mx, Some mn => if (mx <? mn)%float then set_Min None power else power
  | _, _ => power
  end.

(** Lines 212 to 215: the running cadence counts both feet. *)
Definition fix_RunCadence (cadence : ActivityStatistic) : ActivityStatistic :=
  let cadence :=
    match Max cadence with
    | Some v => set_Max (Some (v * 2)%float) cadence
    | None => cadence
    end in
  match Average cadence with
  | Some v => set_Average (Some (v * 2)%float) cadence
  | None => cadence
  end.

(** One of the three corrections of lines 218 to 226, on the facet it
    reads and writes: [60 / facet] when the field is in the record, its
    display text holds a colon and the facet is true, that is, set and not
    zero. *)
Definition fix_pace (act : json) (gcKey : string) (facet : option float)
    : result (option float) :=
  present ← py_in gcKey act;
  if (present : bool) then
    field ← getitem act gcKey;
    text ← getitem field "withUnitAbbr";
    colon ← py_in ":" text;
    if (colon : bool) then
      match facet with
      | Some v => if float_truthy v then v' ← float_div 60 v; Ok (Some v') else Ok facet
      | None => Ok facet
      end
    else Ok facet
  else Ok facet.

(** The speed fields of a record, each with the facet of the speed
    statistic it is mapped to and corrected in. *)
Definition speed_facets : list (string * (ActivityStatistic -> option float)) :=
  [("minSpeed", Min); ("maxSpeed", Max); ("weightedMeanSpeed", Average)].

(** The last of the speed fields that is mapped, in the order of the
    calls of [mapStat]. *)
Definition last_speed_field (act : json) : option string :=
  if is_mapped act "weightedMeanSpeed" then Some "weightedMeanSpeed"
  else if is_mapped act "maxSpeed" then Some "maxSpeed"
  else if is_mapped act "minSpeed" then Some "minSpeed"
  else None.

(** What the correction may do to a facet: leave it, or replace a value
    that is not zero by its reciprocal pace. *)
Definition guarded (before after : option float) : Prop :=
  after = before \/
  exists v, before = Some v /\ float_truthy v = true /\ after = Some (60 / v)%float.

(** Lines 218 to 226. *)
Definition fix_Speed (act : json) (speed : ActivityStatistic) : result ActivityStatistic :=
  mn ← fix_pace act "minSpeed" (Min speed);
  let speed := set_Min mn speed in
  mx ← fix_pace act "maxSpeed" (Max speed);
  let speed := set_Max mx speed in
  av ← fix_pace act "weightedMeanSpeed" (Average speed);
  Ok (set_Average av speed).

(** Lines 143 to 215: the activity of a record that has a distance, as it
    stands before the pace correction. *)
Definition mapped (act : json) : result UploadedActivity :=
  let activity := new_UploadedActivity in
  stationary ← is_stationary act;
  let activity := set_Stationary (Some stationary) activity in
  tz ← record_TZ act;
  let activity := set_TZ (Some tz) activity in
  activity ← record_Name act activity;
  start ← record_timestamp act "beginTimestamp";
  let activity := set_StartTime (Some start) activity in
  finish ← record_EndTime act start;
  let activity := set_EndTime (Some finish) activity in
  activity ← AdjustTZ activity;
  distance ← record_Distance act;
  let stats := set_Distance distance (Stats activity) in
  stats ← record_MovingTime act stats;
  stats ← mapStats act stat_rules stats;
  let stats := set_stat SK_Power (fix_Power (Power stats)) stats in
  let stats := set_stat SK_RunCadence (fix_RunCadence (RunCadence stats)) stats in
  Ok (set_Stats stats activity).

(** Lines 143 to 226: the same after the pace correction, everything of
    the activity but its type, UID and service data. *)
Definition corrected (act : json) : result UploadedActivity :=
  activity ← mapped act;
  speed ← fix_Speed act (Speed (Stats activity));
  Ok (set_Stats (set_stat SK_Speed speed (Stats activity)) activity).

(** Lines 228 to 231, once the type is known. *)
Definition finalize (act : json) (type : ActivityType) (activity : UploadedActivity)
    : result UploadedActivity :=
  let activity := CalculateUID (set_Type (Some type) activity) in
  activityId ← getitem act "activityId";
  Ok (set_ServiceData [("ActivityID", activityId)] activity).

(** The body of the [for] loop (lines 139 to 233) on one element of the
    page: the activity to append ([inl]), or the exclusion ([inr]).  [None]
    says that type resolution is still running after [fuel] turns. *)
Definition listed (fuel : nat) (item : json)
    : option (result (UploadedActivity + exn)) :=
  match
    (act ← getitem item "activity";
     has_distance ← py_in "sumDistance" act;
     if negb has_distance then
       activityId ← getitem act "activityId";
       Ok (act, inr (APIExcludeActivity "No distance" (Some activityId)))
     else
       activity ← corrected act;
       activityType ← getitem act "activityType";
       type_key ← getitem activityType "key";
       Ok (act, inl (activity, type_key)))
  with
  | Raise e => Some (Raise e)
  | Ok (_, inr exclusion) => Some (Ok (inr exclusion))
  | Ok (act, inl (activity, type_key)) =>
      match _resolveActivityType _activityHierarchy fuel type_key with
      | None => None
      | Some (Raise e) => Some (Raise e)
      | Some (Ok type) =>
          Some (activity ← finalize act type activity; Ok (inl activity))
      end
  end.

(** The [for] loop over the records of a page (line 138), appending to
    [activities] and [exclusions]. *)
Fixpoint for_activities (fuel : nat) (items : list json)
    (activities : list UploadedActivity) (exclusions : list exn)
    : option (result (list UploadedActivity * list exn)) :=
  match items with
  | [] => Some (Ok (activities, exclusions))
  | item :: rest =>
      match listed fuel item with
      | None => None
      | Some (Raise e) => Some (Raise e)
      | Some (Ok (inl activity)) =>
          for_activities fuel rest (activities ++ [activity]) exclusions
      | Some (Ok (inr exclusion)) =>
          for_activities fuel rest activities (exclusions ++ [exclusion])
      end
  end.

Variable w : World.

Definition search_url : string :=
  "http://connect.garmin.com/proxy/activity-search-service-1.0/json/activities".

Definition pageSz : Z := 50.

(** The request of line 134. *)
Definition search_request (cookies : CookieJar) (page : Z) : Request :=
  {| method := GET; url := search_url;
     params := [("start", AInt ((page - 1) * pageSz)); ("limit", AInt pageSz)];
     data := []; files := []; cookies := Some cookies; allow_redirects := true |}.

(** Line 235: whether the loop stops after this page. *)
Definition last_page (exhaustive : bool) (res : json) (page : Z) : result bool :=
  if negb exhaustive then Ok true
  else
    search ← getitem res "search";
    totalPages ← getitem search "totalPages";
    totalPages ← py_int totalPages;
    Ok (totalPages =? page).

(** The [while True] loop of [DownloadActivityList] (lines 132 to 238),
    from page [page] on.  The loop has no bound of its own: the model
    fetches at most [fuel] pages and gives every type resolution [fuel0]
    turns, and [Ok None] says that the loop is still running after them.
    The log message of line 234 reads the page count of every page that
    has activities, in either mode. *)
Fixpoint pages (fuel0 fuel : nat) (exhaustive : bool) (cookies : CookieJar) (page : Z)
    (activities : list UploadedActivity) (exclusions : list exn)
    : Adapter (option (list UploadedActivity * list exn)) :=
  match fuel with
  | O => mret None
  | S fuel' =>
      res ← send w (search_request cookies page);
      res ← lift (body ← resp_json res; getitem body "results");
      has_activities ← lift (py_in "activities" res);
      if negb has_activities then mret (Some (activities, exclusions))
      else
        items ← lift (getitem res "activities" ≫= py_iter);
        match for_activities fuel0 items activities exclusions with
        | None => mret None
        | Some (Raise e) => throw e
        | Some (Ok (activities, exclusions)) =>
            _ ← lift (search ← getitem res "search"; getitem search "totalPages");
            stop ← lift (last_page exhaustive res page);
            if (stop : bool) then mret (Some (activities, exclusions))
            else pages fuel0 fuel' exhaustive cookies (page + 1) activities exclusions
        end
  end.

(** [DownloadActivityList(self, serviceRecord, exhaustive=False)] *)
Definition DownloadActivityList (fuel : nat) (serviceRecord : ServiceRecord)
    (exhaustive : bool) : Adapter (option (list UploadedActivity * list exn)) :=
  cookies ← _get_cookies w (Some serviceRecord) None None;
  pages fuel fuel exhaustive cookies 1 [] [].

End Listing.

(** ** The detail fetcher *)

Section Detail.
Context `{Collaborators}.
Variable w : World.

Definition detail_url (activityID : json) : string :=
  "http://connect.garmin.com/proxy/activity-service-1.1/tcx/activity/"
  +:+ py_str activityID +:+ "?full=true".

(** Lines 246 to 249: a parse error excludes the activity. *)
Definition parse_detail (document : string) (activity : UploadedActivity)
    : result UploadedActivity :=
  match TCXIO_Parse document activity with
  | Raise (ValueError e) => Raise (APIExcludeActivity ("TCX parse error " +:+ e) None)
  | r => r
  end.

(** Lines 250 to 252: with exactly one lap, the summary statistics are
    written over the lap's, and the lap's statistics become the
    activity's. *)
Definition reconcile (activity : UploadedActivity) : result UploadedActivity :=
  match Laps activity with
  | [lap] =>
      stats ← update_stats (LapStats lap) (Stats activity);
      let lap := {| LapStats := stats; LapRest := LapRest lap |} in
      let activity := set_Laps [lap] activity in
      Ok (set_Stats (LapStats lap) activity)
  | _ => Ok activity
  end.

(** [DownloadActivity(self, serviceRecord, activity)] *)
Definition DownloadActivity (serviceRecord : ServiceRecord) (activity : UploadedActivity)
    : Adapter UploadedActivity :=
  activityID ← lift (match assoc "ActivityID" (ServiceData activity) with
                     | Some v => Ok v
                     | None => Raise (KeyError (JStr 0 "ActivityID"))
                     end);
  cookies ← _get_cookies w (Some serviceRecord) None None;
  res ← send w {| method := GET; url := detail_url activityID; params := [];
                  data := []; files := []; cookies := Some cookies;
                  allow_redirects := true |};
  activity ← lift (parse_detail (content res) activity);
  lift (reconcile activity).

End Detail.

(** ** The upload pipeline *)

Section Upload.
Context `{Collaborators}.
Variable w : World.

Definition upload_url : string :=
  "http://connect.garmin.com/proxy/upload-service-1.1/json/upload/.tcx".
Definition name_url (actid : json) : string :=
  "http://connect.garmin.com/proxy/activity-service-1.2/json/name/" +:+ py_str actid.
Definition description_url (actid : json) : string :=
  "http://connect.garmin.com/proxy/activity-service-1.2/json/description/" +:+ py_str actid.
Definition type_url (actid : json) : string :=
  "http://connect.garmin.com/proxy/activity-service-1.2/json/type/" +:+ py_str actid.

(** A follow-up call: [requests.post(url, data={"value": value}, cookies=cookies)] *)
Definition post_value (url : string) (value : string) (cookies : CookieJar) : Request :=
  {| method := POST; url := url; params := []; data := [("value", AStr value)];
     files := []; cookies := Some cookies; allow_redirects := true |}.

(** [if activity.Name:] and [if activity.Notes:] *)
Definition str_truthy (s : option string) : bool :=
  match s with
  | Some (String _ _) => true
  | _ => false
  end.

(** ["display" not in res or res["display"]["value"] != value] (lines 273
    and 279), and the same test on [res["activityType"]["key"]] (line 291). *)
Definition echo_differs (res : json) (outer inner : string) (value : string)
    : result bool :=
  present ← py_in outer res;
  if negb present then Ok true
  else
    field ← getitem res outer;
    echoed ← getitem field inner;
    Ok (negb (eq_str echoed value)).

(** Lines 270 to 274 and 276 to 280: set a text of the activity and verify
    the echo. *)
Definition set_text (url : string) (value : option string) (cookies : CookieJar)
    (warning : string) : Adapter unit :=
  if str_truthy value then
    res ← send w (post_value url (default "" value) cookies);
    res ← lift (resp_json res);
    differs ← lift (echo_differs res "display" "value" (default "" value));
    if (differs : bool) then throw (APIWarning warning) else mret tt
  else mret tt.

(** The name of a type as [str] gives it: the host's types are strings. *)
Definition type_name (t : ActivityType) : string :=
  match t with
  | Running => "Running" | Cycling => "Cycling" | MountainBiking => "MountainBiking"
  | Walking => "Walking" | Hiking => "Hiking" | DownhillSkiing => "DownhillSkiing"
  | CrossCountrySkiing => "CrossCountrySkiing" | Skating => "Skating"
  | Swimming => "Swimming" | Rowing => "Rowing" | Elliptical => "Elliptical"
  | Other => "Other"
  | UnlistedType name => name
  end.

(** [[k for k, v in self._reverseActivityMappings.items() if v == t]] *)
Definition reverse_keys (t : ActivityType) : list string :=
  map fst (filter (fun kv => kv.2 = t) _reverseActivityMappings).

(** Lines 282 to 292: the type, for the types the uploaded file cannot
    carry. *)
Definition set_type (actid : json) (type : option ActivityType) (cookies : CookieJar)
    : Adapter unit :=
  if bool_decide (type ∈ [Some Running; Some Cycling; Some Other]) then mret tt
  else
    match type with
    | None => throw TypeError
    | Some t =>
        match reverse_keys t with
        | [] => throw (APIWarning ("GarminConnect does not support activity type "
                                   +:+ type_name t))
        | acttype :: _ =>
            res ← send w (post_value (type_url actid) acttype cookies);
            res ← lift (resp_json res);
            differs ← lift (echo_differs res "activityType" "key" acttype);
            if (differs : bool) then throw (APIWarning "Unable to set activity type")
            else mret tt
        end
    end.

(** Lines 270 to 292: the calls that follow the upload, all on the one
    remote id [actid]. *)
Definition follow_up (actid : json) (activity : UploadedActivity) (cookies : CookieJar)
    : Adapter unit :=
  _ ← set_text (name_url actid) (Name activity) cookies "Unable to set activity name";
  _ ← set_text (description_url actid) (Notes activity) cookies
        "Unable to set activity notes";
  set_type actid (Type_ activity) cookies.

(** The request of line 261. *)
Definition upload_request (file_name fit_file : string) (cookies : CookieJar) : Request :=
  {| method := POST; url := upload_url; params := []; data := [];
     files := [("data", AFile file_name fit_file)]; cookies := Some cookies;
     allow_redirects := true |}.

(** Lines 262 to 268: the remote id of the one activity the upload made. *)
Definition imported_id (res : Response) : result json :=
  body ← resp_json res;
  res ← getitem body "detailedImportResult";
  successes ← getitem res "successes";
  n ← py_len successes;
  if Nat.eqb n 0 then Raise (APIException "Unable to upload activity" false false)
  else if Nat.ltb 1 n then
    Raise (APIException "Uploaded succeeded, resulting in too many activities" false false)
  else
    first ← getindex successes 0;
    getitem first "internalId".

(** The name of the file of line 259. *)
Definition upload_file_name (uid : string) : string :=
  "tap-sync-" +:+ py_str (JInt 0 (getpid w)) +:+ "-" +:+ uid +:+ ".fit".

(** [UploadActivity(self, serviceRecord, activity)] *)
Definition UploadActivity (serviceRecord : ServiceRecord) (activity : UploadedActivity)
    : Adapter unit :=
  activity ← lift (EnsureTZ activity);
  fit_file ← lift (FITIO_Dump activity);
  uid ← lift (match UID activity with Some u => Ok u | None => Raise TypeError end);
  let file_name := upload_file_name uid in
  cookies ← _get_cookies w (Some serviceRecord) None None;
  res ← send w (upload_request file_name fit_file cookies);
  actid ← lift (imported_id res);
  follow_up actid activity cookies.

End Upload.

(** A computation sends only requests that satisfy [P]: whatever the
    state, the requests sent after it are those sent before it and then
    requests that satisfy [P]; and it leaves the session cache alone. *)
Definition sends_only {A} (P : Request -> Prop) (m : Adapter A) : Prop :=
  forall st, exists reqs,
    sent (m st).2 = (sent st ++ reqs)%list /\ Forall P reqs /\
    _sessionCache (m st).2 = _sessionCache st.

(** ** Authorization and the supported types *)

(** [SupportedActivities = list(_activityMappings.values())] *)
Definition SupportedActivities : list ActivityType :=
  map snd _activityMappings.

(** The two requests of a login (lines 92 to 94), by themselves. *)
Definition signin_get : Request :=
  {| method := GET; url := signin_url; params := []; data := []; files := [];
     cookies := None; allow_redirects := true |}.

Definition signin_post (email password : option string) (cookies : CookieJar) : Request :=
  {| method := POST; url := signin_url; params := [];
     data := [ ("login", AStr "login");
               ("login:loginUsernameField", optional_str email);
               ("login:password", optional_str password);
               ("login:signInButton", AStr "Sign In");
               ("javax.faces.ViewState", AStr "j_id1") ];
     files := []; cookies := Some cookies; allow_redirects := false |}.

Section Authorization.
Context `{Collaborators}.
Variable w : World.

(** [CredentialStore.Encrypt] *)
Variable Encrypt : string -> result string.

Definition username_url : string := "http://connect.garmin.com/user/username".

(** The request of line 109. *)
Definition username_request (cookies : CookieJar) : Request :=
  {| method := GET; url := username_url; params := []; data := []; files := [];
     cookies := Some cookies; allow_redirects := true |}.

(** [Authorize(self, email, password)]: the user name, no public profile,
    and the credentials to store. *)
Definition Authorize (email password : string)
    : Adapter (json * list (string * json) * list (string * string)) :=
  cookies ← _get_cookies w None (Some email) (Some password);
  res ← send w (username_request cookies);
  username ← lift (body ← resp_json res; getitem body "username");
  n ← lift (py_len username);
  if Nat.eqb n 0 then throw (APIException "Unable to retrieve username" true true)
  else
    email ← lift (Encrypt email);
    password ← lift (Encrypt password);
    mret (username, [], [("Email", email); ("Password", password)]).

(** [RevokeAuthorization(self, serviceRecord)]: nothing to do. *)
Definition RevokeAuthorization (serviceRecord : ServiceRecord) : Adapter unit :=
  mret tt.

(** [DeleteCachedData(self, serviceRecord)]: nothing cached. *)
Definition DeleteCachedData (serviceRecord : ServiceRecord) : Adapter unit :=
  mret tt.

End Authorization.

(** After lines 208 and 209 a minimum of the power is not above its
    maximum. *)
Definition ordered (power : ActivityStatistic) : Prop :=
  match Max power, Min power with
  | Some mx, Some mn => (mx <? mn)%float = false
  | _, _ => True
  end.

(** A request was answered, and the answer holds [value] at
    [outer][inner]. *)
Definition echoed (w : World) (req : Request) (outer inner value : string) : Prop :=
  exists res body field echo,
    requests w req = Ok res /\
    resp_json res = Ok body /\
    getitem body outer = Ok field /\
    getitem field inner = Ok echo /\
    eq_str echo value = true.


Section FollowUps.
Context `{Host}.

(** The requests of lines 271, 277 and 289 written out, for the remote id
    [actid]: the name if the activity has one, the notes if it has them,
    and the key of the type unless the type is one the uploaded file
    carries or has no key. *)
Definition follow_up_requests (actid : json) (activity : UploadedActivity)
    (cookies : CookieJar) : list Request :=
  let post target value :=
    {| method := POST; url := target +:+ py_str actid; params := [];
       data := [("value", AStr value)]; files := []; cookies := Some cookies;
       allow_redirects := true |} in
  (match Name activity with
   | Some (String c name) =>
       [post "http://connect.garmin.com/proxy/activity-service-1.2/json/name/"
          (String c name)]
   | _ => []
   end ++
   match Notes activity with
   | Some (String c notes) =>
       [post "http://connect.garmin.com/proxy/activity-service-1.2/json/description/"
          (String c notes)]
   | _ => []
   end ++
   match Type_ activity with
   | Some t =>
       if bool_decide (t ∈ [Running; Cycling; Other]) then []
       else
         match reverse_keys t with
         | acttype :: _ =>
             [post "http://connect.garmin.com/proxy/activity-service-1.2/json/type/"
                acttype]
         | [] => []
         end
   | None => []
   end)%list.

End FollowUps.

(** ** Sample hosts, worlds and records

    A small host and a canned remote service, on which the adapter can be
    run, and the records the properties below are tried on. *)

Module Samples.

Inductive sample_tz : Type :=
| Named (name : string)
| Fixed (minutes : float).

(** [round(x)] for a finite float, half to even, read off its mantissa
    and exponent. *)
Definition sample_round (x : float) : result Z :=
  match Prim2SF x with
  | SpecFloat.S754_zero _ => Ok 0
  | SpecFloat.S754_finite s m e =>
      let n :=
        if 0 <=? e then Z.pos m * 2 ^ e
        else
          let d := 2 ^ (- e) in
          let q := Z.pos m / d in
          let r := Z.pos m mod d in
          if 2 * r <? d then q
          else if d <? 2 * r then q + 1
          else if Z.even q then q else q + 1 in
      Ok (if s then - n else n)
  | SpecFloat.S754_infinity _ => Raise OverflowError
  | SpecFloat.S754_nan => Raise (ValueError "cannot convert float NaN to integer")
  end.

Definition sample_str (x : json) : string :=
  match x with
  | JStr _ s => s
  | JInt _ z => pretty z
  | JNull => "None"
  | JBool true => "True"
  | JBool false => "False"
  | _ => "<object>"
  end.

Definition sample_int (x : json) : result Z :=
  match x with
  | JInt _ z => Ok z
  | JBool b => Ok (if b then 1 else 0)
  | JFloat _ f => z ← sample_round f; Ok z
  | JStr _ s =>
      match assoc s [("1", 1); ("2", 2); ("3", 3)] with
      | Some z => Ok z
      | None => Raise (ValueError "invalid literal for int()")
      end
  | _ => Raise TypeError
  end.

Definition sample_timezone (name : json) : result sample_tz :=
  match name with
  | JStr _ s =>
      if bool_decide (s ∈ ["UTC"; "Europe/Berlin"; "America/Vancouver"])
      then Ok (Named s) else Raise UnknownTimeZoneError
  | _ => Raise AttributeError
  end.

Definition sample_convert (v : float) (from to : ActivityStatisticUnit) : result float :=
  if bool_decide (from = to) then Ok v
  else
    match from, to with
    | MilesPerHour, KilometersPerHour => Ok (v * 1.609344)%float
    | KilometersPerHour, MilesPerHour => Ok (v / 1.609344)%float
    | Kilometers, Meters => Ok (v * 1000)%float
    | Meters, Kilometers => Ok (v / 1000)%float
    | _, _ => Raise (ValueError "No conversion between these units")
    end.

(** A host whose times are seconds since the epoch. *)
#[export] Instance sample_host : Host := {|
  float_of_str s := assoc s [("0", 0%float); ("30", 30%float); ("52", 52%float);
                             ("1.0", 1%float); ("10.9", 10.9%float)];
  py_round := sample_round;
  py_str := sample_str;
  py_int := sample_int;
  tzinfo := sample_tz;
  datetime := float;
  timedelta := float;
  pytz_timezone := sample_timezone;
  pytz_FixedOffset minutes := Ok (Fixed minutes);
  utcfromtimestamp seconds := Ok seconds;
  timedelta_of_int_seconds seconds := float_of_int seconds;
  timedelta_of_minutes_seconds m s := Ok (m * 60 + s)%float;
  timedelta_of_seconds s := Ok s;
  datetime_add t d := Ok (t + d)%float;
  convertValue := sample_convert;
  LapData := string
|}.

Definition unset (units : ActivityStatisticUnit) : ActivityStatistic :=
  {| Units := units; Value := None; Average := None; Min := None; Max := None;
     Gain := None; Loss := None |}.

Definition sample_statistics : ActivityStatistics :=
  {| Distance := unset Meters;
     MovingTime := None;
     Speed := unset KilometersPerHour;
     Temperature := unset DegreesCelcius;
     Energy := unset Kilocalories;
     HR := unset BeatsPerMinute;
     RunCadence := unset StepsPerMinute;
     Cadence := unset RevolutionsPerMinute;
     Power := unset Watts;
     Elevation := unset Meters |}.

(** The sample codec reads one lap per line of the document, and refuses
    an empty document. *)
Definition sample_parse (document : string) (activity : UploadedActivity)
    : result UploadedActivity :=
  match document with
  | EmptyString => Raise (ValueError "no element found")
  | _ =>
      Ok (set_Laps
            (map (fun line => {| LapStats := sample_statistics; LapRest := line |})
                 (split "010"%char document))
            activity)
  end.

Definition sample_digest (activity : UploadedActivity) : string :=
  default "" (Name activity) +:+ "|"
  +:+ match Type_ activity with Some t => type_name t | None => "" end.

#[export] Instance sample_collaborators : Collaborators := {|
  Decrypt secret := Ok (String.rev secret);
  new_ActivityStatistics := sample_statistics;
  AdjustTZ activity := Ok activity;
  EnsureTZ activity := Ok activity;
  uid_digest := sample_digest;
  TCXIO_Parse := sample_parse;
  FITIO_Dump activity := Ok "FIT"
|}.

(** The answers of a canned remote service. *)
Record Canned : Type := {
  signin_cookies : CookieJar;
  signin_status : Z;
  listing : json;
  detail : string;
  upload : json;
  name_echo : json;
  description_echo : json;
  type_echo : json
}.

Definition answer (body : json) : Response :=
  {| status_code := 200; resp_cookies := []; resp_json := Ok body; content := "" |}.

Definition canned_requests (c : Canned) (req : Request) : result Response :=
  if String.eqb (url req) signin_url then
    match method req with
    | GET => Ok {| status_code := 200; resp_cookies := signin_cookies c;
                   resp_json := Raise (ValueError "No JSON object could be decoded");
                   content := "" |}
    | POST => Ok {| status_code := signin_status c; resp_cookies := [];
                    resp_json := Raise (ValueError "No JSON object could be decoded");
                    content := "" |}
    end
  else if String.eqb (url req) search_url then Ok (answer (listing c))
  else if String.eqb (url req) upload_url then Ok (answer (upload c))
  else if String.prefix "http://connect.garmin.com/proxy/activity-service-1.2/json/name/"
            (url req) then Ok (answer (name_echo c))
  else if String.prefix "http://connect.garmin.com/proxy/activity-service-1.2/json/description/"
            (url req) then Ok (answer (description_echo c))
  else if String.prefix "http://connect.garmin.com/proxy/activity-service-1.2/json/type/"
            (url req) then Ok (answer (type_echo c))
  else Ok {| status_code := 200; resp_cookies := []; resp_json := Ok JNull;
             content := detail c |}.

Definition canned_world (c : Canned) (now : Z) : World :=
  {| requests := canned_requests c; utcnow := now; getpid := 4711 |}.

Definition str (s : string) : json := JStr 0 s.
Definition num (f : float) : json := JFloat 0 f.
Definition obj (oid : nat) (kv : list (string * json)) : json := JDict oid kv.

(** A field of a record as the service writes it. *)
Definition field (oid : nat) (value : float) (uom display : string) : json :=
  obj oid [("value", num value); ("uom", str uom); ("withUnitAbbr", str display)].

Definition coordinate (oid : nat) (degrees : string) : json :=
  obj oid [("value", str degrees); ("uom", str "dd")].

(** A record of the listing: a run of one hour that ends where it began,
    with its type key, its maximum speed and the display text of it. *)
Definition run_act (activityId type_key : string) (maxSpeed : float)
    (display : string) : json :=
  obj 2
    [("activityId", str activityId);
     ("activityName", obj 3 [("value", str "Morning run")]);
     ("activityType", obj 4 [("key", str type_key)]);
     ("activityTimeZone", obj 5 [("key", str "Europe/Berlin"); ("offset", str "1.0")]);
     ("beginTimestamp", obj 6 [("millis", JInt 0 1400000000000)]);
     ("sumElapsedDuration", obj 7 [("value", num 3600)]);
     ("sumDistance", field 8 10 "kilometer" "10.00 km");
     ("beginLatitude", coordinate 9 "52.52");
     ("endLatitude", coordinate 10 "52.52");
     ("beginLongitude", coordinate 11 "13.40");
     ("endLongitude", coordinate 12 "13.40");
     ("maxSpeed", field 13 maxSpeed "kph" display);
     ("maxRunCadence", field 14 90 "stepsPerMinute" "90 spm");
     ("weightedMeanRunCadence", field 15 85 "stepsPerMinute" "85 spm")].

(** The same run as the service gives it when its speed fields do not
    share one unit: a minimum speed of 10 in miles per hour, and the
    maximum speed in kilometers per hour. *)
Definition mixed_units_act : json :=
  obj 2
    [("activityId", str "1004");
     ("activityName", obj 3 [("value", str "Morning run")]);
     ("activityType", obj 4 [("key", str "running")]);
     ("activityTimeZone", obj 5 [("key", str "Europe/Berlin"); ("offset", str "1.0")]);
     ("beginTimestamp", obj 6 [("millis", JInt 0 1400000000000)]);
     ("sumElapsedDuration", obj 7 [("value", num 3600)]);
     ("sumDistance", field 8 10 "kilometer" "10.00 km");
     ("minSpeed", field 16 10 "mph" "6:00 min/mi");
     ("maxSpeed", field 13 10.9 "kph" "5:30 min/km")].

(** The element of the page that holds the record. *)
Definition run_record (activityId type_key : string) (maxSpeed : float)
    (display : string) : json :=
  obj 1 [("activity", run_act activityId type_key maxSpeed display)].

(** A record without the cumulative distance. *)
Definition no_distance_record (activityId : string) : json :=
  obj 1 [("activity", obj 2 [("activityId", str activityId)])].

Definition page_of (items : list json) : json :=
  obj 20 [("results",
           obj 21 [("activities", JList 22 items);
                   ("search", obj 23 [("totalPages", JInt 0 1)])])].

Definition sample_forest : list HierarchyEntry :=
  [ {| key := "trail_running"; parent := Some "running" |};
    {| key := "running"; parent := Some "all" |};
    {| key := "all"; parent := None |} ].

Definition sample_rank (k : string) : nat :=
  if String.eqb k "trail_running" then 2%nat
  else if String.eqb k "running" then 1%nat
  else 0%nat.

(** Two unmapped keys, each the other's parent. *)
Definition cyclic_forest : list HierarchyEntry :=
  [ {| key := "trail_running"; parent := Some "street_running" |};
    {| key := "street_running"; parent := Some "trail_running" |} ].

Definition alice : ServiceRecord :=
  {| ExternalID := "alice";
     ExtendedAuthorization := [("Email", "moc.elpmaxe@ecila"); ("Password", "terces")] |}.

Definition service (items : list json) : Canned :=
  {| signin_cookies := [("JSESSIONID", "0123")];
     signin_status := 302;
     listing := page_of items;
     detail := "lap";
     upload := obj 30 [("detailedImportResult",
                        obj 31 [("successes",
                                 JList 32 [obj 33 [("internalId", JInt 0 42)]])])];
     name_echo := obj 34 [("display", obj 35 [("value", str "Morning run")])];
     description_echo := obj 36 [("display", obj 37 [("value", str "Felt good")])];
     type_echo := obj 38 [("activityType", obj 39 [("key", str "swimming")])] |}.

(** The same service when it refuses the login. *)
Definition refusing (items : list json) : Canned :=
  {| signin_cookies := signin_cookies (service items);
     signin_status := 403;
     listing := listing (service items);
     detail := detail (service items);
     upload := upload (service items);
     name_echo := name_echo (service items);
     description_echo := description_echo (service items);
     type_echo := type_echo (service items) |}.

(** What a computation returned, or [d] if it raised. *)
Definition returned {A} (d : A) (r : result A) : A :=
  match r with
  | Ok a => a
  | Raise _ => d
  end.

Definition empty_state : State := {| _sessionCache := ∅; sent := [] |}.

(** The service when its sign-in page sets no cookie, accepting the login
    or refusing it. *)
Definition cookieless (status : Z) : Canned :=
  {| signin_cookies := [];
     signin_status := status;
     listing := listing (service []);
     detail := detail (service []);
     upload := upload (service []);
     name_echo := name_echo (service []);
     description_echo := description_echo (service []);
     type_echo := type_echo (service []) |}.

(** The state after alice has logged in to that service at time 500: the
    cache holds the empty cookie set she was given. *)
Definition empty_jar_state : State :=
  (_get_cookies (canned_world (cookieless 302) 500) (Some alice) None None empty_state).2.

(** The same service when it echoes another name than the one it was
    asked to set. *)
Definition misnaming (items : list json) : Canned :=
  {| signin_cookies := signin_cookies (service items);
     signin_status := signin_status (service items);
     listing := listing (service items);
     detail := detail (service items);
     upload := upload (service items);
     name_echo := obj 34 [("display", obj 35 [("value", str "Untitled")])];
     description_echo := description_echo (service items);
     type_echo := type_echo (service items) |}.

(** An activity to upload: a swim with a name and notes. *)
Definition swim : UploadedActivity :=
  {| Stationary := Some true; TZ := Some (Named "UTC"); Name := Some "Morning run";
     Notes := Some "Felt good"; StartTime := Some 1400000000%float;
     EndTime := Some 1400003600%float; Stats := sample_statistics;
     Type_ := Some Swimming; UID := Some "0f3a"; ServiceData := []; Laps := [] |}.

(** An activity as the listing returns it, to fetch the detail of. *)
Definition listed_run : UploadedActivity :=
  returned new_UploadedActivity
    (r ← default (Raise IndexError)
           (listed sample_forest 5 (run_record "1002" "trail_running" 10.9 "5:30 min/km"));
     match r with
     | inl activity => Ok activity
     | inr exclusion => Raise exclusion
     end).

(** What a listing returned, or nothing if it raised or did not finish. *)
Definition listing_of
    (r : result (option (list UploadedActivity * list exn)) * State)
    : list UploadedActivity * list exn :=
  match r.1 with
  | Ok (Some listing) => listing
  | _ => ([], [])
  end.

(** A first listing for alice at time 500 with no session cached, and a
    second one a quarter of an hour later, in the state the first one left. *)
Definition first_run (items : list json)
    : result (option (list UploadedActivity * list exn)) * State :=
  DownloadActivityList sample_forest (canned_world (service items) 500) 5 alice false
    empty_state.

Definition second_run (items : list json)
    : result (option (list UploadedActivity * list exn)) * State :=
  DownloadActivityList sample_forest (canned_world (service items) 1400) 7 alice false
    (first_run items).2.

End Samples.

(** ** More samples *)

Module MoreSamples.
Import Samples.

(** A world that also knows the user's name. *)
Definition with_username (username : json) (w : World) : World :=
  {| requests req :=
       if String.eqb (url req) username_url
       then Ok (answer (obj 40 [("username", username)]))
       else requests w req;
     utcnow := utcnow w;
     getpid := getpid w |}.

(** The credential store of the samples, the other way round. *)
Definition sample_encrypt (plain : string) : result string := Ok (String.rev plain).

(** A page that reports a page count of its own. *)
Definition page_with_count (items : list json) (totalPages : Z) : json :=
  obj 20 [("results",
           obj 21 [("activities", JList 22 items);
                   ("search", obj 23 [("totalPages", JInt 0 totalPages)])])].

(** The service when every page it returns is [page]. *)
Definition serving (page : json) : Canned :=
  {| signin_cookies := signin_cookies (service []);
     signin_status := signin_status (service []);
     listing := page;
     detail := detail (service []);
     upload := upload (service []);
     name_echo := name_echo (service []);
     description_echo := description_echo (service []);
     type_echo := type_echo (service []) |}.

(** A record of the listing with a name of its own, and a duration in
    minutes and seconds instead of the elapsed seconds. *)
Definition named_act (name minutesSeconds : string) : json :=
  obj 2
    [("activityId", str "2001");
     ("activityName", obj 3 [("value", str name)]);
     ("activityType", obj 4 [("key", str "running")]);
     ("activityTimeZone", obj 5 [("key", str "Europe/Berlin"); ("offset", str "1.0")]);
     ("beginTimestamp", obj 6 [("millis", JInt 0 1400000000000)]);
     ("sumDuration", obj 7 [("minutesSeconds", str minutesSeconds)]);
     ("sumDistance", field 8 10 "kilometer" "10.00 km");
     ("beginLatitude", coordinate 9 "52.52");
     ("endLatitude", coordinate 10 "48.14");
     ("minSpeed", field 13 PrimFloat.neg_infinity "kph" "-- min/km");
     ("minPower", field 14 300 "watt" "300 W");
     ("maxPower", field 15 250 "watt" "250 W")].

(** Titles made of a no-break space (U+00A0), of an ideographic space
    (U+3000) and of the letter a with a grave accent (U+00E0), whose
    encoding ends in the byte that ends the no-break space. *)
Definition no_break_space : string :=
  String (Ascii.ascii_of_nat 194) (String (Ascii.ascii_of_nat 160) EmptyString).
Definition ideographic_space : string :=
  String (Ascii.ascii_of_nat 227)
    (String (Ascii.ascii_of_nat 128) (String (Ascii.ascii_of_nat 128) EmptyString)).
Definition a_grave : string :=
  String (Ascii.ascii_of_nat 195) (String (Ascii.ascii_of_nat 160) EmptyString).

End MoreSamples.

(** * Properties *)

(** ** Reasoning about computations *)

Module Reasoning.

Lemma bind_Ok {A B} (m : result A) (k : A -> result B) (b : B) :
  m ≫= k = Ok b -> exists a, m = Ok a /\ k a = Ok b.
Proof. destruct m as [a|e]; cbn; [eauto|discriminate]. Qed.

(** Take a computation that returns apart: its [;] and its [if]. *)
Ltac crack H :=
  repeat
    (cbn beta zeta in H;
     lazymatch type of H with
     | mbind _ _ = Ok _ =>
         let a := fresh "x" in
         let Ha := fresh "Hx" in
         apply bind_Ok in H; destruct H as (a & Ha & H)
     | (if ?b then _ else _) = Ok _ =>
         let Hb := fresh "Hif" in destruct b eqn:Hb
     end).

(** Run the goal along the steps a computation is known to have taken. *)
Ltac replay :=
  repeat (match goal with
          | Hstep : ?m = Ok _ |- context [?m] => rewrite Hstep
          end; cbn [mbind result_bind]).

(** Decide an equation between closed terms by evaluating both sides.
    (Evaluating the goal as a whole would also evaluate the types in it,
    and with them the whole sample host.) *)
Ltac evaluate :=
  lazymatch goal with
  | |- @eq ?T _ ?b => vm_cast_no_check (@eq_refl T b)
  end.

End Reasoning.

(** ** Type resolution *)

Module TaxonomyFacts.
Import Samples.

Lemma parents_head hierarchy act_type p ps :
  parents hierarchy act_type = Ok (p :: ps) ->
  exists x, In x hierarchy /\ key x = act_type /\ parent x = Some p.
Proof.
  induction hierarchy as [|x rest IH]; simpl; [discriminate|].
  destruct (String.eqb_spec (key x) act_type) as [Hk|Hk].
  - destruct (parent x) as [q|] eqn:Hq; [|discriminate].
    destruct (parents rest act_type) as [qs|e]; simpl; [|discriminate].
    intros [= -> ->]. exists x. auto.
  - intros Hrest. destruct (IH Hrest) as (y & Hy & Hkey). exists y. auto.
Qed.

Lemma step_rank hierarchy rank act_type p :
  acyclic hierarchy rank ->
  step hierarchy act_type = inl p ->
  (rank p < rank act_type)%nat.
Proof.
  intros Hacyc. unfold step.
  destruct (assoc act_type _activityMappings); [discriminate|].
  destruct (parents hierarchy act_type) as [[|q qs]|e] eqn:Hp; try discriminate.
  intros [= ->].
  destruct (parents_head _ _ _ _ Hp) as (x & Hin & <- & Hpar).
  unfold acyclic in Hacyc. rewrite Forall_forall in Hacyc.
  apply (Hacyc x); [apply list_elem_of_In; exact Hin | exact Hpar].
Qed.

(** More turns never change an answer the loop has already given. *)
Lemma resolve_loop_mono hierarchy fuel fuel' act_type r :
  (fuel <= fuel')%nat ->
  resolve_loop hierarchy fuel act_type = Some r ->
  resolve_loop hierarchy fuel' act_type = Some r.
Proof.
  revert fuel' act_type. induction fuel as [|n IH]; intros fuel' k Hle; simpl.
  - discriminate.
  - destruct fuel' as [|m]; [lia|]. simpl.
    destruct (step hierarchy k); [|tauto].
    apply IH. lia.
Qed.

Lemma resolve_mono hierarchy fuel fuel' act_type r :
  (fuel <= fuel')%nat ->
  _resolveActivityType hierarchy fuel act_type = Some r ->
  _resolveActivityType hierarchy fuel' act_type = Some r.
Proof.
  intros Hle. destruct act_type; simpl; auto.
  apply resolve_loop_mono. exact Hle.
Qed.

Lemma resolve_within_rank hierarchy rank :
  acyclic hierarchy rank ->
  forall n act_type, (rank act_type < n)%nat ->
    exists r, resolve_loop hierarchy n act_type = Some r.
Proof.
  intros Hacyc. induction n as [|n IH]; intros k Hlt; [lia|].
  simpl. destruct (step hierarchy k) as [p|r] eqn:Hs.
  - apply IH. pose proof (step_rank _ _ _ _ Hacyc Hs). lia.
  - eauto.
Qed.

Lemma cyclic_forest_runs_on fuel :
  resolve_loop cyclic_forest fuel "trail_running" = None /\
  resolve_loop cyclic_forest fuel "street_running" = None.
Proof.
  induction fuel as [|n [IH1 IH2]]; [split; reflexivity|].
  split; simpl.
  - change (step cyclic_forest "trail_running")
      with (@inl string (result ActivityType) "street_running").
    exact IH2.
  - change (step cyclic_forest "street_running")
      with (@inl string (result ActivityType) "trail_running").
    exact IH1.
Qed.

(** C1, as the specification states it, fails on the code: the loop of
    [_resolveActivityType] has no step cap, and on a forest with a cycle
    of unmapped keys it neither returns nor raises, whatever the number
    of turns it is given. *)
Lemma resolve_cycle_never_raises :
  ~ terminates cyclic_forest (JStr 0 "trail_running").
Proof.
  intros (fuel & r & Hr). simpl in Hr.
  destruct (cyclic_forest_runs_on fuel) as [Hnone _].
  rewrite Hnone in Hr. discriminate.
Qed.

(** C1 (amended): on an acyclic forest (every entry's parent ranks below
    the entry) type resolution terminates for every key: after at most
    [rank key + 1] turns of the loop it has returned a type or raised, and
    more turns give the same answer; a key that is neither mapped nor in
    the forest ends it with [ValueError].  The code has no step cap. *)
Theorem resolve_terminates_on_acyclic hierarchy rank oid act_type :
  acyclic hierarchy rank ->
  (exists r,
      forall fuel, (rank act_type < fuel)%nat ->
        _resolveActivityType hierarchy fuel (JStr oid act_type) = Some r) /\
  (assoc act_type _activityMappings = None ->
   parents hierarchy act_type = Ok [] ->
   forall fuel,
     _resolveActivityType hierarchy (S fuel) (JStr oid act_type) =
     Some (Raise (ValueError "Activity type not found in activity hierarchy"))).
Proof.
  intros Hacyc. split.
  - destruct (resolve_within_rank _ _ Hacyc (S (rank act_type)) act_type) as [r Hr]; [lia|].
    exists r. intros fuel Hlt. simpl.
    apply (resolve_loop_mono _ (S (rank act_type))); [lia | exact Hr].
  - intros Hmap Hpar fuel. simpl. unfold step. rewrite Hmap, Hpar. reflexivity.
Qed.

Lemma sample_forest_acyclic : acyclic sample_forest sample_rank.
Proof.
  unfold acyclic, sample_forest.
  repeat (apply Forall_cons; split);
    [ intros p [= <-]; vm_compute; lia
    | intros p [= <-]; vm_compute; lia
    | intros p; discriminate
    | apply Forall_nil_2 ].
Qed.

Lemma resolve_terminates_on_acyclic_witness :
  acyclic sample_forest sample_rank /\
  (exists r,
      forall fuel, (sample_rank "yoga" < fuel)%nat ->
        _resolveActivityType sample_forest fuel (JStr 0 "yoga") = Some r) /\
  (forall fuel,
     _resolveActivityType sample_forest (S fuel) (JStr 0 "yoga") =
     Some (Raise (ValueError "Activity type not found in activity hierarchy"))).
Proof.
  split; [exact sample_forest_acyclic|].
  destruct (resolve_terminates_on_acyclic sample_forest sample_rank 0 "yoga"
              sample_forest_acyclic) as [Hterm Hraise].
  split; [exact Hterm|].
  apply Hraise; reflexivity.
Defined.

Example resolve_trail_running :
  _resolveActivityType sample_forest 3 (JStr 0 "trail_running") = Some (Ok Running).
Proof. reflexivity. Qed.

Example resolve_needs_its_turns :
  _resolveActivityType sample_forest 1 (JStr 0 "trail_running") = None.
Proof. reflexivity. Qed.

End TaxonomyFacts.

(** ** The session cache *)

Module SessionFacts.
Import Samples Reasoning.

Section Facts.
Context `{Collaborators}.
Variable w : World.

Lemma send_cache req st :
  _sessionCache (send w req st).2 = _sessionCache st.
Proof. reflexivity. Qed.

(** A login that fails has not touched the cache. *)
Lemma signin_failure record email password st e st' :
  signin w record email password st = (Raise e, st') ->
  _sessionCache st' = _sessionCache st.
Proof.
  unfold signin, mbind, Adapter_bind, send, throw. cbn.
  destruct (requests w _) as [preResp|e1]; [|intros [= _ <-]; reflexivity].
  destruct (requests w _) as [resp|e2]; [|intros [= _ <-]; reflexivity].
  destruct (_ && _); [intros [= _ <-]; reflexivity|].
  destruct (negb _); [intros [= _ <-]; reflexivity|].
  destruct record as [r|]; cbn; discriminate.
Qed.

(** A login that succeeds has seen the redirect. *)
Lemma signin_success record email password st cookies st' :
  signin w record email password st = (Ok cookies, st') ->
  exists preResp resp,
    requests w {| method := GET; url := signin_url; params := []; data := [];
                  files := []; cookies := None; allow_redirects := true |} = Ok preResp /\
    status_code resp = 302 /\ cookies = resp_cookies preResp.
Proof.
  unfold signin, mbind, Adapter_bind, send, throw. cbn.
  destruct (requests w _) as [preResp|e1]; [|discriminate].
  destruct (requests w _) as [resp|e2]; [|discriminate].
  destruct (_ && _); [discriminate|].
  destruct (status_code resp =? 302) eqn:Hs; cbn; [|discriminate].
  intros Hok. exists preResp, resp. split; [reflexivity|]. split; [lia|].
  destruct record; unfold cache_Set, mret, Adapter_ret in Hok; cbn in Hok; congruence.
Qed.

Lemma Get_values now pk cache pk' :
  cached_value <$> ((SessionCache.Get now pk cache).2 !! pk') =
  cached_value <$> (cache !! pk').
Proof.
  unfold SessionCache.Get.
  destruct (cache !! pk) as [r|] eqn:Hr; [|reflexivity].
  destruct (now <=? expires r); [|reflexivity]. cbn.
  destruct (decide (pk = pk')) as [<-|Hne].
  - rewrite lookup_insert_eq, Hr. reflexivity.
  - rewrite lookup_insert_ne by exact Hne. reflexivity.
Qed.

Lemma Get_others now pk cache pk' :
  pk ≠ pk' ->
  (SessionCache.Get now pk cache).2 !! pk' = cache !! pk'.
Proof.
  intros Hne. unfold SessionCache.Get.
  destruct (cache !! pk) as [r|]; [|reflexivity].
  destruct (now <=? expires r); [|reflexivity]. cbn.
  apply lookup_insert_ne. exact Hne.
Qed.

Lemma Get_miss now pk cache :
  (SessionCache.Get now pk cache).1 = None ->
  (SessionCache.Get now pk cache).2 = cache.
Proof.
  unfold SessionCache.Get.
  destruct (cache !! pk) as [r|]; [|reflexivity].
  destruct (now <=? expires r); [discriminate|reflexivity].
Qed.

(** When [_get_cookies] fails, the cache is as the read at its start left
    it. *)
Lemma get_cookies_failure_cache record email password st e st' :
  _get_cookies w record email password st = (Raise e, st') ->
  match record with
  | Some r =>
      _sessionCache st' = (SessionCache.Get (utcnow w) (ExternalID r) (_sessionCache st)).2 /\
      ((SessionCache.Get (utcnow w) (ExternalID r) (_sessionCache st)).1 = None \/
       (SessionCache.Get (utcnow w) (ExternalID r) (_sessionCache st)).1 = Some [])
  | None => _sessionCache st' = _sessionCache st
  end.
Proof.
  unfold _get_cookies. destruct record as [r|]; [|apply signin_failure].
  unfold mbind at 1. unfold Adapter_bind, cache_Get.
  destruct (SessionCache.Get _ _ _) as [cached cache] eqn:HGet. cbn.
  destruct cached as [[|c jar]|]; cbn; try discriminate.
  - unfold lift. destruct (credential _ "Password" ≫= Decrypt) as [pw|e1];
      [|intros [= _ <-]; cbn; auto].
    destruct (credential _ "Email" ≫= Decrypt) as [em|e2];
      [|intros [= _ <-]; cbn; auto].
    intros Hs. apply signin_failure in Hs. cbn in Hs. auto.
  - unfold lift. destruct (credential _ "Password" ≫= Decrypt) as [pw|e1];
      [|intros [= _ <-]; cbn; auto].
    destruct (credential _ "Email" ≫= Decrypt) as [em|e2];
      [|intros [= _ <-]; cbn; auto].
    intros Hs. apply signin_failure in Hs. cbn in Hs. auto.
Qed.

(** C9 (amended): when [_get_cookies] fails, for whatever reason, no entry
    of the session cache has been written: every account holds the cookie
    set it held before, the entries of the other accounts are untouched,
    and the cache as a whole is unchanged unless the read at the start hit
    an unexpired entry with an empty cookie set, whose expiry that read has
    extended. *)
Theorem get_cookies_failure_writes_nothing record email password st e st' :
  _get_cookies w record email password st = (Raise e, st') ->
  (forall pk, cached_value <$> (_sessionCache st' !! pk) =
              cached_value <$> (_sessionCache st !! pk)) /\
  (forall pk, (forall r, record = Some r -> ExternalID r ≠ pk) ->
              _sessionCache st' !! pk = _sessionCache st !! pk) /\
  ((forall r, record = Some r ->
      (SessionCache.Get (utcnow w) (ExternalID r) (_sessionCache st)).1 ≠ Some []) ->
   _sessionCache st' = _sessionCache st).
Proof.
  intros Hfail. apply get_cookies_failure_cache in Hfail.
  destruct record as [r|].
  - destruct Hfail as [-> Hread]. split; [|split].
    + intros pk. apply Get_values.
    + intros pk Hpk. apply Get_others. apply (Hpk r). reflexivity.
    + intros Hjar. destruct Hread as [Hmiss|Hhit].
      * apply Get_miss. exact Hmiss.
      * destruct (Hjar r eq_refl Hhit).
  - rewrite Hfail. auto.
Qed.

End Facts.

(** C9, as the specification states it, fails on the code (with the cache
    of the specification).  Alice logs in at time 500 to a service whose
    sign-in page sets no cookie: the login is accepted and the empty cookie
    set is cached until 2300.  At time 1000 [_get_cookies] reads the entry,
    which extends its expiry to 2800, takes the empty set for a miss and
    logs in again; this time the login is refused, [_get_cookies] raises,
    and the cache is not what it was before the call. *)
Lemma refused_login_extends_expiry :
  _sessionCache empty_jar_state !! "alice" =
    Some {| cached_value := []; expires := 2300 |} /\
  (_get_cookies (canned_world (cookieless 403) 1000) (Some alice) None None
     empty_jar_state).1 = Raise (APIException "Invalid login" true true) /\
  _sessionCache
    (_get_cookies (canned_world (cookieless 403) 1000) (Some alice) None None
       empty_jar_state).2 !! "alice" = Some {| cached_value := []; expires := 2800 |}.
Proof. repeat split; evaluate. Qed.

Lemma get_cookies_failure_writes_nothing_witness :
  (_get_cookies (canned_world (refusing []) 500) (Some alice) None None empty_state).1 =
  Raise (APIException "Invalid login" true true) /\
  _sessionCache
    (_get_cookies (canned_world (refusing []) 500) (Some alice) None None empty_state).2 =
  _sessionCache empty_state.
Proof.
  assert (Hrun : _get_cookies (canned_world (refusing []) 500) (Some alice) None None
                   empty_state =
                 (Raise (APIException "Invalid login" true true),
                  (_get_cookies (canned_world (refusing []) 500) (Some alice) None None
                     empty_state).2)) by (vm_compute; reflexivity).
  split; [rewrite Hrun; reflexivity|].
  apply (get_cookies_failure_writes_nothing (canned_world (refusing []) 500)
           (Some alice) None None empty_state _ _ Hrun).
  intros r [= <-]. vm_compute. discriminate.
Defined.

(** A login that is accepted writes the entry. *)
Example accepted_login_is_cached :
  _sessionCache
    (_get_cookies (canned_world (service []) 500) (Some alice) None None empty_state).2
    !! "alice" = Some {| cached_value := [("JSESSIONID", "0123")]; expires := 2300 |}.
Proof. vm_compute. reflexivity. Qed.

End SessionFacts.

(** ** The listing: what a failing record does to its page *)

Module ListingFacts.
Import Samples Reasoning.

Section Facts.
Context `{Collaborators}.
Variable hierarchy : list HierarchyEntry.

Lemma for_activities_app fuel pre post activities exclusions :
  for_activities hierarchy fuel (pre ++ post) activities exclusions =
  match for_activities hierarchy fuel pre activities exclusions with
  | Some (Ok (activities', exclusions')) =>
      for_activities hierarchy fuel post activities' exclusions'
  | r => r
  end.
Proof.
  revert activities exclusions.
  induction pre as [|item pre IH]; intros activities exclusions; cbn; [reflexivity|].
  destruct (listed hierarchy fuel item) as [[[activity|exclusion]|e]|]; auto.
Qed.

(** A record without a distance is an exclusion, and nothing else. *)
Lemma listed_no_distance fuel item act activityId :
  getitem item "activity" = Ok act ->
  py_in "sumDistance" act = Ok false ->
  getitem act "activityId" = Ok activityId ->
  listed hierarchy fuel item =
  Some (Ok (inr (APIExcludeActivity "No distance" (Some activityId)))).
Proof.
  intros Hact Hdist Hid. unfold listed.
  rewrite Hact. cbn. rewrite Hdist. cbn. rewrite Hid. reflexivity.
Qed.

(** A record whose type resolution raises makes the body of the loop
    raise. *)
Lemma listed_unresolved fuel item act activity activityType type_key e :
  getitem item "activity" = Ok act ->
  py_in "sumDistance" act = Ok true ->
  corrected act = Ok activity ->
  getitem act "activityType" = Ok activityType ->
  getitem activityType "key" = Ok type_key ->
  _resolveActivityType hierarchy fuel type_key = Some (Raise e) ->
  listed hierarchy fuel item = Some (Raise e).
Proof.
  intros Hact Hdist Hcorr Htype Hkey Hres. unfold listed.
  rewrite Hact. cbn. rewrite Hdist. cbn. rewrite Hcorr. cbn.
  rewrite Htype. cbn. rewrite Hkey. cbn. rewrite Hres. reflexivity.
Qed.

Variable w : World.

(** An exception of the loop over a page is raised out of the loop over
    the pages: the search request of the page is the last thing done. *)
Lemma pages_abort fuel0 fuel exhaustive cookies page activities exclusions st res body
    results items e :
  requests w (search_request cookies page) = Ok res ->
  resp_json res = Ok body ->
  getitem body "results" = Ok results ->
  py_in "activities" results = Ok true ->
  getitem results "activities" ≫= py_iter = Ok items ->
  for_activities hierarchy fuel0 items activities exclusions = Some (Raise e) ->
  pages hierarchy w fuel0 (S fuel) exhaustive cookies page activities exclusions st =
  (Raise e, after st (search_request cookies page)).
Proof.
  intros Hreq Hjson Hresults Hin Hitems Hfor.
  cbn [pages]. unfold mbind, Adapter_bind, send, lift. rewrite Hreq.
  rewrite Hjson. cbn. rewrite Hresults, Hin. cbn.
  unfold mbind in Hitems. rewrite Hitems, Hfor. reflexivity.
Qed.

(** C2 (amended): on a page, a record without the cumulative distance
    yields one exclusion entry and nothing else, and the records after it
    are processed as they would be without it; a record whose type key
    cannot be resolved yields no exclusion: the exception ends the loop
    over the page, whatever records follow, and with it the listing,
    which returns neither activities nor exclusions. *)
Theorem page_failures fuel pre post activities exclusions activities' exclusions'
    item act :
  for_activities hierarchy fuel pre activities exclusions =
    Some (Ok (activities', exclusions')) ->
  getitem item "activity" = Ok act ->
  (forall activityId,
      py_in "sumDistance" act = Ok false ->
      getitem act "activityId" = Ok activityId ->
      for_activities hierarchy fuel (pre ++ item :: post) activities exclusions =
      for_activities hierarchy fuel post activities'
        (exclusions' ++ [APIExcludeActivity "No distance" (Some activityId)])) /\
  (forall activity activityType type_key e,
      py_in "sumDistance" act = Ok true ->
      corrected act = Ok activity ->
      getitem act "activityType" = Ok activityType ->
      getitem activityType "key" = Ok type_key ->
      _resolveActivityType hierarchy fuel type_key = Some (Raise e) ->
      for_activities hierarchy fuel (pre ++ item :: post) activities exclusions =
      Some (Raise e) /\
      forall pages_left exhaustive cookies page st res body results,
        requests w (search_request cookies page) = Ok res ->
        resp_json res = Ok body ->
        getitem body "results" = Ok results ->
        py_in "activities" results = Ok true ->
        getitem results "activities" ≫= py_iter = Ok (pre ++ item :: post)%list ->
        pages hierarchy w fuel (S pages_left) exhaustive cookies page
          activities exclusions st =
        (Raise e, after st (search_request cookies page))).
Proof.
  intros Hpre Hact. split.
  - intros activityId Hdist Hid.
    rewrite for_activities_app, Hpre. cbn.
    rewrite (listed_no_distance fuel item act activityId Hact Hdist Hid). reflexivity.
  - intros activity activityType type_key e Hdist Hcorr Htype Hkey Hres.
    assert (Hfor : for_activities hierarchy fuel (pre ++ item :: post)
                     activities exclusions = Some (Raise e)).
    { rewrite for_activities_app, Hpre. cbn.
      rewrite (listed_unresolved fuel item act activity activityType type_key e
                 Hact Hdist Hcorr Htype Hkey Hres).
      reflexivity. }
    split; [exact Hfor|].
    intros pages_left exhaustive cookies page st res body results
           Hreq Hjson Hresults Hin Hitems.
    eapply pages_abort; eassumption.
Qed.

End Facts.

(** C2, as the specification states it, fails on the code: the first
    record of this page has a type key ("yoga") that the taxonomy cannot
    resolve; the listing raises [ValueError], with no exclusion for that
    record and without processing the second record. *)
Lemma unresolved_type_aborts_listing :
  (DownloadActivityList sample_forest
     (canned_world
        (service [run_record "1001" "yoga" 10.9 "5:30 min/km";
                  run_record "1002" "running" 10.9 "5:30 min/km"]) 500)
     5 alice false empty_state).1 =
  Raise (ValueError "Activity type not found in activity hierarchy").
Proof. evaluate. Qed.

Lemma page_failures_witness :
  for_activities sample_forest 5
    ([] ++ no_distance_record "1001" :: [run_record "1002" "cycling" 10.9 "5:30 min/km"])
    [] [] =
  for_activities sample_forest 5 [run_record "1002" "cycling" 10.9 "5:30 min/km"]
    [] ([] ++ [APIExcludeActivity "No distance" (Some (str "1001"))]) /\
  for_activities sample_forest 5
    ([] ++ run_record "1001" "yoga" 10.9 "5:30 min/km"
        :: [run_record "1002" "cycling" 10.9 "5:30 min/km"])
    [] [] =
  Some (Raise (ValueError "Activity type not found in activity hierarchy")) /\
  pages sample_forest
    (canned_world (service ([] ++ run_record "1001" "yoga" 10.9 "5:30 min/km"
                               :: [run_record "1002" "cycling" 10.9 "5:30 min/km"])) 500)
    5 (S 4) false [("JSESSIONID", "0123")] 1 [] [] empty_state =
  (Raise (ValueError "Activity type not found in activity hierarchy"),
   after empty_state (search_request [("JSESSIONID", "0123")] 1)).
Proof.
  pose (bad := run_record "1001" "yoga" 10.9 "5:30 min/km").
  pose (good := run_record "1002" "cycling" 10.9 "5:30 min/km").
  pose (w := canned_world (service ([] ++ bad :: [good])) 500).
  fold bad good w.
  split.
  - apply (page_failures sample_forest w 5 [] [good] [] [] [] []
             (no_distance_record "1001") (obj 2 [("activityId", str "1001")])
             eq_refl eq_refl);
      evaluate.
  - destruct (page_failures sample_forest w 5 [] [good] [] [] [] [] bad
                (run_act "1001" "yoga" 10.9 "5:30 min/km") eq_refl eq_refl)
      as [_ Hbad].
    destruct (Hbad (returned new_UploadedActivity
                      (corrected (run_act "1001" "yoga" 10.9 "5:30 min/km")))
                (obj 4 [("key", str "yoga")]) (str "yoga")
                (ValueError "Activity type not found in activity hierarchy"))
      as [Hfor Hpages]; [evaluate..|].
    split; [exact Hfor|].
    apply (Hpages 4%nat false [("JSESSIONID", "0123")] 1 empty_state
             (answer (page_of ([] ++ bad :: [good])))
             (page_of ([] ++ bad :: [good]))
             (obj 21 [("activities", JList 22 ([] ++ bad :: [good]));
                      ("search", obj 23 [("totalPages", JInt 0 1)])]));
      evaluate.
Defined.

(** The listing of a page with a record that has no distance: one
    activity, one exclusion. *)
Example listing_with_exclusion :
  (fun r => match r with
            | (Ok (Some (activities, exclusions)), _) =>
                Some (map UID activities, exclusions)
            | _ => None
            end)
    (DownloadActivityList sample_forest
       (canned_world
          (service [no_distance_record "1001";
                    run_record "1002" "trail_running" 10.9 "5:30 min/km"]) 500)
       5 alice false empty_state) =
  Some ([Some "Morning run|Running"],
        [APIExcludeActivity "No distance" (Some (str "1001"))]).
Proof. vm_compute. reflexivity. Qed.

End ListingFacts.

(** ** The stationary flag and the pace correction *)

Module RecordFacts.
Import Samples Reasoning.

Lemma py_in_raises k x e : py_in k x = Raise e -> e = TypeError.
Proof. destruct x; cbn; congruence. Qed.

Lemma getitem_raises d k e :
  getitem d k = Raise e -> e = TypeError \/ e = KeyError (JStr 0 k).
Proof.
  destruct d; cbn; try (intros [= <-]; auto).
  destruct (assoc k kv); [discriminate|]. intros [= <-]. auto.
Qed.

(** Two objects are the same to [is] by their identity alone: parsing a
    document makes an object of its own for every object it reads,
    whatever the two hold. *)
Lemma distinct_objects_differ oid oid' kv kv' :
  oid <> oid' -> py_is (JDict oid kv) (JDict oid' kv') = false.
Proof. intros Hne. cbn. apply Nat.eqb_neq. exact Hne. Qed.

(** What line 145 computes: the flag is true when a latitude is missing,
    or when begin and end are one and the same object on both axes. *)
Lemma stationary_by_identity act b :
  is_stationary act = Ok b ->
  (b = true <->
   py_in "beginLatitude" act = Ok false \/
   py_in "endLatitude" act = Ok false \/
   exists beginLatitude endLatitude beginLongitude endLongitude,
     getitem act "beginLatitude" = Ok beginLatitude /\
     getitem act "endLatitude" = Ok endLatitude /\
     getitem act "beginLongitude" = Ok beginLongitude /\
     getitem act "endLongitude" = Ok endLongitude /\
     py_is beginLatitude endLatitude = true /\
     py_is beginLongitude endLongitude = true).
Proof.
  unfold is_stationary. intros Hs.
  destruct (py_in "beginLatitude" act) as [[|]|e1] eqn:H1; cbn in Hs;
    [|injection Hs as <-; tauto|discriminate].
  destruct (py_in "endLatitude" act) as [[|]|e2] eqn:H2; cbn in Hs;
    [|injection Hs as <-; tauto|discriminate].
  destruct (getitem act "beginLatitude") as [bl|e3] eqn:H3; cbn in Hs; [|discriminate].
  destruct (getitem act "endLatitude") as [el|e4] eqn:H4; cbn in Hs; [|discriminate].
  destruct (py_is bl el) eqn:Hlat.
  - destruct (getitem act "beginLongitude") as [blo|e5] eqn:H5; cbn in Hs; [|discriminate].
    destruct (getitem act "endLongitude") as [elo|e6] eqn:H6; cbn in Hs; [|discriminate].
    injection Hs as <-. split.
    + intros Hlon. right. right. exists bl, el, blo, elo. auto 10.
    + intros [Hc|[Hc|(bl' & el' & blo' & elo' & _ & _ & Hb & He & _ & Hlon)]];
        try discriminate.
      congruence.
  - injection Hs as <-. split; [discriminate|].
    intros [Hc|[Hc|(bl' & el' & blo' & elo' & Hb & He & _ & _ & Hlat' & _)]];
      try discriminate.
    congruence.
Qed.

(** C4, evaluated on the code: a record whose begin and end coordinates
    are equal on both axes (52.52, 13.40), each held by an object of its
    own as a parsed document holds them, is not flagged stationary. *)
Lemma equal_coordinates_not_stationary :
  is_stationary (run_act "1001" "running" 10.9 "5:30 min/km") = Ok false /\
  (x ← getitem (run_act "1001" "running" 10.9 "5:30 min/km") "beginLatitude";
   getitem x "value") =
  (x ← getitem (run_act "1001" "running" 10.9 "5:30 min/km") "endLatitude";
   getitem x "value") /\
  (x ← getitem (run_act "1001" "running" 10.9 "5:30 min/km") "beginLongitude";
   getitem x "value") =
  (x ← getitem (run_act "1001" "running" 10.9 "5:30 min/km") "endLongitude";
   getitem x "value").
Proof. vm_compute. auto. Qed.

Section Facts.
Context `{Collaborators}.

Lemma fix_pace_guarded act gcKey facet r :
  fix_pace act gcKey facet = Ok r -> guarded facet r.
Proof.
  unfold fix_pace, guarded. intros Hfix.
  destruct (py_in gcKey act) as [[|]|e1]; cbn in Hfix;
    [|injection Hfix as <-; left; reflexivity|discriminate].
  destruct (getitem act gcKey) as [field|e2]; cbn in Hfix; [|discriminate].
  destruct (getitem field "withUnitAbbr") as [text|e3]; cbn in Hfix; [|discriminate].
  destruct (py_in ":" text) as [[|]|e4]; cbn in Hfix;
    [|injection Hfix as <-; left; reflexivity|discriminate].
  destruct facet as [v|]; cbn in Hfix; [|injection Hfix as <-; left; reflexivity].
  destruct (float_truthy v) eqn:Htrue; [|injection Hfix as <-; left; reflexivity].
  unfold float_div in Hfix. unfold float_truthy in Htrue.
  destruct (PrimFloat.eqb v 0) eqn:Hzero; [discriminate|].
  cbn in Hfix. injection Hfix as <-. right. exists v.
  split; [reflexivity|]. split; [|reflexivity].
  unfold float_truthy. rewrite Hzero. reflexivity.
Qed.

Lemma fix_pace_raises act gcKey facet e :
  fix_pace act gcKey facet = Raise e -> e <> ZeroDivisionError.
Proof.
  unfold fix_pace. intros Hfix.
  destruct (py_in gcKey act) as [[|]|e1] eqn:H1; cbn in Hfix; try discriminate;
    [|injection Hfix as <-; apply py_in_raises in H1; congruence].
  destruct (getitem act gcKey) as [field|e2] eqn:H2; cbn in Hfix;
    [|injection Hfix as <-; apply getitem_raises in H2; destruct H2; congruence].
  destruct (getitem field "withUnitAbbr") as [text|e3] eqn:H3; cbn in Hfix;
    [|injection Hfix as <-; apply getitem_raises in H3; destruct H3; congruence].
  destruct (py_in ":" text) as [[|]|e4] eqn:H4; cbn in Hfix; try discriminate;
    [|injection Hfix as <-; apply py_in_raises in H4; congruence].
  destruct facet as [v|]; cbn in Hfix; [|discriminate].
  destruct (float_truthy v) eqn:Htrue; [|discriminate].
  unfold float_div in Hfix. unfold float_truthy in Htrue.
  destruct (PrimFloat.eqb v 0); discriminate.
Qed.

Lemma fix_pace_inverts act gcKey field text v :
  py_in gcKey act = Ok true ->
  getitem act gcKey = Ok field ->
  getitem field "withUnitAbbr" = Ok text ->
  py_in ":" text = Ok true ->
  float_truthy v = true ->
  fix_pace act gcKey (Some v) = Ok (Some (60 / v)%float).
Proof.
  intros Hin Hfield Htext Hcolon Htrue. unfold fix_pace.
  rewrite Hin. cbn. rewrite Hfield. cbn. rewrite Htext. cbn. rewrite Hcolon. cbn.
  rewrite Htrue. unfold float_div. unfold float_truthy in Htrue.
  destruct (PrimFloat.eqb v 0); [discriminate|reflexivity].
Qed.

(** Where the correction leaves a facet as it is: the field is not in
    the record, its display text holds no colon, or the facet is unset or
    zero. *)
Lemma fix_pace_keeps act gcKey facet r :
  fix_pace act gcKey facet = Ok r ->
  py_in gcKey act = Ok false \/
  (exists field text,
      getitem act gcKey = Ok field /\
      getitem field "withUnitAbbr" = Ok text /\
      py_in ":" text = Ok false) \/
  (forall v, facet = Some v -> float_truthy v = false) ->
  r = facet.
Proof.
  unfold fix_pace. intros Hfix Hkeep.
  destruct (py_in gcKey act) as [[|]|e1] eqn:Hin; cbn in Hfix;
    [|congruence|discriminate].
  destruct (getitem act gcKey) as [field|e2] eqn:Hfield; cbn in Hfix; [|discriminate].
  destruct (getitem field "withUnitAbbr") as [text|e3] eqn:Htext; cbn in Hfix;
    [|discriminate].
  destruct (py_in ":" text) as [[|]|e4] eqn:Hcolon; cbn in Hfix;
    [|congruence|discriminate].
  destruct facet as [v|]; [|congruence].
  destruct (float_truthy v) eqn:Htrue; [|congruence].
  destruct Hkeep as [Habsent|[(field' & text' & Hfield' & Htext' & Hcolon')|Hzero]].
  - discriminate.
  - injection Hfield' as <-. rewrite Htext in Htext'. injection Htext' as <-.
    congruence.
  - specialize (Hzero v eq_refl). congruence.
Qed.

Lemma fix_Speed_facets act speed speed' :
  fix_Speed act speed = Ok speed' ->
  Units speed' = Units speed /\
  fix_pace act "minSpeed" (Min speed) = Ok (Min speed') /\
  fix_pace act "maxSpeed" (Max speed) = Ok (Max speed') /\
  fix_pace act "weightedMeanSpeed" (Average speed) = Ok (Average speed').
Proof.
  unfold fix_Speed. intros Hfix.
  destruct (fix_pace act "minSpeed" (Min speed)) as [mn|e1]; cbn in Hfix; [|discriminate].
  destruct (fix_pace act "maxSpeed" (Max speed)) as [mx|e2]; cbn in Hfix; [|discriminate].
  destruct (fix_pace act "weightedMeanSpeed" (Average speed)) as [av|e3]; cbn in Hfix;
    [|discriminate].
  injection Hfix as <-. cbn. auto.
Qed.

(** C10: the pace correction never divides by zero.  It raises no
    [ZeroDivisionError]; when it returns, the unit of the statistic is the
    one it had, each facet is as it was or is the reciprocal [60 / v] of a
    value [v] that was set and not zero, and a facet that was zero is still
    set, to that zero. *)
Theorem pace_fix_never_divides_by_zero act speed :
  fix_Speed act speed <> Raise ZeroDivisionError /\
  forall speed',
    fix_Speed act speed = Ok speed' ->
    Units speed' = Units speed /\
    forall gcKey facet,
      In (gcKey, facet) speed_facets ->
      guarded (facet speed) (facet speed') /\
      forall v, facet speed = Some v -> PrimFloat.eqb v 0 = true ->
                facet speed' = Some v.
Proof.
  split.
  - unfold fix_Speed.
    destruct (fix_pace act "minSpeed" (Min speed)) as [mn|e1] eqn:H1; cbn;
      [|apply fix_pace_raises in H1; congruence].
    destruct (fix_pace act "maxSpeed" (Max speed)) as [mx|e2] eqn:H2; cbn;
      [|apply fix_pace_raises in H2; congruence].
    destruct (fix_pace act "weightedMeanSpeed" (Average speed)) as [av|e3] eqn:H3; cbn;
      [discriminate|apply fix_pace_raises in H3; congruence].
  - intros speed' Hfix.
    destruct (fix_Speed_facets _ _ _ Hfix) as (Hunits & Hmin & Hmax & Havg).
    split; [exact Hunits|].
    assert (Hall : forall gcKey facet, In (gcKey, facet) speed_facets ->
                     guarded (facet speed) (facet speed')).
    { intros gcKey facet [[= <- <-]|[[= <- <-]|[[= <- <-]|[]]]];
        eapply fix_pace_guarded; eassumption. }
    intros gcKey facet Hin. split; [apply (Hall gcKey); exact Hin|].
    intros v Hv Hzero.
    destruct (Hall gcKey facet Hin) as [->|(v' & Hv' & Htrue & _)]; [exact Hv|].
    rewrite Hv in Hv'. injection Hv' as <-.
    unfold float_truthy in Htrue. rewrite Hzero in Htrue. discriminate.
Qed.

End Facts.

(** The correction on a speed statistic in km/h whose minimum is zero and
    whose maximum is 10.9, both displayed as a pace: the zero stays, and
    the maximum becomes 60 / 10.9. *)
Lemma pace_fix_never_divides_by_zero_witness :
  fix_Speed
    (obj 2 [("minSpeed", field 3 0 "kph" "0:00 min/km");
            ("maxSpeed", field 4 10.9 "kph" "5:30 min/km")])
    (set_Max (Some 10.9%float) (set_Min (Some 0%float) (unset KilometersPerHour))) =
  Ok (set_Max (Some (60 / 10.9)%float) (set_Min (Some 0%float) (unset KilometersPerHour))) /\
  guarded (Some 10.9%float) (Some (60 / 10.9)%float) /\
  Min (set_Max (Some (60 / 10.9)%float) (set_Min (Some 0%float) (unset KilometersPerHour))) =
  Some 0%float.
Proof.
  assert (Hfix : fix_Speed
                   (obj 2 [("minSpeed", field 3 0 "kph" "0:00 min/km");
                           ("maxSpeed", field 4 10.9 "kph" "5:30 min/km")])
                   (set_Max (Some 10.9%float)
                      (set_Min (Some 0%float) (unset KilometersPerHour))) =
                 Ok (set_Max (Some (60 / 10.9)%float)
                       (set_Min (Some 0%float) (unset KilometersPerHour))))
    by evaluate.
  split; [exact Hfix|].
  destruct (pace_fix_never_divides_by_zero
              (obj 2 [("minSpeed", field 3 0 "kph" "0:00 min/km");
                      ("maxSpeed", field 4 10.9 "kph" "5:30 min/km")])
              (set_Max (Some 10.9%float)
                 (set_Min (Some 0%float) (unset KilometersPerHour))))
    as [_ Hreturns].
  destruct (Hreturns _ Hfix) as [_ Hfacets].
  split.
  - apply (Hfacets "maxSpeed" Max). cbn. auto.
  - apply (Hfacets "minSpeed" Min); [cbn; auto|reflexivity|evaluate].
Defined.

End RecordFacts.

(** ** The pace correction in the listing *)

Module PaceFacts.
Import Samples Reasoning RecordFacts.

Section Facts.
Context `{Collaborators}.

Lemma asUnits_Units s units s' :
  asUnits s units = Ok s' -> Units s' = units.
Proof.
  unfold asUnits. intros Has. case_bool_decide as Hsame.
  - injection Has as <-. congruence.
  - crack Has. injection Has as <-. reflexivity.
Qed.

Lemma Speed_set_stat statKey stat stats :
  statKey <> SK_Speed -> Speed (set_stat statKey stat stats) = Speed stats.
Proof. destruct statKey; cbn; congruence. Qed.

(** A call of [mapStat] for another statistic leaves the speed alone. *)
Lemma mapStat_other act gcKey statKey type useSourceUnits stats stats' :
  statKey <> SK_Speed ->
  mapStat act gcKey statKey type useSourceUnits stats = Ok stats' ->
  Speed stats' = Speed stats.
Proof.
  intros Hne Hmap. unfold mapStat in Hmap. crack Hmap;
    injection Hmap as <-; auto using Speed_set_stat.
Qed.

Lemma mapStats_other act rules stats stats' :
  Forall (fun rule => rule.1.1.2 <> SK_Speed) rules ->
  mapStats act rules stats = Ok stats' ->
  Speed stats' = Speed stats.
Proof.
  intros Hrules. revert stats.
  induction Hrules as [|[[[gcKey statKey] type] useSourceUnits] rules Hrule _ IH];
    intros stats Hmap; cbn in Hmap.
  - congruence.
  - apply bind_Ok in Hmap. destruct Hmap as (stats1 & Hfirst & Hrest).
    rewrite (IH _ Hrest). eapply mapStat_other; [exact Hrule|exact Hfirst].
Qed.

(** A call of [mapStat] for the speed that keeps the source units: when
    the field is mapped the speed statistic comes out in the unit of the
    field, and otherwise it is not touched. *)
Lemma mapStat_source act gcKey type stats stats' :
  mapStat act gcKey SK_Speed type true stats = Ok stats' ->
  (is_mapped act gcKey = true /\
   exists units, source_units act gcKey = Ok units /\ Units (Speed stats') = units) \/
  (is_mapped act gcKey = false /\ Speed stats' = Speed stats).
Proof.
  intros Hmap. unfold mapStat in Hmap. unfold is_mapped, source_units.
  crack Hmap; injection Hmap as <-.
  - right. replay. rewrite Hif0. auto.
  - left. replay. rewrite Hif0. split; [reflexivity|].
    eexists. split; [reflexivity|].
    cbn. eapply asUnits_Units. eassumption.
  - right. replay. auto.
Qed.

(** The three calls for the speed come first, and the calls after them
    are for other statistics. *)
Lemma speed_rules_first act stats0 stats :
  mapStats act stat_rules stats0 = Ok stats ->
  exists s1 s2 s3,
    mapStat act "minSpeed" SK_Speed kw_min true stats0 = Ok s1 /\
    mapStat act "maxSpeed" SK_Speed kw_max true s1 = Ok s2 /\
    mapStat act "weightedMeanSpeed" SK_Speed kw_avg true s2 = Ok s3 /\
    Speed stats = Speed s3.
Proof.
  assert (Hothers : Forall (fun rule => rule.1.1.2 <> SK_Speed) (drop 3 stat_rules)).
  { cbn. repeat (apply Forall_cons; split; [cbn; discriminate|]). apply Forall_nil_2. }
  change stat_rules
    with ([("minSpeed", SK_Speed, kw_min, true); ("maxSpeed", SK_Speed, kw_max, true);
           ("weightedMeanSpeed", SK_Speed, kw_avg, true)] ++ drop 3 stat_rules)%list.
  generalize dependent (drop 3 stat_rules). intros others Hothers Hstats.
  cbn [mapStats app] in Hstats.
  apply bind_Ok in Hstats. destruct Hstats as (s1 & H1 & Hstats).
  apply bind_Ok in Hstats. destruct Hstats as (s2 & H2 & Hstats).
  apply bind_Ok in Hstats. destruct Hstats as (s3 & H3 & Hstats).
  exists s1, s2, s3. repeat (split; [assumption|]).
  eapply mapStats_other; eassumption.
Qed.

Lemma mapped_Speed act activity :
  mapped act = Ok activity ->
  exists stats0 stats,
    mapStats act stat_rules stats0 = Ok stats /\
    Speed (Stats activity) = Speed stats.
Proof.
  intros Hmapped. unfold mapped in Hmapped. crack Hmapped.
  injection Hmapped as <-. eauto.
Qed.

Lemma corrected_Speed act activity activity' :
  mapped act = Ok activity ->
  corrected act = Ok activity' ->
  fix_Speed act (Speed (Stats activity)) = Ok (Speed (Stats activity')).
Proof.
  intros Hmapped Hcorr. unfold corrected in Hcorr. rewrite Hmapped in Hcorr.
  cbn in Hcorr. crack Hcorr. injection Hcorr as <-. exact Hx.
Qed.

(** C5 (amended): for every speed field that is in the record, whose
    display text contains a colon and whose mapped facet is set and not
    zero, the correction replaces the mapped value [v] by [60 / v]; a facet
    that is unset or zero is left as it is, and so is the facet of a field
    that is not in the record or whose display text holds no colon.  The
    correction keeps the unit of the speed statistic, and the mapping (each
    speed field with [useSourceUnits]) left the statistic in the source
    unit of the last speed field it mapped. *)
Theorem pace_correction act activity activity' :
  mapped act = Ok activity ->
  corrected act = Ok activity' ->
  (forall gcKey facet field text v,
      In (gcKey, facet) speed_facets ->
      py_in gcKey act = Ok true ->
      getitem act gcKey = Ok field ->
      getitem field "withUnitAbbr" = Ok text ->
      py_in ":" text = Ok true ->
      facet (Speed (Stats activity)) = Some v ->
      float_truthy v = true ->
      facet (Speed (Stats activity')) = Some (60 / v)%float) /\
  (forall gcKey facet,
      In (gcKey, facet) speed_facets ->
      py_in gcKey act = Ok false \/
      (exists field text,
          getitem act gcKey = Ok field /\
          getitem field "withUnitAbbr" = Ok text /\
          py_in ":" text = Ok false) \/
      (forall v, facet (Speed (Stats activity)) = Some v -> float_truthy v = false) ->
      facet (Speed (Stats activity')) = facet (Speed (Stats activity))) /\
  Units (Speed (Stats activity')) = Units (Speed (Stats activity)) /\
  (forall gcKey units,
      last_speed_field act = Some gcKey ->
      source_units act gcKey = Ok units ->
      Units (Speed (Stats activity)) = units).
Proof.
  intros Hmapped Hcorr.
  pose proof (corrected_Speed _ _ _ Hmapped Hcorr) as Hfix.
  destruct (fix_Speed_facets _ _ _ Hfix) as (Hunits & Hmin & Hmax & Havg).
  split; [|split; [|split; [exact Hunits|]]].
  - intros gcKey facet field text v Hin Hpresent Hfield Htext Hcolon Hv Htrue.
    pose proof (fix_pace_inverts act gcKey field text v
                  Hpresent Hfield Htext Hcolon Htrue) as Hinv.
    destruct Hin as [[= <- <-]|[[= <- <-]|[[= <- <-]|[]]]];
      rewrite Hv in *; congruence.
  - intros gcKey facet Hin Hkeep.
    destruct Hin as [[= <- <-]|[[= <- <-]|[[= <- <-]|[]]]].
    + exact (fix_pace_keeps _ _ _ _ Hmin Hkeep).
    + exact (fix_pace_keeps _ _ _ _ Hmax Hkeep).
    + exact (fix_pace_keeps _ _ _ _ Havg Hkeep).
  - intros gcKey units Hlast Hsource.
    destruct (mapped_Speed _ _ Hmapped) as (stats0 & stats & Hstats & ->).
    destruct (speed_rules_first _ _ _ Hstats) as (s1 & s2 & s3 & H1 & H2 & H3 & Hstats').
    clear Hstats. rename Hstats' into Hstats.
    rewrite Hstats. unfold last_speed_field in Hlast.
    destruct (mapStat_source _ _ _ _ _ H3) as [(Hm3 & u3 & Hu3 & <-)|(Hm3 & ->)];
      rewrite Hm3 in Hlast; [injection Hlast as <-; congruence|].
    destruct (mapStat_source _ _ _ _ _ H2) as [(Hm2 & u2 & Hu2 & <-)|(Hm2 & ->)];
      rewrite Hm2 in Hlast; [injection Hlast as <-; congruence|].
    destruct (mapStat_source _ _ _ _ _ H1) as [(Hm1 & u1 & Hu1 & <-)|(Hm1 & ->)];
      rewrite Hm1 in Hlast; [injection Hlast as <-; congruence|].
    discriminate.
Qed.

End Facts.

(** C5, as the specification states it, fails on the code, in both its
    halves.  The maximum speed of the first record is mapped to 0 and its
    display text holds a colon, and the corrected activity still has the
    maximum speed 0: the value is not replaced by [60 / 0].  The minimum
    speed of the second record is 10 miles per hour with a display text
    that holds a colon, and its maximum speed is in kilometers per hour:
    the mapping leaves the statistic in kilometers per hour with the
    minimum 10 * 1.609344 and no longer 10, and the corrected minimum is
    the reciprocal of that, 60 / 16.09 and not 60 / 10: the reciprocal is
    not applied to the value in the unit of its source. *)
Lemma pace_is_not_always_the_source_reciprocal :
  ((activity ← mapped (run_act "1001" "running" 0 "0:00 min/km");
    Ok (Max (Speed (Stats activity)))) = Ok (Some 0%float) /\
   (field ← getitem (run_act "1001" "running" 0 "0:00 min/km") "maxSpeed";
    text ← getitem field "withUnitAbbr";
    py_in ":" text) = Ok true /\
   (activity ← corrected (run_act "1001" "running" 0 "0:00 min/km");
    Ok (Max (Speed (Stats activity)))) = Ok (Some 0%float)) /\
  ((field ← getitem mixed_units_act "minSpeed"; getitem field "value") = Ok (num 10) /\
   source_units mixed_units_act "minSpeed" = Ok MilesPerHour /\
   (field ← getitem mixed_units_act "minSpeed";
    text ← getitem field "withUnitAbbr";
    py_in ":" text) = Ok true /\
   (activity ← mapped mixed_units_act;
    Ok (Units (Speed (Stats activity)), Min (Speed (Stats activity)))) =
   Ok (KilometersPerHour, Some (10 * 1.609344 / 1.609344 * 1.609344)%float) /\
   (activity ← corrected mixed_units_act;
    Ok (Min (Speed (Stats activity)))) =
   Ok (Some (60 / (10 * 1.609344 / 1.609344 * 1.609344))%float) /\
   (60 / (10 * 1.609344 / 1.609344 * 1.609344) <? 3.8)%float = true /\
   (60 / 10 =? 6)%float = true).
Proof. repeat split; evaluate. Qed.

(** The example of the specification: a maximum speed mapped to 10.9 with
    the display text "5:30" is corrected to 60 / 10.9, about 5.50, in the
    unit of the field; and a maximum speed mapped to 0 stays 0. *)
Lemma pace_correction_witness :
  ((activity ← mapped (run_act "1001" "running" 10.9 "5:30 min/km");
    Ok (Max (Speed (Stats activity)))) = Ok (Some 10.9%float) /\
   (activity ← corrected (run_act "1001" "running" 10.9 "5:30 min/km");
    Ok (Max (Speed (Stats activity)))) = Ok (Some (60 / 10.9)%float) /\
   (activity ← corrected (run_act "1001" "running" 10.9 "5:30 min/km");
    Ok (Units (Speed (Stats activity)))) = Ok KilometersPerHour /\
   (5.50 <? 60 / 10.9)%float = true /\ (60 / 10.9 <? 5.51)%float = true) /\
  (activity ← corrected (run_act "1001" "running" 0 "0:00 min/km");
   Ok (Max (Speed (Stats activity)), Min (Speed (Stats activity)))) =
  Ok (Some 0%float, None).
Proof.
  split.
  - pose (act := run_act "1001" "running" 10.9 "5:30 min/km").
    pose (activity := returned new_UploadedActivity (mapped act)).
    pose (activity' := returned new_UploadedActivity (corrected act)).
    assert (Hmapped : mapped act = Ok activity) by evaluate.
    assert (Hcorr : corrected act = Ok activity') by evaluate.
    assert (Hmax : Max (Speed (Stats activity)) = Some 10.9%float) by evaluate.
    clearbody activity activity'.
    destruct (pace_correction act activity activity' Hmapped Hcorr)
      as (Hfacet & _ & Hunits & Hsource).
    fold act. rewrite Hmapped, Hcorr. cbn [mbind result_bind].
    split; [rewrite Hmax; reflexivity|].
    split; [|split; [|split; evaluate]].
    + apply (f_equal Ok).
      apply (Hfacet "maxSpeed" Max (field 13 10.9 "kph" "5:30 min/km")
               (str "5:30 min/km") 10.9%float);
        [cbn; auto|evaluate|evaluate|evaluate|evaluate|exact Hmax|evaluate].
    + apply (f_equal Ok). rewrite Hunits.
      apply (Hsource "maxSpeed"); evaluate.
  - pose (act := run_act "1001" "running" 0 "0:00 min/km").
    pose (activity := returned new_UploadedActivity (mapped act)).
    pose (activity' := returned new_UploadedActivity (corrected act)).
    assert (Hmapped : mapped act = Ok activity) by evaluate.
    assert (Hcorr : corrected act = Ok activity') by evaluate.
    assert (Hmax : Max (Speed (Stats activity)) = Some 0%float) by evaluate.
    assert (Hmin : Min (Speed (Stats activity)) = None) by evaluate.
    clearbody activity activity'.
    destruct (pace_correction act activity activity' Hmapped Hcorr)
      as (_ & Hkeep & _ & _).
    fold act. rewrite Hcorr. cbn [mbind result_bind].
    apply (f_equal Ok).
    rewrite (Hkeep "maxSpeed" Max), (Hkeep "minSpeed" Min), Hmax, Hmin;
      [reflexivity|cbn; auto| |cbn; auto|].
    + right. right. intros v. rewrite Hmin. discriminate.
    + right. right. intros v. rewrite Hmax. intros [= <-]. reflexivity.
Defined.

End PaceFacts.

(** ** The UIDs of a listing *)

Module UidFacts.
Import Samples Reasoning TaxonomyFacts.

Section Facts.
Context `{Collaborators}.
Variable hierarchy : list HierarchyEntry.

Lemma listed_mono fuel fuel' item r :
  (fuel <= fuel')%nat ->
  listed hierarchy fuel item = Some r ->
  listed hierarchy fuel' item = Some r.
Proof.
  intros Hle. unfold listed.
  match goal with
  | |- context [match ?m with Ok _ => _ | Raise _ => _ end] =>
      destruct m as [[act [[activity type_key]|exclusion]]|e]
  end; auto.
  destruct (_resolveActivityType hierarchy fuel type_key) as [r'|] eqn:Hres;
    [|discriminate].
  rewrite (resolve_mono _ _ _ _ _ Hle Hres). auto.
Qed.

Lemma for_activities_mono fuel fuel' items activities exclusions r :
  (fuel <= fuel')%nat ->
  for_activities hierarchy fuel items activities exclusions = Some r ->
  for_activities hierarchy fuel' items activities exclusions = Some r.
Proof.
  intros Hle. revert activities exclusions.
  induction items as [|item items IH]; intros activities exclusions; cbn; [auto|].
  destruct (listed hierarchy fuel item) as [r'|] eqn:Hitem; [|discriminate].
  rewrite (listed_mono _ _ _ _ Hle Hitem).
  destruct r' as [[activity|exclusion]|e]; auto.
Qed.

(** Two runs of the loop over a page that both finish agree, whatever
    number of turns each was given. *)
Lemma for_activities_agree fuel fuel' items activities exclusions r r' :
  for_activities hierarchy fuel items activities exclusions = Some r ->
  for_activities hierarchy fuel' items activities exclusions = Some r' ->
  r = r'.
Proof.
  intros Hr Hr'.
  apply (for_activities_mono _ (Nat.max fuel fuel')) in Hr; [|lia].
  apply (for_activities_mono _ (Nat.max fuel fuel')) in Hr'; [|lia].
  congruence.
Qed.

Variables w1 w2 : World.

(** The two worlds give the same raw listing: the remote service answers
    the search for a page alike in both, whatever the session. *)
Hypothesis same_raw_input :
  forall cookies1 cookies2 page,
    requests w1 (search_request cookies1 page) =
    requests w2 (search_request cookies2 page).

Lemma pages_agree fuel1 :
  forall fuel2 n1 n2 exhaustive cookies1 cookies2 page activities exclusions
         st1 st2 r1 r2 st1' st2',
    pages hierarchy w1 n1 fuel1 exhaustive cookies1 page activities exclusions st1 =
      (Ok (Some r1), st1') ->
    pages hierarchy w2 n2 fuel2 exhaustive cookies2 page activities exclusions st2 =
      (Ok (Some r2), st2') ->
    r1 = r2.
Proof.
  induction fuel1 as [|fuel1 IH];
    intros [|fuel2] n1 n2 exhaustive cookies1 cookies2 page activities exclusions
           st1 st2 r1 r2 st1' st2' Hrun1 Hrun2;
    try discriminate.
  cbn [pages] in Hrun1, Hrun2.
  unfold mbind, Adapter_bind, send, lift, mret, Adapter_ret, throw in Hrun1, Hrun2.
  cbv beta iota in Hrun1, Hrun2.
  rewrite (same_raw_input cookies1 cookies2 page) in Hrun1.
  destruct (requests w2 (search_request cookies2 page)) as [res|e]; [|discriminate].
  destruct (result_bind _ _ _ (resp_json res)) as [results|e]; [|discriminate].
  destruct (py_in "activities" results) as [has|e]; [|discriminate].
  destruct (negb has); [congruence|].
  destruct (result_bind _ _ py_iter _) as [items|e]; [|discriminate].
  destruct (for_activities hierarchy n1 items activities exclusions)
    as [[[a1 e1]|e]|] eqn:Hfor1; try discriminate.
  destruct (for_activities hierarchy n2 items activities exclusions)
    as [[[a2 e2]|e]|] eqn:Hfor2; try discriminate.
  pose proof (for_activities_agree _ _ _ _ _ _ _ Hfor1 Hfor2) as Hsame.
  injection Hsame as <- <-.
  destruct (result_bind _ _ _ (getitem results "search")) as [total|e]; [|discriminate].
  destruct (last_page exhaustive results page) as [[|]|e]; try discriminate.
  - congruence.
  - eapply IH; eassumption.
Qed.

(** C8: two runs of [DownloadActivityList] on identical raw input, in
    whatever state of the session cache, at whatever time, for whatever
    account and with whatever number of turns, return activities with
    identical UIDs (the same activities and exclusions, indeed), when both
    return. *)
Theorem listing_uids_deterministic fuel1 fuel2 serviceRecord1 serviceRecord2 exhaustive
    st1 st2 activities1 exclusions1 activities2 exclusions2 st1' st2' :
  DownloadActivityList hierarchy w1 fuel1 serviceRecord1 exhaustive st1 =
    (Ok (Some (activities1, exclusions1)), st1') ->
  DownloadActivityList hierarchy w2 fuel2 serviceRecord2 exhaustive st2 =
    (Ok (Some (activities2, exclusions2)), st2') ->
  map UID activities1 = map UID activities2 /\
  (activities1, exclusions1) = (activities2, exclusions2).
Proof.
  unfold DownloadActivityList, mbind, Adapter_bind. intros Hrun1 Hrun2.
  destruct (_get_cookies w1 _ _ _ st1) as [[cookies1|e1] s1]; [|discriminate].
  destruct (_get_cookies w2 _ _ _ st2) as [[cookies2|e2] s2]; [|discriminate].
  pose proof (pages_agree _ _ _ _ _ _ _ _ _ _ _ _ _ _ _ _ Hrun1 Hrun2) as Hsame.
  injection Hsame as <- <-. auto.
Qed.

End Facts.

Lemma listing_uids_deterministic_witness :
  (first_run [no_distance_record "1001";
              run_record "1002" "trail_running" 10.9 "5:30 min/km"]).1 =
  Ok (Some (listing_of
              (first_run [no_distance_record "1001";
                          run_record "1002" "trail_running" 10.9 "5:30 min/km"]))) /\
  (second_run [no_distance_record "1001";
               run_record "1002" "trail_running" 10.9 "5:30 min/km"]).1 =
  Ok (Some (listing_of
              (second_run [no_distance_record "1001";
                           run_record "1002" "trail_running" 10.9 "5:30 min/km"]))) /\
  map UID (listing_of
             (first_run [no_distance_record "1001";
                         run_record "1002" "trail_running" 10.9 "5:30 min/km"])).1 =
  map UID (listing_of
             (second_run [no_distance_record "1001";
                          run_record "1002" "trail_running" 10.9 "5:30 min/km"])).1 /\
  map UID (listing_of
             (first_run [no_distance_record "1001";
                         run_record "1002" "trail_running" 10.9 "5:30 min/km"])).1 =
  [Some "Morning run|Running"].
Proof.
  pose (items := [no_distance_record "1001";
                  run_record "1002" "trail_running" 10.9 "5:30 min/km"]).
  fold items.
  assert (Hrun1 : first_run items =
                  (Ok (Some ((listing_of (first_run items)).1,
                             (listing_of (first_run items)).2)),
                   (first_run items).2)) by evaluate.
  assert (Hrun2 : second_run items =
                  (Ok (Some ((listing_of (second_run items)).1,
                             (listing_of (second_run items)).2)),
                   (second_run items).2)) by evaluate.
  split; [evaluate|]. split; [evaluate|]. split; [|evaluate].
  apply (listing_uids_deterministic sample_forest
           (canned_world (service items) 500) (canned_world (service items) 1400)
           (fun _ _ _ => eq_refl) 5 7 alice alice false
           empty_state (first_run items).2
           _ _ _ _ _ _ Hrun1 Hrun2).
Defined.

(** The second run did not log in again: it found the session of the
    first in the cache. *)
Example second_run_uses_the_cache :
  map url (sent (second_run []).2) = [signin_url; signin_url; search_url; search_url].
Proof. evaluate. Qed.

End UidFacts.

(** ** The detail fetcher *)

Module DetailFacts.
Import Samples Reasoning.

Section Facts.
Context `{Collaborators}.
Variable w : World.

Lemma update_Units self stat r :
  update self stat = Ok r -> Units r = Units self.
Proof. unfold update. intros Hup. crack Hup. injection Hup as <-. reflexivity. Qed.

(** What "overwrite" means for a statistic in the same unit: a facet that
    the summary has set replaces the lap's, and a facet it has not set
    leaves the lap's. *)
Lemma update_overwrites self stat r :
  Units stat = Units self ->
  update self stat = Ok r ->
  Value r = overwrite (Value self) (Value stat) /\
  Average r = overwrite (Average self) (Average stat) /\
  Min r = overwrite (Min self) (Min stat) /\
  Max r = overwrite (Max self) (Max stat) /\
  Gain r = overwrite (Gain self) (Gain stat) /\
  Loss r = overwrite (Loss self) (Loss stat).
Proof.
  intros Hunits. unfold update, asUnits.
  rewrite bool_decide_true by congruence. cbn.
  intros [= <-]. cbn. auto 10.
Qed.

Lemma reconcile_one_lap parsed activity' :
  reconcile parsed = Ok activity' ->
  match Laps parsed with
  | [lap] =>
      exists stats,
        update_stats (LapStats lap) (Stats parsed) = Ok stats /\
        activity' =
        set_Stats stats
          (set_Laps [{| LapStats := stats; LapRest := LapRest lap |}] parsed)
  | _ => activity' = parsed
  end.
Proof.
  unfold reconcile. destruct (Laps parsed) as [|lap [|lap2 laps]]; intros Hrec.
  - congruence.
  - crack Hrec. injection Hrec as <-. eauto.
  - congruence.
Qed.

(** C7: after [DownloadActivity] has returned, an activity with exactly
    one lap has that lap's statistics as its own; they are the lap's
    statistics as parsed, overwritten with the summary statistics of the
    activity ([lap.Stats.update(activity.Stats)]); an activity parsed
    with no lap or with several is returned as parsed. *)
Theorem detail_reconciles serviceRecord activity st activity' st' :
  DownloadActivity w serviceRecord activity st = (Ok activity', st') ->
  (forall lap', Laps activity' = [lap'] -> Stats activity' = LapStats lap') /\
  exists res parsed,
    TCXIO_Parse (content res) activity = Ok parsed /\
    match Laps parsed with
    | [lap] =>
        exists stats,
          update_stats (LapStats lap) (Stats parsed) = Ok stats /\
          activity' =
          set_Stats stats
            (set_Laps [{| LapStats := stats; LapRest := LapRest lap |}] parsed)
    | _ => activity' = parsed
    end.
Proof.
  unfold DownloadActivity, mbind, Adapter_bind, lift, send. intros Hrun.
  destruct (assoc "ActivityID" (ServiceData activity)) as [activityID|]; [|discriminate].
  destruct (_get_cookies w _ _ _ st) as [[cookies|e] st1]; [|discriminate].
  destruct (requests w _) as [res|e]; [|discriminate].
  destruct (parse_detail (content res) activity) as [parsed|e] eqn:Hparse; [|discriminate].
  destruct (reconcile parsed) as [result|e] eqn:Hrec; [|discriminate].
  injection Hrun as -> <-.
  assert (Hcodec : TCXIO_Parse (content res) activity = Ok parsed).
  { unfold parse_detail in Hparse.
    destruct (TCXIO_Parse (content res) activity) as [p|[]]; cbn in Hparse; congruence. }
  pose proof (reconcile_one_lap _ _ Hrec) as Hone.
  split; [|exists res, parsed; auto].
  intros lap' Hlaps.
  destruct (Laps parsed) as [|lap [|lap2 laps]] eqn:Hparsed.
  - subst. congruence.
  - destruct Hone as (stats & _ & ->). cbn in Hlaps. injection Hlaps as <-. reflexivity.
  - subst. congruence.
Qed.

End Facts.

Lemma detail_reconciles_witness :
  (DownloadActivity (canned_world (service []) 500) alice listed_run empty_state).1 =
  Ok (returned listed_run
        (DownloadActivity (canned_world (service []) 500) alice listed_run
           empty_state).1) /\
  map LapRest
    (Laps (returned listed_run
             (DownloadActivity (canned_world (service []) 500) alice listed_run
                empty_state).1)) = ["lap"] /\
  map LapStats
    (Laps (returned listed_run
             (DownloadActivity (canned_world (service []) 500) alice listed_run
                empty_state).1)) =
  [Stats (returned listed_run
            (DownloadActivity (canned_world (service []) 500) alice listed_run
               empty_state).1)].
Proof.
  pose (run := DownloadActivity (canned_world (service []) 500) alice listed_run
                 empty_state).
  fold run.
  pose (fetched := returned listed_run run.1). fold fetched.
  pose (lap := {| LapStats := returned sample_statistics
                                (update_stats sample_statistics (Stats listed_run));
                  LapRest := "lap" |}).
  assert (Hrun : run = (Ok fetched, run.2)) by evaluate.
  assert (Hlaps : Laps fetched = [lap]) by evaluate.
  clearbody fetched.
  destruct (detail_reconciles _ _ _ _ _ _ Hrun) as [Hsame _].
  split; [rewrite Hrun; reflexivity|].
  rewrite Hlaps. cbn [map]. split; [reflexivity|].
  rewrite (Hsame lap Hlaps). reflexivity.
Defined.

(** The maximum speed of the listing is in the lap after the fetch. *)
Example detail_keeps_listed_speed :
  map (fun lap => Max (Speed (LapStats lap)))
    (Laps (returned listed_run
             (DownloadActivity (canned_world (service []) 500) alice listed_run
                empty_state).1)) = [Some (60 / 10.9)%float].
Proof. evaluate. Qed.

End DetailFacts.

(** ** The upload pipeline *)

Module UploadFacts.
Import Samples Reasoning.

Section Facts.
Context `{Collaborators}.
Variable w : World.

Lemma sends_only_ret {A} P (a : A) : sends_only P (mret a).
Proof. intros st. exists []. cbn. rewrite app_nil_r. auto. Qed.

Lemma sends_only_throw {A} P e : sends_only P (@throw A e).
Proof. intros st. exists []. cbn. rewrite app_nil_r. auto. Qed.

Lemma sends_only_lift {A} P (r : result A) : sends_only P (lift r).
Proof. intros st. exists []. cbn. rewrite app_nil_r. auto. Qed.

Lemma sends_only_send (P : Request -> Prop) req : P req -> sends_only P (send w req).
Proof. intros HP st. exists [req]. cbn. auto. Qed.

Lemma sends_only_bind {A B} P (m : Adapter A) (k : A -> Adapter B) :
  sends_only P m -> (forall a, sends_only P (k a)) -> sends_only P (m ≫= k).
Proof.
  intros Hm Hk st. unfold mbind, Adapter_bind.
  destruct (Hm st) as (reqs & Hsent & HP & Hcache).
  destruct (m st) as [[a|e] st1]; cbn in *.
  - destruct (Hk a st1) as (reqs' & Hsent' & HP' & Hcache').
    exists (reqs ++ reqs')%list. rewrite Hsent', Hsent, Hcache', Hcache, app_assoc.
    split; [reflexivity|]. split; [apply Forall_app; auto|reflexivity].
  - exists reqs. auto.
Qed.

Lemma set_text_sends P url value cookies warning :
  P (post_value url (default "" value) cookies) ->
  sends_only P (set_text w url value cookies warning).
Proof.
  intros HP. unfold set_text. destruct (str_truthy value); [|apply sends_only_ret].
  apply sends_only_bind; [apply sends_only_send; exact HP|]. intros res.
  apply sends_only_bind; [apply sends_only_lift|]. intros body.
  apply sends_only_bind; [apply sends_only_lift|]. intros [|].
  - apply sends_only_throw.
  - apply sends_only_ret.
Qed.

Lemma set_type_sends (P : Request -> Prop) actid type cookies :
  (forall acttype, P (post_value (type_url actid) acttype cookies)) ->
  sends_only P (set_type w actid type cookies).
Proof.
  intros HP. unfold set_type. case_bool_decide; [apply sends_only_ret|].
  destruct type as [t|]; [|apply sends_only_throw].
  destruct (reverse_keys t) as [|acttype keys]; [apply sends_only_throw|].
  apply sends_only_bind; [apply sends_only_send, HP|]. intros res.
  apply sends_only_bind; [apply sends_only_lift|]. intros body.
  apply sends_only_bind; [apply sends_only_lift|]. intros [|].
  - apply sends_only_throw.
  - apply sends_only_ret.
Qed.

(** Every call that follows the upload is a call on the one remote id,
    with the cookies of the session. *)
Lemma follow_up_targets actid activity cookies0 :
  sends_only
    (fun req => url req ∈ [name_url actid; description_url actid; type_url actid] /\
                cookies req = Some cookies0)
    (follow_up w actid activity cookies0).
Proof.
  unfold follow_up.
  apply sends_only_bind; [apply set_text_sends; cbn; set_solver|]. intros _.
  apply sends_only_bind; [apply set_text_sends; cbn; set_solver|]. intros _.
  apply set_type_sends. intros acttype. cbn. set_solver.
Qed.

Lemma imported_id_successes res body imported oid successes :
  resp_json res = Ok body ->
  getitem body "detailedImportResult" = Ok imported ->
  getitem imported "successes" = Ok (JList oid successes) ->
  imported_id res =
  match successes with
  | [] => Raise (APIException "Unable to upload activity" false false)
  | [success] => getitem success "internalId"
  | _ => Raise (APIException "Uploaded succeeded, resulting in too many activities"
                  false false)
  end.
Proof.
  intros Hbody Himported Hsuccesses. unfold imported_id.
  rewrite Hbody. cbn. rewrite Himported. cbn. rewrite Hsuccesses. cbn.
  destruct successes as [|success [|success2 successes]]; reflexivity.
Qed.

(** The follow-up calls, request by request: each is a POST to one of the
    three addresses that end in the remote id, carries one value and the
    cookies of the session. *)
Lemma follow_up_posts actid activity cookies0 :
  sends_only
    (fun req =>
       method req = POST /\
       url req ∈
         ["http://connect.garmin.com/proxy/activity-service-1.2/json/name/"
            +:+ py_str actid;
          "http://connect.garmin.com/proxy/activity-service-1.2/json/description/"
            +:+ py_str actid;
          "http://connect.garmin.com/proxy/activity-service-1.2/json/type/"
            +:+ py_str actid] /\
       (exists value, data req = [("value", AStr value)]) /\
       cookies req = Some cookies0)
    (follow_up w actid activity cookies0).
Proof.
  unfold follow_up.
  apply sends_only_bind.
  { apply set_text_sends. cbn. repeat split; eauto. apply list_elem_of_here. }
  intros _. apply sends_only_bind.
  { apply set_text_sends. cbn. repeat split; eauto.
    apply list_elem_of_further, list_elem_of_here. }
  intros _. apply set_type_sends. intros acttype. cbn. repeat split; eauto.
  apply list_elem_of_further, list_elem_of_further, list_elem_of_here.
Qed.

(** What a step of the follow-up sends does not depend on how it ends. *)
Lemma set_text_sent target value cookies0 warning st :
  sent (set_text w target value cookies0 warning st).2 =
  (sent st ++ match value with
              | Some (String c text) => [post_value target (String c text) cookies0]
              | _ => []
              end)%list.
Proof.
  unfold set_text. destruct value as [[|c text]|]; cbn [str_truthy];
    try (cbn; rewrite app_nil_r; reflexivity).
  cbn [default from_option id].
  unfold mbind, Adapter_bind, send, lift, throw, mret, Adapter_ret.
  destruct (requests w _) as [res|e]; [|reflexivity].
  destruct (resp_json res) as [body|e]; [|reflexivity].
  destruct (echo_differs body "display" "value" _) as [[|]|e]; reflexivity.
Qed.

Lemma native_type t :
  bool_decide (Some t ∈ [Some Running; Some Cycling; Some Other]) =
  bool_decide (t ∈ [Running; Cycling; Other]).
Proof. destruct t; reflexivity. Qed.

Lemma set_type_sent actid type cookies0 st :
  sent (set_type w actid type cookies0 st).2 =
  (sent st ++ match type with
              | Some t =>
                  if bool_decide (t ∈ [Running; Cycling; Other]) then []
                  else
                    match reverse_keys t with
                    | acttype :: _ => [post_value (type_url actid) acttype cookies0]
                    | [] => []
                    end
              | None => []
              end)%list.
Proof.
  unfold set_type. destruct type as [t|].
  - rewrite native_type. destruct (bool_decide (t ∈ [Running; Cycling; Other]));
      [cbn; rewrite app_nil_r; reflexivity|].
    destruct (reverse_keys t) as [|acttype keys]; [cbn; rewrite app_nil_r; reflexivity|].
    unfold mbind, Adapter_bind, send, lift, throw, mret, Adapter_ret.
    destruct (requests w _) as [res|e]; [|reflexivity].
    destruct (resp_json res) as [body|e]; [|reflexivity].
    destruct (echo_differs body "activityType" "key" _) as [[|]|e]; reflexivity.
  - assert (Hnone : bool_decide (@None ActivityType
                                   ∈ [Some Running; Some Cycling; Some Other]) = false)
      by reflexivity.
    rewrite Hnone. cbn. rewrite app_nil_r. reflexivity.
Qed.

(** The requests of the follow-up calls are the first of the requests
    written out in [follow_up_requests], in their order, and all of them
    when the calls return. *)
Lemma follow_up_sent actid activity cookies0 st :
  exists reqs,
    sent (follow_up w actid activity cookies0 st).2 = (sent st ++ reqs)%list /\
    reqs `prefix_of` follow_up_requests actid activity cookies0 /\
    ((follow_up w actid activity cookies0 st).1 = Ok tt ->
     reqs = follow_up_requests actid activity cookies0).
Proof.
  assert (Hrun : follow_up w actid activity cookies0 st =
                 match set_text w (name_url actid) (Name activity) cookies0
                         "Unable to set activity name" st with
                 | (Ok _, st1) =>
                     match set_text w (description_url actid) (Notes activity) cookies0
                             "Unable to set activity notes" st1 with
                     | (Ok _, st2) => set_type w actid (Type_ activity) cookies0 st2
                     | (Raise e, st2) => (Raise e, st2)
                     end
                 | (Raise e, st1) => (Raise e, st1)
                 end) by reflexivity.
  rewrite Hrun. clear Hrun.
  pose proof (set_text_sent (name_url actid) (Name activity) cookies0
                "Unable to set activity name" st) as Hname.
  destruct (set_text w (name_url actid) _ _ _ st) as [[[]|e] st1]; cbn in Hname.
  - pose proof (set_text_sent (description_url actid) (Notes activity) cookies0
                  "Unable to set activity notes" st1) as Hnotes.
    destruct (set_text w (description_url actid) _ _ _ st1) as [[[]|e] st2];
      cbn in Hnotes.
    + pose proof (set_type_sent actid (Type_ activity) cookies0 st2) as Htype.
      eexists. rewrite Htype, Hnotes, Hname, <- !app_assoc.
      split; [reflexivity|]. split; reflexivity.
    + eexists. cbn. rewrite Hnotes, Hname, <- app_assoc.
      split; [reflexivity|]. split; [|discriminate].
      unfold follow_up_requests. rewrite app_assoc. eexists. reflexivity.
  - eexists. cbn. rewrite Hname.
    split; [reflexivity|]. split; [|discriminate].
    unfold follow_up_requests. eexists. reflexivity.
Qed.

(** C6: given the answer to the upload request, [UploadActivity] raises
    [APIException] when the answer lists no success and when it lists more
    than one, having sent nothing after the upload; when it lists exactly
    one, the call goes on with the follow-up calls on the internal id of
    that success, and the id is what every later request is made on: each
    is a POST of one value, with the cookies of the session, to the
    address of the name, of the description or of the type that ends in
    the id, and together they are the first of the requests for the name,
    the notes and the type of the activity on that id, in this order. *)
Theorem upload_needs_one_success serviceRecord activity activity' fit_file uid
    cookies0 st st1 res body imported oid successes :
  EnsureTZ activity = Ok activity' ->
  FITIO_Dump activity' = Ok fit_file ->
  UID activity' = Some uid ->
  _get_cookies w (Some serviceRecord) None None st = (Ok cookies0, st1) ->
  requests w (upload_request (upload_file_name w uid) fit_file cookies0) = Ok res ->
  resp_json res = Ok body ->
  getitem body "detailedImportResult" = Ok imported ->
  getitem imported "successes" = Ok (JList oid successes) ->
  match successes with
  | [] =>
      UploadActivity w serviceRecord activity st =
      (Raise (APIException "Unable to upload activity" false false),
       after st1 (upload_request (upload_file_name w uid) fit_file cookies0))
  | [success] =>
      forall actid,
        getitem success "internalId" = Ok actid ->
        UploadActivity w serviceRecord activity st =
        follow_up w actid activity' cookies0
          (after st1 (upload_request (upload_file_name w uid) fit_file cookies0)) /\
        sends_only
          (fun req =>
             method req = POST /\
             url req ∈
               ["http://connect.garmin.com/proxy/activity-service-1.2/json/name/"
                  +:+ py_str actid;
                "http://connect.garmin.com/proxy/activity-service-1.2/json/description/"
                  +:+ py_str actid;
                "http://connect.garmin.com/proxy/activity-service-1.2/json/type/"
                  +:+ py_str actid] /\
             (exists value, data req = [("value", AStr value)]) /\
             cookies req = Some cookies0)
          (follow_up w actid activity' cookies0) /\
        exists reqs,
          sent (UploadActivity w serviceRecord activity st).2 =
          (sent st1 ++ upload_request (upload_file_name w uid) fit_file cookies0
                    :: reqs)%list /\
          reqs `prefix_of` follow_up_requests actid activity' cookies0 /\
          ((UploadActivity w serviceRecord activity st).1 = Ok tt ->
           reqs = follow_up_requests actid activity' cookies0)
  | _ =>
      UploadActivity w serviceRecord activity st =
      (Raise (APIException "Uploaded succeeded, resulting in too many activities"
                false false),
       after st1 (upload_request (upload_file_name w uid) fit_file cookies0))
  end.
Proof.
  intros Htz Hdump Huid Hcookies Hreq Hbody Himported Hsuccesses.
  pose proof (imported_id_successes _ _ _ _ _ Hbody Himported Hsuccesses) as Hid.
  assert (Hrun : UploadActivity w serviceRecord activity st =
                 match imported_id res with
                 | Ok actid =>
                     follow_up w actid activity' cookies0
                       (after st1 (upload_request (upload_file_name w uid) fit_file
                                     cookies0))
                 | Raise e =>
                     (Raise e,
                      after st1 (upload_request (upload_file_name w uid) fit_file
                                   cookies0))
                 end).
  { unfold UploadActivity, mbind, Adapter_bind, lift, send.
    rewrite Htz, Hdump, Huid, Hcookies, Hreq.
    destruct (imported_id res); reflexivity. }
  rewrite Hrun, Hid.
  destruct successes as [|success [|success2 successes']]; [reflexivity| |reflexivity].
  intros actid Hactid. rewrite Hactid.
  split; [reflexivity|]. split; [apply follow_up_posts|].
  destruct (follow_up_sent actid activity' cookies0
              (after st1 (upload_request (upload_file_name w uid) fit_file cookies0)))
    as (reqs & Hsent & Hprefix & Hall).
  exists reqs. rewrite Hsent. cbn [after sent]. rewrite <- app_assoc.
  split; [reflexivity|]. split; [exact Hprefix|exact Hall].
Qed.

(** C3 (amended): past the upload, a mismatch of the echoed name raises
    [APIWarning], a warning and not the fatal [APIException], and the
    warning ends the call: the request for the name is the last request
    sent, and neither the notes nor the type are set.  Likewise, once the
    name step has passed, a mismatch of the echoed notes raises its
    [APIWarning] and the type is not set. *)
Theorem warning_ends_upload actid activity cookies0 st :
  (forall name res body,
      Name activity = Some name ->
      str_truthy (Some name) = true ->
      requests w (post_value (name_url actid) name cookies0) = Ok res ->
      resp_json res = Ok body ->
      echo_differs body "display" "value" name = Ok true ->
      follow_up w actid activity cookies0 st =
      (Raise (APIWarning "Unable to set activity name"),
       after st (post_value (name_url actid) name cookies0))) /\
  (forall st1 notes res body,
      set_text w (name_url actid) (Name activity) cookies0
        "Unable to set activity name" st = (Ok tt, st1) ->
      Notes activity = Some notes ->
      str_truthy (Some notes) = true ->
      requests w (post_value (description_url actid) notes cookies0) = Ok res ->
      resp_json res = Ok body ->
      echo_differs body "display" "value" notes = Ok true ->
      follow_up w actid activity cookies0 st =
      (Raise (APIWarning "Unable to set activity notes"),
       after st1 (post_value (description_url actid) notes cookies0))).
Proof.
  split.
  - intros name res body Hname Htrue Hreq Hbody Hecho.
    unfold follow_up, mbind at 1. unfold Adapter_bind, set_text.
    rewrite Hname, Htrue. unfold mbind, Adapter_bind, send, lift, throw. cbn.
    rewrite Hreq, Hbody, Hecho. reflexivity.
  - intros st1 notes res body Hstep Hnotes Htrue Hreq Hbody Hecho.
    unfold follow_up, mbind at 1. unfold Adapter_bind. rewrite Hstep.
    unfold mbind at 1. unfold Adapter_bind, set_text.
    rewrite Hnotes, Htrue. unfold mbind, Adapter_bind, send, lift, throw. cbn.
    rewrite Hreq, Hbody, Hecho. reflexivity.
Qed.

End Facts.

(** C3, as the specification states it, fails on the code: the upload of
    this swim succeeds with one new remote id (42), the service echoes
    another name, and [UploadActivity] raises the warning after the
    request for the name: no request sets the notes ("Felt good") or
    corrects the type (swimming), though the activity has both. *)
Lemma name_mismatch_skips_notes_and_type :
  (UploadActivity (canned_world (misnaming []) 500) alice swim empty_state).1 =
  Raise (APIWarning "Unable to set activity name") /\
  map url (sent (UploadActivity (canned_world (misnaming []) 500) alice swim
                   empty_state).2) =
  [signin_url; signin_url; upload_url; name_url (JInt 0 42)] /\
  str_truthy (Notes swim) = true /\
  bool_decide (Type_ swim ∈ [Some Running; Some Cycling; Some Other]) = false.
Proof. repeat split; evaluate. Qed.

Lemma warning_ends_upload_witness :
  follow_up (canned_world (misnaming []) 500) (JInt 0 42) swim [("JSESSIONID", "0123")]
    empty_state =
  (Raise (APIWarning "Unable to set activity name"),
   after empty_state
     (post_value (name_url (JInt 0 42)) "Morning run" [("JSESSIONID", "0123")])).
Proof.
  destruct (warning_ends_upload (canned_world (misnaming []) 500) (JInt 0 42) swim
              [("JSESSIONID", "0123")] empty_state) as [Hname _].
  apply (Hname "Morning run"
           (answer (obj 34 [("display", obj 35 [("value", str "Untitled")])]))
           (obj 34 [("display", obj 35 [("value", str "Untitled")])]));
    evaluate.
Defined.

Lemma upload_needs_one_success_witness :
  UploadActivity (canned_world (service []) 500) alice swim empty_state =
  follow_up (canned_world (service []) 500) (JInt 0 42) swim [("JSESSIONID", "0123")]
    (after (_get_cookies (canned_world (service []) 500) (Some alice) None None
              empty_state).2
       (upload_request (upload_file_name (canned_world (service []) 500) "0f3a") "FIT"
          [("JSESSIONID", "0123")])) /\
  map url (sent (UploadActivity (canned_world (service []) 500) alice swim
                   empty_state).2) =
  ["https://connect.garmin.com/signin"; "https://connect.garmin.com/signin";
   "http://connect.garmin.com/proxy/upload-service-1.1/json/upload/.tcx";
   "http://connect.garmin.com/proxy/activity-service-1.2/json/name/42";
   "http://connect.garmin.com/proxy/activity-service-1.2/json/description/42";
   "http://connect.garmin.com/proxy/activity-service-1.2/json/type/42"] /\
  (UploadActivity (canned_world (service []) 500) alice swim empty_state).1 = Ok tt.
Proof.
  split; [|split; evaluate].
  apply (upload_needs_one_success (canned_world (service []) 500) alice swim swim
           "FIT" "0f3a" [("JSESSIONID", "0123")] empty_state
           (_get_cookies (canned_world (service []) 500) (Some alice) None None
              empty_state).2
           (answer (upload (service [])))
           (upload (service []))
           (obj 31 [("successes", JList 32 [obj 33 [("internalId", JInt 0 42)]])])
           32 [obj 33 [("internalId", JInt 0 42)]]);
    evaluate.
Defined.

(** Two successes, or none, and nothing is sent after the upload. *)
Example no_success_is_fatal :
  imported_id (answer (obj 30 [("detailedImportResult",
                                obj 31 [("successes", JList 32 [])])])) =
  Raise (APIException "Unable to upload activity" false false).
Proof. reflexivity. Qed.

Example two_successes_are_fatal :
  imported_id (answer (obj 30 [("detailedImportResult",
                                obj 31 [("successes",
                                         JList 32 [obj 33 [("internalId", JInt 0 42)];
                                                   obj 34 [("internalId", JInt 0 43)]])])])) =
  Raise (APIException "Uploaded succeeded, resulting in too many activities" false false).
Proof. reflexivity. Qed.

End UploadFacts.

(** ** More on sessions and authorization *)

Module SessionExtras.
Import Samples MoreSamples Reasoning SessionFacts UploadFacts.

Section Facts.
Context `{Collaborators}.
Variable w : World.

(** What a login that returns has done: both requests were answered, the
    second with the redirect; the cookies are those of the first answer;
    and the entry of the record, if there is a record, has been set. *)
Lemma signin_returns record email password st cookies0 st' :
  signin w record email password st = (Ok cookies0, st') ->
  exists preResp resp,
    requests w signin_get = Ok preResp /\
    requests w (signin_post email password (resp_cookies preResp)) = Ok resp /\
    status_code resp = 302 /\
    cookies0 = resp_cookies preResp /\
    sent st' = (sent st ++ [signin_get;
                            signin_post email password (resp_cookies preResp)])%list /\
    _sessionCache st' =
    match record with
    | Some r => SessionCache.Set_ (utcnow w) (ExternalID r) cookies0 (_sessionCache st)
    | None => _sessionCache st
    end.
Proof.
  unfold signin, mbind, Adapter_bind, send, throw. cbn.
  fold signin_get.
  destruct (requests w signin_get) as [preResp|e1] eqn:Hget; [|discriminate].
  fold (signin_post email password (resp_cookies preResp)).
  destruct (requests w (signin_post _ _ _)) as [resp|e2] eqn:Hpost; [|discriminate].
  destruct (_ && _); [discriminate|].
  destruct (status_code resp =? 302) eqn:Hs; cbn; [|discriminate].
  intros Hok. exists preResp, resp. apply Z.eqb_eq in Hs.
  destruct record as [r|]; unfold cache_Set, mret, Adapter_ret in Hok; cbn in Hok;
    injection Hok as <- <-; cbn; rewrite <- app_assoc; cbn;
    repeat split; auto.
Qed.

(** X1: a cache hit.  When the cache holds an unexpired, non-empty cookie
    set for the record, [_get_cookies] returns it without sending a
    request and without reading the credentials, and the read has moved
    the expiry of the entry to one lifetime from now. *)
Theorem cache_hit_sends_nothing serviceRecord email password st entry :
  _sessionCache st !! ExternalID serviceRecord = Some entry ->
  utcnow w <= expires entry ->
  cached_value entry <> [] ->
  _get_cookies w (Some serviceRecord) email password st =
  (Ok (cached_value entry),
   {| _sessionCache :=
        <[ExternalID serviceRecord :=
            {| cached_value := cached_value entry;
               expires := utcnow w + SessionCache.lifetime |}]> (_sessionCache st);
      sent := sent st |}).
Proof.
  intros Hentry Hfresh Hjar.
  unfold _get_cookies, mbind, Adapter_bind, cache_Get, SessionCache.Get.
  rewrite Hentry. apply Z.leb_le in Hfresh. rewrite Hfresh.
  destruct (cached_value entry) as [|c jar]; [congruence|]. reflexivity.
Qed.

(** What the cache holds for the record once [_get_cookies] has returned:
    the cookies it returned, good for one lifetime from now. *)
Lemma get_cookies_entry serviceRecord email password st cookies0 st1 :
  _get_cookies w (Some serviceRecord) email password st = (Ok cookies0, st1) ->
  _sessionCache st1 !! ExternalID serviceRecord =
  Some {| cached_value := cookies0; expires := utcnow w + SessionCache.lifetime |}.
Proof.
  unfold _get_cookies. unfold mbind at 1. unfold Adapter_bind, cache_Get.
  unfold SessionCache.Get.
  destruct (_sessionCache st !! ExternalID serviceRecord) as [entry|] eqn:Hentry.
  - destruct (utcnow w <=? expires entry) eqn:Hfresh.
    + destruct (cached_value entry) as [|c jar] eqn:Hjar; cbn.
      * unfold lift. destruct (credential _ "Password" ≫= Decrypt); [|discriminate].
        destruct (credential _ "Email" ≫= Decrypt); [|discriminate].
        intros Hs. apply signin_returns in Hs.
        destruct Hs as (pre & resp & _ & _ & _ & _ & _ & ->).
        apply lookup_insert_eq.
      * intros [= <- <-]. cbn. apply lookup_insert_eq.
    + cbn. unfold lift. destruct (credential _ "Password" ≫= Decrypt); [|discriminate].
      destruct (credential _ "Email" ≫= Decrypt); [|discriminate].
      intros Hs. apply signin_returns in Hs.
      destruct Hs as (pre & resp & _ & _ & _ & _ & _ & ->).
      apply lookup_insert_eq.
  - cbn. unfold lift. destruct (credential _ "Password" ≫= Decrypt); [|discriminate].
    destruct (credential _ "Email" ≫= Decrypt); [|discriminate].
    intros Hs. apply signin_returns in Hs.
    destruct Hs as (pre & resp & _ & _ & _ & _ & _ & ->).
    apply lookup_insert_eq.
Qed.

(** X2: the session is reused.  Once [_get_cookies] has returned a cookie
    set that is not empty, calling it again at the same time returns the
    same cookies and changes nothing: no request is sent, and the cache is
    as the first call left it. *)
Theorem session_is_reused serviceRecord email password st cookies0 st1 :
  _get_cookies w (Some serviceRecord) email password st = (Ok cookies0, st1) ->
  cookies0 <> [] ->
  _get_cookies w (Some serviceRecord) email password st1 = (Ok cookies0, st1).
Proof.
  intros Hfirst Hjar.
  pose proof (get_cookies_entry _ _ _ _ _ _ Hfirst) as Hentry.
  unfold _get_cookies, mbind, Adapter_bind, cache_Get, SessionCache.Get.
  rewrite Hentry. cbn [expires cached_value].
  assert (Hfresh : (utcnow w <=? utcnow w + SessionCache.lifetime) = true)
    by (apply Z.leb_le; unfold SessionCache.lifetime; lia).
  rewrite Hfresh. destruct cookies0 as [|c jar]; [congruence|]. cbn.
  f_equal. destruct st1 as [cache log]. cbn in *. f_equal.
  apply insert_id. exact Hentry.
Qed.



Variable Encrypt : string -> result string.

Lemma signin_sends P email password :
  P signin_get ->
  (forall jar, P (signin_post email password jar)) ->
  sends_only P (signin w None email password).
Proof.
  intros Hget Hpost. unfold signin.
  apply sends_only_bind; [apply sends_only_send; exact Hget|]. intros preResp.
  apply sends_only_bind; [apply sends_only_send, Hpost|]. intros resp.
  destruct (_ && _); [apply sends_only_throw|].
  destruct (negb _); [apply sends_only_throw|].
  apply sends_only_bind; [apply sends_only_ret|]. intros _. apply sends_only_ret.
Qed.

(** X3: [Authorize] keeps to itself.  Whatever the outcome, it leaves the
    session cache as it was, and every request it sends goes to the
    sign-in page or to the user-name page; the only request that carries
    data is the sign-in POST. *)
Theorem authorize_keeps_to_itself email password :
  sends_only
    (fun req => (url req = signin_url \/ url req = username_url) /\
                (data req <> [] -> url req = signin_url /\ method req = POST))
    (Authorize w Encrypt email password).
Proof.
  unfold Authorize.
  apply sends_only_bind.
  { apply signin_sends; [|intros jar]; cbn; split; auto; congruence. }
  intros cookies0.
  apply sends_only_bind.
  { apply sends_only_send. cbn. split; auto. congruence. }
  intros res.
  apply sends_only_bind; [apply sends_only_lift|]. intros username.
  apply sends_only_bind; [apply sends_only_lift|]. intros n.
  destruct (Nat.eqb n 0); [apply sends_only_throw|].
  apply sends_only_bind; [apply sends_only_lift|]. intros e'.
  apply sends_only_bind; [apply sends_only_lift|]. intros p'.
  apply sends_only_ret.
Qed.


End Facts.

Lemma cache_hit_sends_nothing_witness :
  _get_cookies (canned_world (refusing []) 1400)
    (Some {| ExternalID := "alice"; ExtendedAuthorization := [] |}) None None
    (first_run []).2 =
  (Ok [("JSESSIONID", "0123")],
   {| _sessionCache :=
        <["alice" := {| cached_value := [("JSESSIONID", "0123")];
                        expires := 1400 + SessionCache.lifetime |}]>
          (_sessionCache (first_run []).2);
      sent := sent (first_run []).2 |}).
Proof.
  apply (cache_hit_sends_nothing (canned_world (refusing []) 1400)
           {| ExternalID := "alice"; ExtendedAuthorization := [] |} None None
           (first_run []).2
           {| cached_value := [("JSESSIONID", "0123")]; expires := 2300 |});
    [evaluate|cbn; lia|discriminate].
Defined.

Lemma session_is_reused_witness :
  _get_cookies (canned_world (service []) 500) (Some alice) None None
    (_get_cookies (canned_world (service []) 500) (Some alice) None None empty_state).2 =
  (Ok [("JSESSIONID", "0123")],
   (_get_cookies (canned_world (service []) 500) (Some alice) None None empty_state).2).
Proof.
  apply (session_is_reused (canned_world (service []) 500) alice None None empty_state);
    [evaluate|discriminate].
Defined.


(** A service that names no user: the login went through, and
    [Authorize] raises. *)
Example authorize_without_username :
  (Authorize (with_username (str "") (canned_world (service []) 500))
     sample_encrypt "alice@example.com" "secret" empty_state).1 =
  Raise (APIException "Unable to retrieve username" true true).
Proof. evaluate. Qed.

End SessionExtras.

(** ** More on the listing *)

Module ListingExtras.
Import Samples MoreSamples Reasoning SessionExtras.

Lemma assoc_values {V} (k : string) (d : list (string * V)) (v : V) :
  assoc k d = Some v -> v ∈ map snd d.
Proof.
  induction d as [|[k' v'] d IH]; cbn; [discriminate|].
  destruct (String.eqb k' k).
  - intros [= ->]. apply list_elem_of_here.
  - intros Hrest. apply list_elem_of_further, IH, Hrest.
Qed.

Lemma resolve_loop_mapped hierarchy fuel :
  forall act_type t,
    resolve_loop hierarchy fuel act_type = Some (Ok t) ->
    exists mapped_key, assoc mapped_key _activityMappings = Some t.
Proof.
  induction fuel as [|fuel IH]; intros k t; cbn; [discriminate|].
  unfold step.
  destruct (assoc k _activityMappings) as [t'|] eqn:Hmap.
  - intros [= <-]. exists k. exact Hmap.
  - destruct (parents hierarchy k) as [[|p ps]|e]; try discriminate. apply IH.
Qed.

(** A type that the resolution returns is the direct mapping of a key:
    of the key it was asked for or of one of its ancestors. *)
Lemma resolve_mapped hierarchy fuel act_type t :
  _resolveActivityType hierarchy fuel act_type = Some (Ok t) ->
  exists mapped_key, assoc mapped_key _activityMappings = Some t.
Proof.
  destruct act_type; cbn; try discriminate. apply resolve_loop_mapped.
Qed.

(** X5: type resolution returns supported types only.  Whatever the
    hierarchy holds, a type that [_resolveActivityType] returns is one of
    [SupportedActivities], the values of the direct mapping. *)
Theorem resolve_supported hierarchy fuel act_type t :
  _resolveActivityType hierarchy fuel act_type = Some (Ok t) ->
  t ∈ SupportedActivities.
Proof.
  intros Hres. destruct (resolve_mapped _ _ _ _ Hres) as (mapped_key & Hmap).
  exact (assoc_values mapped_key _activityMappings t Hmap).
Qed.

Section Facts.
Context `{Collaborators}.
Variable hierarchy : list HierarchyEntry.

Lemma listed_exclusion fuel item exclusion :
  listed hierarchy fuel item = Some (Ok (inr exclusion)) ->
  exists activityId, exclusion = APIExcludeActivity "No distance" (Some activityId).
Proof.
  unfold listed.
  destruct (getitem item "activity") as [act|e]; cbn; [|discriminate].
  destruct (py_in "sumDistance" act) as [[|]|e]; cbn; [| |discriminate].
  - destruct (corrected act) as [activity|e]; cbn; [|discriminate].
    destruct (getitem act "activityType") as [activityType|e]; cbn; [|discriminate].
    destruct (getitem activityType "key") as [type_key|e]; cbn; [|discriminate].
    destruct (_resolveActivityType hierarchy fuel type_key) as [[type|e]|];
      try discriminate.
    destruct (finalize act type activity); discriminate.
  - destruct (getitem act "activityId") as [activityId|e]; cbn; [|discriminate].
    intros [= <-]. eauto.
Qed.

(** X6: a listed activity is finalized.  An activity that the body of the
    loop appends comes from a record with a distance; its type is a
    supported type, its UID is set, and its service data is the
    [activityId] of the record and nothing else. *)
Theorem listed_activity_is_finalized fuel item activity :
  listed hierarchy fuel item = Some (Ok (inl activity)) ->
  exists act activityId type,
    getitem item "activity" = Ok act /\
    py_in "sumDistance" act = Ok true /\
    getitem act "activityId" = Ok activityId /\
    ServiceData activity = [("ActivityID", activityId)] /\
    Type_ activity = Some type /\
    type ∈ SupportedActivities /\
    is_Some (UID activity).
Proof.
  unfold listed.
  destruct (getitem item "activity") as [act|e] eqn:Hact; cbn; [|discriminate].
  destruct (py_in "sumDistance" act) as [[|]|e] eqn:Hdist; cbn; [| |discriminate].
  - destruct (corrected act) as [activity0|e]; cbn; [|discriminate].
    destruct (getitem act "activityType") as [activityType|e]; cbn; [|discriminate].
    destruct (getitem activityType "key") as [type_key|e]; cbn; [|discriminate].
    destruct (_resolveActivityType hierarchy fuel type_key) as [[type|e]|] eqn:Hres;
      try discriminate.
    unfold finalize.
    destruct (getitem act "activityId") as [activityId|e] eqn:Hid; cbn; [|discriminate].
    intros [= <-]. exists act, activityId, type.
    destruct (resolve_mapped _ _ _ _ Hres) as (mapped_key & Hmap).
    pose proof (assoc_values mapped_key _activityMappings type Hmap) as Hsupported.
    repeat split; try exact Hsupported; cbn; eauto.
  - destruct (getitem act "activityId") as [activityId|e]; cbn; discriminate.
Qed.

(** X7: every record is accounted for.  When the loop over a page returns,
    it has appended to the activities and to the exclusions it was given,
    and changed neither; the records of the page have each become one
    activity or one exclusion, and every exclusion it added is a "No
    distance" exclusion. *)
Theorem every_record_is_accounted_for fuel items :
  forall activities exclusions activities' exclusions',
    for_activities hierarchy fuel items activities exclusions =
      Some (Ok (activities', exclusions')) ->
    exists added excluded,
      activities' = (activities ++ added)%list /\
      exclusions' = (exclusions ++ excluded)%list /\
      (length added + length excluded = length items)%nat /\
      Forall (fun exclusion =>
                exists activityId,
                  exclusion = APIExcludeActivity "No distance" (Some activityId))
             excluded.
Proof.
  induction items as [|item items IH]; intros A E A' E'; cbn.
  - intros [= <- <-]. exists [], []. rewrite !app_nil_r. auto.
  - destruct (listed hierarchy fuel item) as [[[activity|exclusion]|e]|] eqn:Hitem;
      try discriminate; intros Hrest.
    + destruct (IH _ _ _ _ Hrest) as (added & excluded & -> & -> & Hlen & Hall).
      exists (activity :: added), excluded. rewrite <- app_assoc. cbn.
      repeat split; auto.
    + destruct (IH _ _ _ _ Hrest) as (added & excluded & -> & -> & Hlen & Hall).
      exists added, (exclusion :: excluded). rewrite <- app_assoc. cbn.
      repeat split; auto; [lia|].
      apply Forall_cons. split; [|exact Hall].
      eapply listed_exclusion, Hitem.
Qed.

Variable w : World.

(** X8: one page unless exhaustive.  Without [exhaustive] the loop over the
    pages sends the search request of its first page and nothing more,
    whatever the service answers and however many pages it reports; the
    number of pages it would be allowed to fetch makes no difference. *)
Theorem one_page_unless_exhaustive fuel0 n m cookies0 page activities exclusions st :
  pages hierarchy w fuel0 (S n) false cookies0 page activities exclusions st =
  pages hierarchy w fuel0 (S m) false cookies0 page activities exclusions st /\
  (pages hierarchy w fuel0 (S n) false cookies0 page activities exclusions st).2 =
  after st (search_request cookies0 page).
Proof.
  cbn [pages]. unfold mbind, Adapter_bind, send, lift, mret, Adapter_ret, throw.
  cbv beta iota.
  destruct (requests w (search_request cookies0 page)) as [res|e]; [|auto].
  destruct (result_bind _ _ _ (resp_json res)) as [results|e]; [|auto].
  destruct (py_in "activities" results) as [has|e]; [|auto].
  destruct (negb has); [auto|].
  destruct (result_bind _ _ py_iter _) as [items|e]; [|auto].
  destruct (for_activities hierarchy fuel0 items activities exclusions)
    as [[[a1 e1]|e]|]; auto.
  destruct (result_bind _ _ _ (getitem results "search")) as [total|e]; [|auto].
  unfold last_page. cbn. auto.
Qed.

(** X9: an empty account.  A page without an "activities" entry ends the
    listing at once, in either mode: what has been collected so far is
    returned, and nothing of the page is read beyond that. *)
Theorem empty_page_ends_listing fuel0 n exhaustive cookies0 page activities exclusions
    st res body results :
  requests w (search_request cookies0 page) = Ok res ->
  resp_json res = Ok body ->
  getitem body "results" = Ok results ->
  py_in "activities" results = Ok false ->
  pages hierarchy w fuel0 (S n) exhaustive cookies0 page activities exclusions st =
  (Ok (Some (activities, exclusions)), after st (search_request cookies0 page)).
Proof.
  intros Hreq Hbody Hresults Hin.
  cbn [pages]. unfold mbind, Adapter_bind, send, lift. rewrite Hreq, Hbody. cbn.
  rewrite Hresults, Hin. reflexivity.
Qed.

(** X10: the page count is required.  A page that has activities and no
    "search" entry raises [KeyError], also without [exhaustive], where
    the page count decides nothing: the log message of line 234 reads it. *)
Theorem page_count_is_required fuel0 n exhaustive cookies0 page activities exclusions
    st res body oid entries items activities' exclusions' :
  requests w (search_request cookies0 page) = Ok res ->
  resp_json res = Ok body ->
  getitem body "results" = Ok (JDict oid entries) ->
  getitem (JDict oid entries) "activities" ≫= py_iter = Ok items ->
  for_activities hierarchy fuel0 items activities exclusions =
    Some (Ok (activities', exclusions')) ->
  assoc "search" entries = None ->
  pages hierarchy w fuel0 (S n) exhaustive cookies0 page activities exclusions st =
  (Raise (KeyError (JStr 0 "search")), after st (search_request cookies0 page)).
Proof.
  intros Hreq Hbody Hresults Hitems Hfor Hsearch.
  assert (Hin : py_in "activities" (JDict oid entries) = Ok true).
  { cbn in Hitems |- *. destruct (assoc "activities" entries); [reflexivity|discriminate]. }
  cbn [pages]. unfold mbind, Adapter_bind, send, lift. rewrite Hreq, Hbody. cbn.
  rewrite Hresults, Hin. cbn [negb].
  unfold mbind in Hitems. rewrite Hitems, Hfor.
  cbn. rewrite Hsearch. reflexivity.
Qed.

(** X11: an exhaustive listing that never ends.  The loop stops when the
    page count the service reports equals the number of the page; when the
    service goes on answering with pages that have activities and report a
    count below the page the loop is at, the loop goes on asking: however
    many pages it is allowed, it has not returned. *)
Theorem exhaustive_listing_runs_on fuel0 cookies0 res body results items search
    totalPages total :
  (forall page, requests w (search_request cookies0 page) = Ok res) ->
  resp_json res = Ok body ->
  getitem body "results" = Ok results ->
  py_in "activities" results = Ok true ->
  getitem results "activities" ≫= py_iter = Ok items ->
  (forall activities exclusions,
      exists activities' exclusions',
        for_activities hierarchy fuel0 items activities exclusions =
        Some (Ok (activities', exclusions'))) ->
  getitem results "search" = Ok search ->
  getitem search "totalPages" = Ok totalPages ->
  py_int totalPages = Ok total ->
  forall fuel page activities exclusions st,
    total < page ->
    (pages hierarchy w fuel0 fuel true cookies0 page activities exclusions st).1 = Ok None.
Proof.
  intros Hreq Hbody Hresults Hin Hitems Hfor Hsearch Htotal Hint.
  induction fuel as [|fuel IH]; intros page A E st Hlt; [reflexivity|].
  cbn [pages]. unfold mbind, Adapter_bind, send, lift. rewrite Hreq, Hbody. cbn.
  rewrite Hresults, Hin. cbn [negb].
  unfold mbind in Hitems. rewrite Hitems.
  destruct (Hfor A E) as (A' & E' & ->).
  unfold last_page. cbn. rewrite Hsearch. cbn. rewrite Htotal. cbn. rewrite Hint. cbn.
  destruct (total =? page) eqn:Heq; [apply Z.eqb_eq in Heq; lia|].
  apply IH. lia.
Qed.






End Facts.

(** A listing of three pages for alice, who has no session yet: she is
    logged in, and the pages are asked for with the offsets 0, 50 and
    100. *)
Example three_pages_are_asked_for :
  map (fun req => (url req, params req))
    (sent (DownloadActivityList sample_forest
             (canned_world (serving (page_with_count [] 3)) 500) 7 alice true
             empty_state).2) =
  [("https://connect.garmin.com/signin", []);
   ("https://connect.garmin.com/signin", []);
   ("http://connect.garmin.com/proxy/activity-search-service-1.0/json/activities",
    [("start", AInt 0); ("limit", AInt 50)]);
   ("http://connect.garmin.com/proxy/activity-search-service-1.0/json/activities",
    [("start", AInt 50); ("limit", AInt 50)]);
   ("http://connect.garmin.com/proxy/activity-search-service-1.0/json/activities",
    [("start", AInt 100); ("limit", AInt 50)])].
Proof. evaluate. Qed.


Lemma listed_activity_is_finalized_witness :
  exists activity,
    listed sample_forest 5 (run_record "1002" "trail_running" 10.9 "5:30 min/km") =
    Some (Ok (inl activity)) /\
    ServiceData activity = [("ActivityID", str "1002")] /\
    Type_ activity = Some Running.
Proof.
  exists listed_run.
  assert (Hlisted : listed sample_forest 5
                      (run_record "1002" "trail_running" 10.9 "5:30 min/km") =
                    Some (Ok (inl listed_run))) by evaluate.
  split; [exact Hlisted|].
  destruct (listed_activity_is_finalized sample_forest 5 _ _ Hlisted)
    as (act & activityId & type & Hact & _ & Hid & Hdata & Htype & _ & _).
  injection Hact as <-. injection Hid as <-.
  split; [exact Hdata|]. evaluate.
Defined.

Lemma resolve_supported_witness :
  _resolveActivityType sample_forest 3 (str "trail_running") = Some (Ok Running) /\
  Running ∈ SupportedActivities.
Proof.
  split; [reflexivity|].
  apply (resolve_supported sample_forest 3 (str "trail_running")). reflexivity.
Defined.

Lemma every_record_is_accounted_for_witness :
  exists added excluded,
    for_activities sample_forest 5
      [no_distance_record "1001"; run_record "1002" "trail_running" 10.9 "5:30 min/km";
       no_distance_record "1003"] [] [] = Some (Ok (added, excluded)) /\
    (length added + length excluded = 3)%nat.
Proof.
  pose (items := [no_distance_record "1001";
                  run_record "1002" "trail_running" 10.9 "5:30 min/km";
                  no_distance_record "1003"]).
  pose (r := default ([], []) (returned ([], []) <$> for_activities sample_forest 5 items [] [])).
  assert (Hrun : for_activities sample_forest 5 items [] [] = Some (Ok (r.1, r.2)))
    by evaluate.
  exists r.1, r.2. split; [exact Hrun|].
  destruct (every_record_is_accounted_for sample_forest 5 items _ _ _ _ Hrun)
    as (added & excluded & -> & -> & Hlen & _).
  exact Hlen.
Defined.

Lemma empty_page_ends_listing_witness :
  pages sample_forest (canned_world (serving (obj 20 [("results", obj 21 [])])) 500)
    5 (S 4) true [("JSESSIONID", "0123")] 1 [] [] empty_state =
  (Ok (Some ([], [])), after empty_state (search_request [("JSESSIONID", "0123")] 1)).
Proof.
  apply (empty_page_ends_listing sample_forest
           (canned_world (serving (obj 20 [("results", obj 21 [])])) 500)
           5 4 true [("JSESSIONID", "0123")] 1 [] [] empty_state
           (answer (obj 20 [("results", obj 21 [])]))
           (obj 20 [("results", obj 21 [])]) (obj 21 []));
    reflexivity.
Defined.

Lemma page_count_is_required_witness :
  pages sample_forest
    (canned_world
       (serving (obj 20 [("results",
                          obj 21 [("activities",
                                   JList 22 [no_distance_record "1001"])])])) 500)
    5 (S 4) false [("JSESSIONID", "0123")] 1 [] [] empty_state =
  (Raise (KeyError (JStr 0 "search")),
   after empty_state (search_request [("JSESSIONID", "0123")] 1)).
Proof.
  pose (results := [("activities", JList 22 [no_distance_record "1001"])]).
  apply (page_count_is_required sample_forest
           (canned_world (serving (obj 20 [("results", obj 21 results)])) 500)
           5 4 false [("JSESSIONID", "0123")] 1 [] [] empty_state
           (answer (obj 20 [("results", obj 21 results)]))
           (obj 20 [("results", obj 21 results)]) 21 results
           [no_distance_record "1001"]
           [] [APIExcludeActivity "No distance" (Some (str "1001"))]);
    reflexivity.
Defined.

Lemma exhaustive_listing_runs_on_witness :
  (pages sample_forest (canned_world (serving (page_with_count [] 0)) 500)
     5 1000 true [("JSESSIONID", "0123")] 1 [] [] empty_state).1 = Ok None.
Proof.
  apply (exhaustive_listing_runs_on sample_forest
           (canned_world (serving (page_with_count [] 0)) 500)
           5 [("JSESSIONID", "0123")]
           (answer (page_with_count [] 0)) (page_with_count [] 0)
           (obj 21 [("activities", JList 22 []);
                    ("search", obj 23 [("totalPages", JInt 0 0)])])
           [] (obj 23 [("totalPages", JInt 0 0)]) (JInt 0 0) 0);
    try reflexivity.
  intros activities exclusions. exists activities, exclusions. reflexivity.
Defined.

End ListingExtras.

(** ** More on the records of the listing *)

Module RecordExtras.
Import Samples MoreSamples Reasoning.

Lemma getitem_in d k v : getitem d k = Ok v -> py_in k d = Ok true.
Proof.
  destruct d; cbn; try discriminate.
  destruct (assoc k kv); [reflexivity|discriminate].
Qed.

(** A text without the separator is the one part [split] returns. *)
Lemma split_no_colon s :
  is_substring ":" s = false -> split ":"%char s = [s].
Proof.
  induction s as [|c s IH]; [reflexivity|].
  cbn [is_substring]. intros Hsub.
  apply orb_false_elim in Hsub as [Hprefix Hrest].
  cbn [split]. destruct (Ascii.eqb_spec c ":"%char) as [->|Hne].
  - cbn in Hprefix. destruct s; discriminate.
  - rewrite (IH Hrest). reflexivity.
Qed.

Lemma fix_Power_ordered power : ordered (fix_Power power).
Proof.
  unfold fix_Power, ordered.
  destruct (Max power) as [mx|] eqn:Hmax, (Min power) as [mn|] eqn:Hmin.
  - destruct (mx <? mn)%float eqn:Hlt; cbn.
    + rewrite Hmax. exact I.
    + rewrite Hmax, Hmin. exact Hlt.
  - rewrite Hmax, Hmin. exact I.
  - rewrite Hmax. exact I.
  - rewrite Hmax. exact I.
Qed.

(** X13: latitudes that are two objects decide the flag alone.  When the
    record has both latitudes and they are not one and the same object,
    the activity is not stationary; the longitudes are not read, and may
    be missing. *)
Theorem distinct_latitudes_decide act beginLatitude endLatitude :
  getitem act "beginLatitude" = Ok beginLatitude ->
  getitem act "endLatitude" = Ok endLatitude ->
  py_is beginLatitude endLatitude = false ->
  is_stationary act = Ok false.
Proof.
  intros Hbegin Hend Hdiffer. unfold is_stationary.
  rewrite (getitem_in _ _ _ Hbegin). cbn.
  rewrite (getitem_in _ _ _ Hend). cbn.
  rewrite Hbegin. cbn. rewrite Hend. cbn. rewrite Hdiffer. reflexivity.
Qed.

(** X14: latitudes that are one object need the longitudes.  When both
    latitudes are one and the same object and the record has no
    ["beginLongitude"], line 145 raises [KeyError]: only the latitudes are
    looked for before they are read. *)
Theorem shared_latitude_needs_longitudes act beginLatitude endLatitude :
  getitem act "beginLatitude" = Ok beginLatitude ->
  getitem act "endLatitude" = Ok endLatitude ->
  py_is beginLatitude endLatitude = true ->
  py_in "beginLongitude" act = Ok false ->
  is_stationary act = Raise (KeyError (JStr 0 "beginLongitude")).
Proof.
  intros Hbegin Hend Hsame Hmissing. unfold is_stationary.
  rewrite (getitem_in _ _ _ Hbegin). cbn [mbind result_bind negb].
  rewrite (getitem_in _ _ _ Hend). cbn [mbind result_bind negb].
  rewrite Hbegin. cbn [mbind result_bind]. rewrite Hend. cbn [mbind result_bind].
  rewrite Hsame. destruct act; try discriminate. cbn in Hmissing |- *.
  destruct (assoc "beginLongitude" kv); [discriminate|reflexivity].
Qed.

Section Facts.
Context `{Collaborators}.

(** X15: the name is never blank and never "Untitled".  Lines 155 to 157
    leave the activity as it is, or set its name to the text of the
    record, and then the text is not blank once stripped (of every
    character Python counts as a space) and is not "Untitled"; and every
    such text is set, as it is in the record, not stripped. *)
Theorem name_is_never_blank_or_untitled act activity activity' :
  record_Name act activity = Ok activity' ->
  (activity' = activity \/
   exists oid text,
     (name ← getitem act "activityName"; getitem name "value") = Ok (JStr oid text) /\
     activity' = set_Name (Some text) activity /\
     strip text <> "" /\ text <> "Untitled") /\
  (forall oid text,
      (name ← getitem act "activityName"; getitem name "value") = Ok (JStr oid text) ->
      strip text <> "" -> text <> "Untitled" ->
      activity' = set_Name (Some text) activity).
Proof.
  unfold record_Name. intros Hname.
  destruct (getitem act "activityName") as [name|e]; cbn in Hname |- *; [|discriminate].
  destruct (getitem name "value") as [value|e]; cbn in Hname |- *; [|discriminate].
  destruct value as [| | | |oid text| |]; cbn in Hname; try discriminate.
  destruct (negb (Nat.eqb (String.length (strip text)) 0)
            && negb (String.eqb text "Untitled")) eqn:Hkeep;
    injection Hname as <-.
  - apply andb_prop in Hkeep as [Hblank Huntitled]. split.
    + right. exists oid, text. repeat split.
      * intros Hempty. rewrite Hempty in Hblank. discriminate.
      * intros ->. discriminate.
    + intros oid' text' [= _ <-] _ _. reflexivity.
  - split; [auto|]. intros oid' text' [= _ <-] Hfilled Hnamed. exfalso.
    apply andb_false_iff in Hkeep as [Hblank|Huntitled].
    + apply negb_false_iff, Nat.eqb_eq in Hblank.
      destruct (strip text); [congruence|discriminate].
    + apply negb_false_iff, String.eqb_eq in Huntitled. congruence.
Qed.

Lemma mapStat_unmapped act gcKey statKey type useSourceUnits stats stats' :
  is_mapped act gcKey = false ->
  mapStat act gcKey statKey type useSourceUnits stats = Ok stats' ->
  stats' = stats.
Proof.
  unfold is_mapped, mapStat. intros Hno Hmap.
  destruct (py_in gcKey act) as [[|]|e]; cbn in Hno, Hmap; [|congruence|discriminate].
  destruct (getitem act gcKey) as [field|e]; cbn in Hno, Hmap; [|discriminate].
  destruct (getitem field "value") as [value|e]; cbn in Hno, Hmap; [|discriminate].
  destruct (py_float value) as [v|e]; cbn in Hno, Hmap; [|discriminate].
  apply negb_false_iff in Hno. rewrite Hno in Hmap. congruence.
Qed.

(** X16: only finite values are mapped.  When the mapping returns and every
    field its rules name is missing from the record or holds an infinite
    value, the statistics are what they were: an infinity of the service
    ("-Infinity" for a minimum speed) never reaches a statistic. *)
Theorem unmapped_fields_change_nothing act rules stats stats' :
  Forall (fun rule => is_mapped act rule.1.1.1 = false) rules ->
  mapStats act rules stats = Ok stats' ->
  stats' = stats.
Proof.
  intros Hrules. revert stats.
  induction Hrules as [|[[[gcKey statKey] type] useSourceUnits] rules Hrule _ IH];
    intros stats Hmap; cbn in Hmap.
  - congruence.
  - apply bind_Ok in Hmap. destruct Hmap as (stats1 & Hfirst & Hrest).
    rewrite (IH _ Hrest). eapply mapStat_unmapped; [exact Hrule|exact Hfirst].
Qed.

(** X17: a mapping changes one statistic.  A call of [mapStat] that returns
    leaves the distance, the moving time and every statistic but the one
    it is called for as they were. *)
Theorem mapStat_changes_one_statistic act gcKey statKey type useSourceUnits stats stats' :
  mapStat act gcKey statKey type useSourceUnits stats = Ok stats' ->
  Distance stats' = Distance stats /\
  MovingTime stats' = MovingTime stats /\
  forall other, other <> statKey -> get_stat other stats' = get_stat other stats.
Proof.
  intros Hmap. unfold mapStat in Hmap.
  assert (Hset : forall stat,
             Distance (set_stat statKey stat stats) = Distance stats /\
             MovingTime (set_stat statKey stat stats) = MovingTime stats /\
             forall other, other <> statKey ->
                           get_stat other (set_stat statKey stat stats) =
                           get_stat other stats).
  { intros stat. repeat split.
    intros other Hne. destruct other, statKey; cbn; congruence. }
  crack Hmap; injection Hmap as <-; auto.
Qed.

(** X18: the listed power is ordered.  In an activity that lines 143 to 226
    build, the minimum of the power is not above its maximum: where the
    service reported it so, the minimum is unset. *)
Theorem listed_power_is_ordered act activity :
  corrected act = Ok activity -> ordered (Power (Stats activity)).
Proof.
  intros Hcorr. unfold corrected in Hcorr. crack Hcorr. injection Hcorr as <-.
  unfold mapped in Hx. crack Hx. injection Hx as <-. cbn.
  apply fix_Power_ordered.
Qed.

(** X19: a duration without a colon.  When the record has no elapsed
    duration and the text of its duration in minutes and seconds holds no
    colon, the end time cannot be computed, although the text may be a
    number: once the minutes are read from the whole text, the seconds are
    missing and line 163 raises [IndexError]. *)
Theorem duration_without_colon_raises act start duration oid text minutes :
  py_in "sumElapsedDuration" act = Ok false ->
  getitem act "sumDuration" = Ok duration ->
  getitem duration "minutesSeconds" = Ok (JStr oid text) ->
  py_in ":" (JStr oid text) = Ok false ->
  py_float (JStr 0 text) = Ok minutes ->
  record_EndTime act start = Raise IndexError.
Proof.
  intros Helapsed Hduration Htext Hcolon Hminutes. unfold record_EndTime.
  rewrite Helapsed. cbn [mbind result_bind].
  rewrite (getitem_in _ _ _ Hduration). cbn [mbind result_bind].
  rewrite Hduration. cbn [mbind result_bind]. rewrite Htext. cbn [mbind result_bind str_method].
  injection Hcolon as Hcolon. rewrite (split_no_colon _ Hcolon).
  change ([text] !! 0%nat) with (Some text).
  change ([text] !! 1%nat) with (@None string).
  change (default "" (Some text)) with text.
  rewrite Hminutes. reflexivity.
Qed.

End Facts.

Lemma distinct_latitudes_decide_witness :
  is_stationary (named_act "Morning run" "30:52") = Ok false /\
  py_in "beginLongitude" (named_act "Morning run" "30:52") = Ok false.
Proof.
  split; [|reflexivity].
  apply (distinct_latitudes_decide (named_act "Morning run" "30:52")
           (coordinate 9 "52.52") (coordinate 10 "48.14"));
    reflexivity.
Defined.

Lemma shared_latitude_needs_longitudes_witness :
  is_stationary (obj 2 [("beginLatitude", JNull); ("endLatitude", JNull)]) =
  Raise (KeyError (JStr 0 "beginLongitude")).
Proof.
  apply (shared_latitude_needs_longitudes _ JNull JNull); reflexivity.
Defined.

Lemma name_is_never_blank_or_untitled_witness :
  Name (returned new_UploadedActivity
          (record_Name (named_act "Untitled" "30:52") new_UploadedActivity)) = None /\
  Name (returned new_UploadedActivity
          (record_Name (named_act "   " "30:52") new_UploadedActivity)) = None /\
  Name (returned new_UploadedActivity
          (record_Name (named_act (no_break_space +:+ " " +:+ ideographic_space) "30:52")
             new_UploadedActivity)) = None /\
  Name (returned new_UploadedActivity
          (record_Name (named_act a_grave "30:52") new_UploadedActivity)) = Some a_grave /\
  (returned new_UploadedActivity
     (record_Name (named_act "Morning run" "30:52") new_UploadedActivity) =
   new_UploadedActivity \/
   exists oid text,
     (name ← getitem (named_act "Morning run" "30:52") "activityName";
      getitem name "value") = Ok (JStr oid text) /\
     returned new_UploadedActivity
       (record_Name (named_act "Morning run" "30:52") new_UploadedActivity) =
     set_Name (Some text) new_UploadedActivity /\
     strip text <> "" /\ text <> "Untitled").
Proof.
  split; [evaluate|]. split; [evaluate|]. split; [evaluate|]. split; [evaluate|].
  apply (name_is_never_blank_or_untitled (named_act "Morning run" "30:52")
           new_UploadedActivity).
  evaluate.
Defined.

Lemma unmapped_fields_change_nothing_witness :
  mapStats (named_act "Morning run" "30:52")
    [("minSpeed", SK_Speed, kw_min, true); ("maxSpeed", SK_Speed, kw_max, true)]
    new_ActivityStatistics = Ok new_ActivityStatistics /\
  returned new_ActivityStatistics
    (mapStats (named_act "Morning run" "30:52")
       [("minSpeed", SK_Speed, kw_min, true); ("maxSpeed", SK_Speed, kw_max, true)]
       new_ActivityStatistics) = new_ActivityStatistics.
Proof.
  assert (Hrun : mapStats (named_act "Morning run" "30:52")
                   [("minSpeed", SK_Speed, kw_min, true); ("maxSpeed", SK_Speed, kw_max, true)]
                   new_ActivityStatistics = Ok new_ActivityStatistics) by evaluate.
  split; [exact Hrun|].
  pose (r := returned new_ActivityStatistics
               (mapStats (named_act "Morning run" "30:52")
                  [("minSpeed", SK_Speed, kw_min, true); ("maxSpeed", SK_Speed, kw_max, true)]
                  new_ActivityStatistics)).
  assert (Hr : mapStats (named_act "Morning run" "30:52")
                 [("minSpeed", SK_Speed, kw_min, true); ("maxSpeed", SK_Speed, kw_max, true)]
                 new_ActivityStatistics = Ok r) by evaluate.
  change (r = new_ActivityStatistics). clearbody r.
  apply (unmapped_fields_change_nothing (named_act "Morning run" "30:52")
           [("minSpeed", SK_Speed, kw_min, true); ("maxSpeed", SK_Speed, kw_max, true)]
           new_ActivityStatistics r); [|exact Hr].
  repeat constructor.
Defined.

Lemma mapStat_changes_one_statistic_witness :
  exists stats,
    mapStat (named_act "Morning run" "30:52") "maxPower" SK_Power kw_max false
      new_ActivityStatistics = Ok stats /\
    Distance stats = Distance new_ActivityStatistics /\
    Speed stats = Speed new_ActivityStatistics.
Proof.
  pose (r := returned new_ActivityStatistics
               (mapStat (named_act "Morning run" "30:52") "maxPower" SK_Power kw_max false
                  new_ActivityStatistics)).
  assert (Hr : mapStat (named_act "Morning run" "30:52") "maxPower" SK_Power kw_max false
                 new_ActivityStatistics = Ok r) by evaluate.
  exists r. clearbody r. split; [exact Hr|].
  destruct (mapStat_changes_one_statistic _ _ _ _ _ _ _ Hr) as (Hdistance & _ & Hothers).
  split; [exact Hdistance|]. apply (Hothers SK_Speed). discriminate.
Defined.

Lemma listed_power_is_ordered_witness :
  exists activity,
    corrected (named_act "Morning run" "30:52") = Ok activity /\
    ordered (Power (Stats activity)).
Proof.
  pose (r := returned new_UploadedActivity (corrected (named_act "Morning run" "30:52"))).
  assert (Hr : corrected (named_act "Morning run" "30:52") = Ok r) by evaluate.
  exists r. clearbody r. split; [exact Hr|].
  apply (listed_power_is_ordered _ _ Hr).
Defined.

Lemma duration_without_colon_raises_witness :
  record_EndTime (named_act "Morning run" "30") (1400000000%float : @datetime sample_host)
  = Raise IndexError.
Proof.
  apply (duration_without_colon_raises (named_act "Morning run" "30")
           (1400000000%float : @datetime sample_host)
           (obj 7 [("minutesSeconds", str "30")]) 0 "30" 30%float);
    reflexivity.
Defined.

Example dropped_minimum_power :
  Min (Power (Stats (returned new_UploadedActivity
                       (corrected (named_act "Morning run" "30:52"))))) = None /\
  Max (Power (Stats (returned new_UploadedActivity
                       (corrected (named_act "Morning run" "30:52"))))) = Some 250%float.
Proof. split; evaluate. Qed.

(** What [strip] removes, and what it keeps. *)
Example strip_removes_every_space :
  strip (no_break_space +:+ " Morning run" +:+ ideographic_space) = "Morning run" /\
  strip (no_break_space +:+ ideographic_space) = EmptyString /\
  strip (" " +:+ a_grave +:+ " ") = a_grave /\
  py_len (JStr 0 (a_grave +:+ no_break_space)) = Ok 2%nat.
Proof. repeat split; reflexivity. Qed.

End RecordExtras.

(** ** More on the upload and the detail *)

Module UploadExtras.
Import Samples MoreSamples Reasoning UploadFacts.

(** X20: a type set on upload is read back the same.  The key that
    [UploadActivity] sends for a type is the only key the reverse table
    has for it, and for every type but [Other] the listing maps that key
    back to the type by the direct table alone, whatever the hierarchy
    holds. *)
Theorem uploaded_type_resolves_back hierarchy fuel t acttype rest oid :
  reverse_keys t = acttype :: rest ->
  t <> Other ->
  rest = [] /\
  _resolveActivityType hierarchy (S fuel) (JStr oid acttype) = Some (Ok t).
Proof.
  intros Hkeys Hother.
  destruct t; try congruence; vm_compute in Hkeys;
    try discriminate; try (injection Hkeys as <- <-; split; reflexivity).
Qed.

Section Facts.
Context `{Collaborators}.
Variable w : World.

Lemma echo_matches body outer inner value :
  echo_differs body outer inner value = Ok false ->
  exists field echo,
    getitem body outer = Ok field /\
    getitem field inner = Ok echo /\
    eq_str echo value = true.
Proof.
  unfold echo_differs.
  destruct (py_in outer body) as [[|]|e]; cbn; try discriminate.
  destruct (getitem body outer) as [field|e] eqn:Hfield; cbn; [|discriminate].
  destruct (getitem field inner) as [echo|e] eqn:Hecho; cbn; [|discriminate].
  intros [= Hsame]. apply negb_false_iff in Hsame. exists field, echo. auto.
Qed.

Lemma set_text_verified target value cookies0 warning st st' :
  set_text w target value cookies0 warning st = (Ok tt, st') ->
  forall text, value = Some text -> text <> "" ->
               echoed w (post_value target text cookies0) "display" "value" text.
Proof.
  intros Hset text -> Hfilled. unfold set_text in Hset.
  destruct text as [|c text]; [congruence|].
  cbn [str_truthy default from_option id] in Hset.
  unfold mbind, Adapter_bind, send, lift, throw, mret, Adapter_ret in Hset.
  revert Hset.
  destruct (requests w (post_value target (String c text) cookies0)) as [res|e] eqn:Hreq;
    [|discriminate].
  destruct (resp_json res) as [body|e] eqn:Hbody; [|discriminate].
  destruct (echo_differs body "display" "value" (String c text)) as [[|]|e] eqn:Hecho;
    try discriminate.
  intros _. destruct (echo_matches _ _ _ _ Hecho) as (field & echo & Hfield & Hecho' & Hsame).
  exists res, body, field, echo. auto.
Qed.

Lemma set_type_verified actid type cookies0 st st' :
  set_type w actid type cookies0 st = (Ok tt, st') ->
  exists t,
    type = Some t /\
    (t ∈ [Running; Cycling; Other] \/
     exists acttype rest,
       reverse_keys t = acttype :: rest /\
       echoed w (post_value (type_url actid) acttype cookies0)
         "activityType" "key" acttype).
Proof.
  unfold set_type. destruct type as [t|].
  - rewrite native_type. case_bool_decide as Hnative.
    + intros _. exists t. auto.
    + intros Hset. exists t. split; [reflexivity|].
      right. destruct (reverse_keys t) as [|acttype rest]; [discriminate|].
      exists acttype, rest. split; [reflexivity|].
      unfold mbind, Adapter_bind, send, lift, throw, mret, Adapter_ret in Hset.
      revert Hset.
      destruct (requests w (post_value (type_url actid) acttype cookies0))
        as [res|e] eqn:Hreq; [|discriminate].
      destruct (resp_json res) as [body|e] eqn:Hbody; [|discriminate].
      destruct (echo_differs body "activityType" "key" acttype) as [[|]|e] eqn:Hecho;
        try discriminate.
      intros _.
      destruct (echo_matches _ _ _ _ Hecho) as (field & echo & Hfield & Hecho' & Hsame).
      exists res, body, field, echo. auto.
  - assert (Hnone : bool_decide (@None ActivityType
                                   ∈ [Some Running; Some Cycling; Some Other]) = false)
      by reflexivity.
    rewrite Hnone. discriminate.
Qed.

(** X21: a return certifies every request and every echo.  When the
    calls that follow the upload return, the requests they have sent are
    exactly those for the name, the notes and the type of the activity,
    in this order and on the remote id; each value they had to set (the
    name if the activity has one, the notes if it has them, the key of the
    type unless the type is one the file carries) was posted as the
    [value] of a request to the address that ends in the id, and the
    service answered it with that value; and the activity has a type. *)
Theorem follow_up_verifies_every_echo actid activity cookies0 st st' :
  follow_up w actid activity cookies0 st = (Ok tt, st') ->
  let post target value :=
    {| method := POST; url := target +:+ py_str actid; params := [];
       data := [("value", AStr value)]; files := []; cookies := Some cookies0;
       allow_redirects := true |} in
  let sent_here := drop (length (sent st)) (sent st') in
  sent st' = (sent st ++ follow_up_requests actid activity cookies0)%list /\
  (forall name,
      Name activity = Some name -> name <> "" ->
      post "http://connect.garmin.com/proxy/activity-service-1.2/json/name/" name
        ∈ sent_here /\
      echoed w
        (post "http://connect.garmin.com/proxy/activity-service-1.2/json/name/" name)
        "display" "value" name) /\
  (forall notes,
      Notes activity = Some notes -> notes <> "" ->
      post "http://connect.garmin.com/proxy/activity-service-1.2/json/description/" notes
        ∈ sent_here /\
      echoed w
        (post "http://connect.garmin.com/proxy/activity-service-1.2/json/description/"
           notes)
        "display" "value" notes) /\
  exists t,
    Type_ activity = Some t /\
    (t ∈ [Running; Cycling; Other] \/
     exists acttype rest,
       reverse_keys t = acttype :: rest /\
       post "http://connect.garmin.com/proxy/activity-service-1.2/json/type/" acttype
         ∈ sent_here /\
       echoed w
         (post "http://connect.garmin.com/proxy/activity-service-1.2/json/type/" acttype)
         "activityType" "key" acttype).
Proof.
  intros Hrun post sent_here.
  destruct (follow_up_sent w actid activity cookies0 st) as (reqs & Hsent & _ & Hall).
  rewrite Hrun in Hsent, Hall. cbn in Hsent, Hall. specialize (Hall eq_refl). subst reqs.
  assert (Hhere : sent_here = follow_up_requests actid activity cookies0).
  { unfold sent_here. rewrite Hsent. apply drop_app_length. }
  rewrite Hhere. clear sent_here Hhere. split; [exact Hsent|].
  unfold follow_up in Hrun. unfold mbind at 1 in Hrun. unfold Adapter_bind in Hrun.
  destruct (set_text w (name_url actid) _ _ _ st) as [[[]|e] st1] eqn:Hname;
    [|discriminate].
  unfold mbind at 1 in Hrun. unfold Adapter_bind in Hrun.
  destruct (set_text w (description_url actid) _ _ _ st1) as [[[]|e] st2] eqn:Hnotes;
    [|discriminate].
  split; [|split].
  - intros name Hsome Hfilled. split.
    + unfold follow_up_requests. rewrite Hsome.
      destruct name as [|c name]; [congruence|].
      apply elem_of_app. left. apply list_elem_of_here.
    + exact (set_text_verified _ _ _ _ _ _ Hname name Hsome Hfilled).
  - intros notes Hsome Hfilled. split.
    + unfold follow_up_requests. rewrite Hsome.
      destruct notes as [|c notes]; [congruence|].
      apply elem_of_app. right. apply elem_of_app. left. apply list_elem_of_here.
    + exact (set_text_verified _ _ _ _ _ _ Hnotes notes Hsome Hfilled).
  - destruct (set_type_verified _ _ _ _ _ Hrun) as (t & Htype & Hechoed).
    exists t. split; [exact Htype|].
    destruct Hechoed as [Hnative|(acttype & rest & Hkeys & Hecho)]; [auto|].
    destruct (decide (t ∈ [Running; Cycling; Other])) as [Hnative|Hother]; [auto|].
    right. exists acttype, rest. split; [exact Hkeys|]. split; [|exact Hecho].
    unfold follow_up_requests. rewrite Htype, Hkeys.
    rewrite bool_decide_false by exact Hother.
    apply elem_of_app. right. apply elem_of_app. right. apply list_elem_of_here.
Qed.

(** X22: the file is made before the session.  When the time zone cannot
    be ensured, the activity cannot be serialized or it has no UID to name
    the file with, [UploadActivity] raises before it looks for a session:
    no request is sent and the session cache is not touched. *)
Theorem upload_prepares_before_it_connects serviceRecord activity st e :
  (activity ← EnsureTZ activity;
   _ ← FITIO_Dump activity;
   match UID activity with Some u => Ok u | None => Raise TypeError end) = Raise e ->
  UploadActivity w serviceRecord activity st = (Raise e, st).
Proof.
  intros Hprepare. unfold UploadActivity, mbind, Adapter_bind, lift.
  destruct (EnsureTZ activity) as [ensured|e1]; cbn in Hprepare; [|congruence].
  destruct (FITIO_Dump ensured) as [fit_file|e2]; cbn in Hprepare; [|congruence].
  destruct (UID ensured) as [uid|]; [discriminate|congruence].
Qed.

(** X23: the detail needs the id of the listing.  For an activity whose
    service data hold no ["ActivityID"], [DownloadActivity] raises
    [KeyError] before it looks for a session: no request is sent and the
    session cache is not touched. *)
Theorem detail_needs_the_listing_id serviceRecord activity st :
  assoc "ActivityID" (ServiceData activity) = None ->
  DownloadActivity w serviceRecord activity st =
  (Raise (KeyError (JStr 0 "ActivityID")), st).
Proof.
  intros Hmissing. unfold DownloadActivity, mbind, Adapter_bind, lift.
  rewrite Hmissing. reflexivity.
Qed.

End Facts.

Lemma uploaded_type_resolves_back_witness :
  reverse_keys Swimming = ["swimming"] /\
  _resolveActivityType cyclic_forest 1 (str "swimming") = Some (Ok Swimming).
Proof.
  split; [reflexivity|].
  apply (uploaded_type_resolves_back cyclic_forest 0 Swimming "swimming" [] 0);
    [reflexivity|discriminate].
Defined.

Lemma follow_up_verifies_every_echo_witness :
  map (fun req => (url req, data req))
    (sent (follow_up (canned_world (service []) 500) (JInt 0 42) swim
             [("JSESSIONID", "0123")] empty_state).2) =
  [("http://connect.garmin.com/proxy/activity-service-1.2/json/name/42",
    [("value", AStr "Morning run")]);
   ("http://connect.garmin.com/proxy/activity-service-1.2/json/description/42",
    [("value", AStr "Felt good")]);
   ("http://connect.garmin.com/proxy/activity-service-1.2/json/type/42",
    [("value", AStr "swimming")])].
Proof.
  pose (st' := (follow_up (canned_world (service []) 500) (JInt 0 42) swim
                  [("JSESSIONID", "0123")] empty_state).2).
  assert (Hrun : follow_up (canned_world (service []) 500) (JInt 0 42) swim
                   [("JSESSIONID", "0123")] empty_state = (Ok tt, st')) by evaluate.
  fold st'. clearbody st'.
  destruct (follow_up_verifies_every_echo _ _ _ _ _ _ Hrun) as (Hsent & _).
  rewrite Hsent. reflexivity.
Defined.

Lemma upload_prepares_before_it_connects_witness :
  UploadActivity (canned_world (service []) 500) alice (set_UID None swim) empty_state =
  (Raise TypeError, empty_state).
Proof.
  apply (upload_prepares_before_it_connects (canned_world (service []) 500) alice
           (set_UID None swim) empty_state TypeError).
  reflexivity.
Defined.

Lemma detail_needs_the_listing_id_witness :
  DownloadActivity (canned_world (service []) 500) alice swim empty_state =
  (Raise (KeyError (JStr 0 "ActivityID")), empty_state).
Proof.
  apply (detail_needs_the_listing_id (canned_world (service []) 500) alice swim
           empty_state).
  reflexivity.
Defined.

End UploadExtras.
